(** * yoswit-homebridge-mqtt: protocol translation engine

    A shallow embedding of the bridge's device registry
    ([DeviceService.fromAfterLoginResp], [getByMacAddress], [getByName]),
    command encoder ([switchDevice], [dimmingDevice]) and bridging broker
    ([AedesService]: BLE status decoding, replay cache, hub command
    handling), followed by the properties of the specification.

    Conventions of the embedding.
    - A JavaScript string is a [string]: one character per code unit.
    - A JavaScript number is a [number]: an integer, [NaN] or an infinity.
      The two brightness scalings leave the integers; they are evaluated
      in binary64 with the primitive floats and brought back by
      [Math_round].
    - [Record<string, T>] objects and [Map]s that are iterated are
      insertion-ordered association lists with unique keys ([OMap]); the
      intermediate [deviceInfo] table, which is only looked up, is a
      [gmap].  Keys inherited from [Object.prototype] are not modelled.
    - [undefined] is [None].  TypeScript's [!] and [as] are erased at run
      time, so a field read through them keeps its [option].
    - Functions of [AedesService] and the two command encoders run in the
      monad [M]: broker state, an event trace (logger calls and publishes,
      in program order) and exceptions. *)

From Stdlib Require Import ZArith String Ascii List Bool Floats Lia.
From stdpp Require Import gmap strings.
Import ListNotations.

Local Open Scope string_scope.
Local Open Scope Z_scope.

(** ** JavaScript primitives used by the sources *)

Inductive number :=
| Int (z : Z)
| NaN
| Infinity (neg : bool).

Module Js.

Definition len (s : string) : Z := Z.of_nat (String.length s).

(** Relative index of [String.prototype.slice]: negative counts from the
    end, everything is clamped to [0, len]. *)
Definition rel_index (n i : Z) : Z :=
  if i <? 0 then Z.max (n + i) 0 else Z.min i n.

(** [s.slice(b, e)] *)
Definition slice (s : string) (b e : Z) : string :=
  let n := len s in
  let from := rel_index n b in
  let to := rel_index n e in
  String.substring (Z.to_nat from) (Z.to_nat (Z.max (to - from) 0)) s.

(** [s.slice(b)] *)
Definition slice_from (s : string) (b : Z) : string := slice s b (len s).

(** [s.substring(a, b)]: arguments clamped to [0, len], swapped when
    out of order. *)
Definition substring (s : string) (a b : Z) : string :=
  let n := len s in
  let a' := Z.min (Z.max a 0) n in
  let b' := Z.min (Z.max b 0) n in
  String.substring (Z.to_nat (Z.min a' b'))
                   (Z.to_nat (Z.max a' b' - Z.min a' b')) s.

Fixpoint cycle (k : nat) (fill cur : string) : string :=
  match k with
  | O => ""
  | S k' =>
      match cur with
      | String c r => String c (cycle k' fill r)
      | EmptyString =>
          match fill with
          | String c r => String c (cycle k' fill r)
          | EmptyString => ""
          end
      end
  end.

(** [s.padStart(n, fill)] *)
Definition padStart (s : string) (n : Z) (fill : string) : string :=
  if n <=? len s then s
  else cycle (Z.to_nat (n - len s)) fill fill ++ s.

Definition code (c : ascii) : Z := Z.of_nat (nat_of_ascii c).

Definition chr (z : Z) : ascii := ascii_of_nat (Z.to_nat z).

(** White space and line terminators among the code units below 256. *)
Definition is_ws (c : ascii) : bool :=
  let k := code c in
  ((9 <=? k) && (k <=? 13)) || (k =? 32) || (k =? 160).

Fixpoint skip_ws (s : string) : string :=
  match s with
  | String c r => if is_ws c then skip_ws r else s
  | EmptyString => ""
  end.

Fixpoint rev_string (s acc : string) : string :=
  match s with
  | String c r => rev_string r (String c acc)
  | EmptyString => acc
  end.

(** [s.trim()] *)
Definition trim (s : string) : string :=
  rev_string (skip_ws (rev_string (skip_ws s) "")) "".

(** Value of a digit in radixes up to 36. *)
Definition digit_val (c : ascii) : option Z :=
  let k := code c in
  if (48 <=? k) && (k <=? 57) then Some (k - 48)
  else if (97 <=? k) && (k <=? 122) then Some (k - 87)
  else if (65 <=? k) && (k <=? 90) then Some (k - 55)
  else None.

Definition digit_char (d : Z) : ascii :=
  if d <? 10 then chr (48 + d) else chr (87 + d).

(** Longest prefix of digits of radix [r]; [None] when it is empty. *)
Fixpoint parse_digits (r : Z) (s : string) (acc : option Z) : option Z :=
  match s with
  | EmptyString => acc
  | String c s' =>
      match digit_val c with
      | Some d =>
          if d <? r
          then parse_digits r s' (Some (match acc with
                                        | Some a => a * r + d
                                        | None => d
                                        end))
          else acc
      | None => acc
      end
  end.

Definition strip_sign (s : string) : bool * string :=
  match s with
  | String "-" t => (true, t)
  | String "+" t => (false, t)
  | _ => (false, s)
  end.

Definition strip_0x (s : string) : string :=
  match s with
  | String "0" (String "x" t) => t
  | String "0" (String "X" t) => t
  | _ => s
  end.

(** [parseInt(s, radix)] for an explicit radix: leading white space,
    a sign, for radix 16 an [0x] prefix, then the longest run of
    digits; [NaN] when there is none. *)
Definition parseInt (s : string) (radix : Z) : number :=
  let '(neg, s2) := strip_sign (skip_ws s) in
  let s3 := if radix =? 16 then strip_0x s2 else s2 in
  match parse_digits radix s3 None with
  | None => NaN
  | Some v => Int (if neg then - v else v)
  end.

Fixpoint digits_aux (fuel : nat) (r n : Z) (acc : string) : string :=
  match fuel with
  | O => acc
  | S f =>
      let acc' := String (digit_char (n mod r)) acc in
      if n / r =? 0 then acc' else digits_aux f r (n / r) acc'
  end.

(** Digits of [n >= 0] in radix [r >= 2], most significant first. *)
Definition digits (r n : Z) : string :=
  digits_aux (S (Z.to_nat (Z.log2 n))) r n "".

(** [n.toString(radix)] *)
Definition toString_radix (n : number) (r : Z) : string :=
  match n with
  | Int z => if z <? 0 then "-" ++ digits r (- z) else digits r z
  | NaN => "NaN"
  | Infinity neg => if neg then "-Infinity" else "Infinity"
  end.

(** [String(n)], as in a template literal. *)
Definition toString (n : number) : string := toString_radix n 10.

Definition upper_char (c : ascii) : ascii :=
  let k := code c in
  if (97 <=? k) && (k <=? 122) then chr (k - 32) else c.

(** Lower case on the code units below 256. *)
Definition lower_char (c : ascii) : ascii :=
  let k := code c in
  if (65 <=? k) && (k <=? 90) then chr (k + 32)
  else if (192 <=? k) && (k <=? 222) && negb (k =? 215) then chr (k + 32)
  else c.

Fixpoint map_string (f : ascii -> ascii) (s : string) : string :=
  match s with
  | String c r => String (f c) (map_string f r)
  | EmptyString => ""
  end.

(** [s.toUpperCase()], on the letters a-z (the sources apply it to the
    output of [toString(16)] only). *)
Definition toUpperCase : string -> string := map_string upper_char.

(** [s.toLowerCase()] *)
Definition toLowerCase : string -> string := map_string lower_char.

(** [s.startsWith(p)] *)
Definition startsWith (s p : string) : bool := String.prefix p s.

(** [s.includes(p)] *)
Fixpoint includes (s p : string) : bool :=
  String.prefix p s ||
  match s with
  | String _ r => includes r p
  | EmptyString => false
  end.

Fixpoint drop (k : nat) (s : string) : string :=
  match k, s with
  | S k', String _ r => drop k' r
  | _, _ => s
  end.

(** [s.replace(p, "")] for a string pattern: the first occurrence is
    removed. *)
Fixpoint remove_first (s p : string) : string :=
  if String.prefix p s then drop (String.length p) s
  else match s with
       | String c r => String c (remove_first r p)
       | EmptyString => ""
       end.

(** [s.replace(/\[\/?en\]/g, "")]: every [[en]] and [[/en]] is removed,
    scanning from the left; [skip] counts the characters of a match
    still to be dropped. *)
Fixpoint strip_en (s : string) (skip : nat) : string :=
  match s with
  | EmptyString => ""
  | String c r =>
      match skip with
      | S k => strip_en r k
      | O =>
          if String.prefix "[en]" s then strip_en r 3
          else if String.prefix "[/en]" s then strip_en r 4
          else String c (strip_en r 0)
      end
  end.

(** [s.split(sep)] for a one-character separator. *)
Fixpoint split_on (sep : ascii) (s : string) : list string :=
  match s with
  | EmptyString => [""]
  | String c r =>
      let rest := split_on sep r in
      if Ascii.eqb c sep then "" :: rest
      else match rest with
           | h :: t => String c h :: t
           | [] => [String c ""]
           end
  end.

(** [s.split("")] *)
Fixpoint chars (s : string) : list string :=
  match s with
  | String c r => String c "" :: chars r
  | EmptyString => []
  end.

(** [a.join("")] on an array of strings. *)
Definition join (l : list string) : string := String.concat "" l.

(** [Number(s)] on white space, signed decimal integers and
    [Infinity]; numerals with a fraction, an exponent or a radix prefix
    denote numbers outside the carrier of [number] and are read as
    [NaN] here. *)
Fixpoint all_decimal (s : string) : bool :=
  match s with
  | String c r => (48 <=? code c) && (code c <=? 57) && all_decimal r
  | EmptyString => true
  end.

Definition Number (s : string) : number :=
  let t := trim s in
  if String.eqb t "" then Int 0
  else
    let '(neg, u) := strip_sign t in
    if String.eqb u "Infinity" then Infinity neg
    else if negb (String.eqb u "") && all_decimal u
         then match parse_digits 10 u None with
              | Some v => Int (if neg then - v else v)
              | None => NaN
              end
         else NaN.

(** Binary subtraction [a - b]. *)
Definition sub (a b : number) : number :=
  match a, b with
  | Int x, Int y => Int (x - y)
  | Infinity s, Int _ => Infinity s
  | Int _, Infinity s => Infinity (negb s)
  | Infinity s, Infinity t => if Bool.eqb s t then NaN else Infinity s
  | _, _ => NaN
  end.

(** [a > 0] *)
Definition gt0 (a : number) : bool :=
  match a with
  | Int z => 0 <? z
  | NaN => false
  | Infinity neg => negb neg
  end.

(** The binary64 value of a number; integers are rounded to nearest
    even (exact below 2^53). *)
Definition to_float (n : number) : float :=
  match n with
  | Int z => SF2Prim (binary_normalize prec emax z 0 false)
  | NaN => nan
  | Infinity neg => if neg then neg_infinity else infinity
  end.

(** [Math.round(x)]: the integer nearest to [x], ties towards
    [+Infinity]; computed exactly as [floor (x + 1/2)] on the
    mantissa and exponent of [x]. *)
Definition Math_round (x : float) : number :=
  match Prim2SF x with
  | S754_zero _ => Int 0
  | S754_infinity s => Infinity s
  | S754_nan => NaN
  | S754_finite s m e =>
      let n := if s then Z.neg m else Z.pos m in
      Int (if 0 <=? e then n * 2 ^ e
           else (2 * n + 2 ^ (- e)) / 2 ^ (- e + 1))
  end.

(** JavaScript arrays of numbers, with holes. *)
Definition array := list (option number).

(** [Array(n).fill(v)] *)
Definition Array_fill (n : nat) (v : number) : array := repeat (Some v) n.

Fixpoint set_nth (k : nat) (v : number) (a : array) : array :=
  match k, a with
  | O, _ :: t => Some v :: t
  | O, [] => [Some v]
  | S k', x :: t => x :: set_nth k' v t
  | S k', [] => None :: set_nth k' v []
  end.

(** [a[i] = v]: an array index (an integer in [0, 2^32 - 2]) writes the
    element, extending the array with holes when needed; any other key
    creates a plain property, which leaves the elements alone. *)
Definition array_set (a : array) (i : number) (v : number) : array :=
  match i with
  | Int k => if (0 <=? k) && (k <? 2 ^ 32 - 1)
             then set_nth (Z.to_nat k) v a else a
  | _ => a
  end.

(** [a.join("")] on an array of numbers: holes print as nothing. *)
Definition array_join (a : array) : string :=
  String.concat "" (map (fun x => match x with
                                  | Some n => toString n
                                  | None => ""
                                  end) a).

(** [a[i]] on an array of strings; [None] is [undefined]. *)
Definition array_get (a : list string) (i : number) : option string :=
  match i with
  | Int k => if 0 <=? k then nth_error a (Z.to_nat k) else None
  | _ => None
  end.

(** Truthiness of an optional string. *)
Definition truthy (o : option string) : bool :=
  match o with
  | Some s => negb (String.eqb s "")
  | None => false
  end.

End Js.

(** ** Insertion-ordered maps

    [Object.values] of a [Record<string, T>] whose keys are not array
    indices and [Map.prototype.entries] both enumerate in insertion
    order; assigning to a present key keeps its place. *)

Module OMap.
Section Ops.
Context {V : Type}.

Fixpoint get (k : string) (m : list (string * V)) : option V :=
  match m with
  | [] => None
  | (k', v) :: r => if String.eqb k k' then Some v else get k r
  end.

Fixpoint set (k : string) (v : V) (m : list (string * V)) : list (string * V) :=
  match m with
  | [] => [(k, v)]
  | (k', v') :: r =>
      if String.eqb k k' then (k, v) :: r else (k', v') :: set k v r
  end.

Definition keys (m : list (string * V)) : list string := map fst m.

Definition values (m : list (string * V)) : list V := map snd m.

End Ops.
End OMap.

(** ** Data model (deviceService.ts) *)

Inductive DeviceType := SWITCH | DIMMING.

Definition DeviceType_eqb (a b : DeviceType) : bool :=
  match a, b with
  | SWITCH, SWITCH | DIMMING, DIMMING => true
  | _, _ => false
  end.

(** [interface Device].  [macAddress] and [gatewayId] are declared
    [string]; they are filled from optional fields through [!], so at run
    time they can hold [undefined]. *)
Record Device := {
  id : string;
  guid : string;
  name : option string;
  type : DeviceType;
  index : number;
  macAddress : option string;
  roomName : option string;
  gatewayId : option string
}.

(** [class DeviceService]: its one field. *)
Record DeviceService := { devices : list (string * Device) }.

(** The cloud snapshot handed to [fromAfterLoginResp]: the entries of
    [data.profile.profile_device], the values of [data.device] and the
    entries of [data.profile.profile_subdevice].  A field that is absent,
    [null] or [undefined] is [None]. *)
Record ProfileDevice := {
  pd_device : option string;
  pd_gateway : option string
}.

Record DeviceData := {
  dd_name : option string;
  dd_mac_address : option string
}.

Record ProfileSubdevice := {
  device_button_group : option string;
  ps_device : option string;
  title : option string;
  room_name : option string
}.

Record AfterLoginResp := {
  profile_device : list ProfileDevice;
  device : list DeviceData;
  profile_subdevice : list ProfileSubdevice
}.

(** An entry of the local [deviceInfo] table. *)
Record DeviceInfo := {
  gateway : option string;
  info_macAddress : option string
}.

(** ** JSON values, events, exceptions

    The numbers of a value are those of [number]: a number with a
    fraction has no counterpart here. *)

Unset Elimination Schemes.
Inductive json :=
| JNull
| JBool (b : bool)
| JNum (n : number)
| JStr (s : string)
| JArr (items : list json)
| JObj (fields : list (string * json)).
Set Elimination Schemes.

Inductive LogLevel := DEBUG | INFO | WARN | ERROR.

(** What a handler does to the outside, in program order.
    [AedesPublish topic payload] is [this.aedes.publish] with the packet
    [{topic, payload: JSON.stringify(payload), qos: 1, retain: false,
    dup: false, cmd: "publish"}]; [MqttPublish topic data] is
    [service.mqttService.publish(topic, data)].  The completion callbacks
    of the broker, which only log, run later and are not part of the
    trace. *)
Inductive event :=
| Log (lvl : LogLevel)
| AedesPublish (topic : string) (payload : json)
| MqttPublish (topic : string) (data : json).

Inductive exn :=
| Error (msg : string)
| TypeError
| SyntaxError.

(** The global [service] locator. *)
Record Service := {
  deviceService : option DeviceService;
  mqttService : bool
}.

(** The mutable state a handler of [AedesService] sees. *)
Record world := {
  service : Service;
  topicPrefix : string;
  bleDeviceCache : list (string * string)
}.

Definition with_cache (w : world) (c : list (string * string)) : world :=
  {| service := service w; topicPrefix := topicPrefix w; bleDeviceCache := c |}.

(** ** The handler monad: state, trace, exceptions *)

Inductive outcome (A : Type) :=
| Ok (a : A)
| Throw (e : exn).

Arguments Ok {A} a.
Arguments Throw {A} e.

Definition M (A : Type) : Type := world -> outcome A * world * list event.

Definition run {A} (m : M A) (w : world) : outcome A * world * list event := m w.

#[export] Instance M_ret : MRet M := fun A a w => (Ok a, w, []).

#[export] Instance M_bind : MBind M := fun A B f m w =>
  match m w with
  | (Ok a, w1, t1) =>
      match f a w1 with
      | (o, w2, t2) => (o, w2, (t1 ++ t2)%list)
      end
  | (Throw e, w1, t1) => (Throw e, w1, t1)
  end.

Definition throw {A} (e : exn) : M A := fun w => (Throw e, w, []).

Definition emit (ev : event) : M unit := fun w => (Ok tt, w, [ev]).

Definition get_world : M world := fun w => (Ok w, w, []).

Definition put_world (w' : world) : M unit := fun _ => (Ok tt, w', []).

(** [try { m } catch (error) { h error }] *)
Definition try_catch {A} (m : M A) (h : exn -> M A) : M A := fun w =>
  match m w with
  | (Ok a, w1, t1) => (Ok a, w1, t1)
  | (Throw e, w1, t1) =>
      match h e w1 with
      | (o, w2, t2) => (o, w2, (t1 ++ t2)%list)
      end
  end.

(** [for (const x of l) body(x)] *)
Fixpoint for_each {A} (l : list A) (body : A -> M unit) : M unit :=
  match l with
  | [] => mret tt
  | x :: r => body x;; for_each r body
  end.

Definition logger (lvl : LogLevel) : M unit := emit (Log lvl).

(** The publishes of a trace. *)
Definition is_publish (ev : event) : bool :=
  match ev with
  | Log _ => false
  | _ => true
  end.

Definition publishes (t : list event) : list event := filter is_publish t.

(** ** Registry construction (DeviceService.fromAfterLoginResp)

    The function is pure apart from its logger calls, which are left
    out of this part of the model. *)

(** First loop: the gateway of each module, from [profile_device]. *)
Definition addGateway (deviceInfo : gmap string DeviceInfo)
    (profileDevice : ProfileDevice) : gmap string DeviceInfo :=
  if negb (Js.truthy (pd_device profileDevice))
     || negb (Js.truthy (pd_gateway profileDevice))
  then deviceInfo
  else match pd_device profileDevice with
       | Some d =>
           <[d := {| gateway := pd_gateway profileDevice;
                     info_macAddress := None |}]> deviceInfo
       | None => deviceInfo
       end.

(** Second loop: the MAC address of each module, from [device]. *)
Definition addMacAddress (deviceInfo : gmap string DeviceInfo)
    (deviceData : DeviceData) : gmap string DeviceInfo :=
  if negb (Js.truthy (dd_name deviceData))
     || negb (Js.truthy (dd_mac_address deviceData))
  then deviceInfo
  else match dd_name deviceData, dd_mac_address deviceData with
       | Some n, Some mac =>
           match deviceInfo !! n with
           | Some info =>
               if negb (Js.truthy (gateway info)) then deviceInfo
               else <[n := {| gateway := gateway info;
                              info_macAddress := Some (Js.toLowerCase mac) |}]>
                      deviceInfo
           | None => deviceInfo
           end
       | _, _ => deviceInfo
       end.

(** [`${x}`] for an optional string. *)
Definition template (o : option string) : string :=
  match o with
  | Some s => s
  | None => "undefined"
  end.

(** [let roomName = room_name; if (roomName) roomName =
    roomName.replace(/\[\/?en\]/g, "").trim();] *)
Definition cleanRoomName (room : option string) : option string :=
  match room with
  | Some r => if Js.truthy room then Some (Js.trim (Js.strip_en r 0)) else room
  | None => None
  end.

(** The [ONOFF GANG] branch of the third loop. *)
Definition addSwitch (deviceInfo : gmap string DeviceInfo)
    (group : string) (sub : ProfileSubdevice)
    (devs : list (string * Device)) : list (string * Device) :=
  let name := title sub in
  if Js.truthy name
     && (Js.includes (template name) "V1" || Js.includes (template name) "V2")
  then devs
  else
    let index := Js.Number (Js.remove_first group "ONOFF GANG") in
    let id := template (ps_device sub) ++ "-" ++ Js.toString index in
    match OMap.get id devs with
    | Some _ => devs
    | None =>
        match ps_device sub with
        | Some guid =>
            if negb (Js.truthy (ps_device sub)) then devs
            else
              let roomName := cleanRoomName (room_name sub) in
              match deviceInfo !! guid with
              | Some info =>
                  if negb (Js.truthy (info_macAddress info))
                     || negb (Js.truthy (gateway info))
                  then devs
                  else OMap.set id
                         {| id := id; guid := guid; name := name;
                            type := SWITCH; index := index;
                            macAddress := info_macAddress info;
                            roomName := roomName;
                            gatewayId := gateway info |} devs
              | None => devs
              end
        | None => devs
        end
    end.

(** The [DIMMING] branch of the third loop.  Reading [.macAddress] of a
    missing [deviceInfo] entry throws a [TypeError], which the [catch] of
    the loop body turns into a skipped record.  The table is read as a
    map of its own entries: under a module name that every object
    inherits a property for ([inherited], below) the code finds that
    property instead of nothing; the statements that depend on the
    difference are made on [readable] snapshots. *)
Definition addDimming (deviceInfo : gmap string DeviceInfo)
    (sub : ProfileSubdevice)
    (devs : list (string * Device)) : list (string * Device) :=
  let index := Int 0 in
  let id := template (ps_device sub) ++ "-" ++ Js.toString index in
  match OMap.get id devs with
  | Some _ => devs
  | None =>
      match ps_device sub with
      | Some guid =>
          if negb (Js.truthy (ps_device sub)) then devs
          else
            let roomName := cleanRoomName (room_name sub) in
            match deviceInfo !! guid with
            | Some info =>
                OMap.set id
                  {| id := id; guid := guid; name := title sub;
                     type := DIMMING; index := index;
                     macAddress := info_macAddress info;
                     roomName := roomName;
                     gatewayId := gateway info |} devs
            | None => devs
            end
      | None => devs
      end
  end.

(** Body of the third loop. *)
Definition addSubdevice (deviceInfo : gmap string DeviceInfo)
    (devs : list (string * Device)) (sub : ProfileSubdevice)
    : list (string * Device) :=
  match device_button_group sub with
  | Some group =>
      if negb (Js.truthy (device_button_group sub)) then devs
      else if Js.startsWith group "ONOFF GANG"
           then addSwitch deviceInfo group sub devs
      else if Js.startsWith group "DIMMING"
           then addDimming deviceInfo sub devs
      else devs
  | None => devs
  end.

Definition buildDeviceInfo (data : AfterLoginResp) : gmap string DeviceInfo :=
  fold_left addMacAddress (device data)
    (fold_left addGateway (profile_device data) ∅).

Definition fromAfterLoginResp (data : AfterLoginResp) : DeviceService :=
  {| devices := fold_left (addSubdevice (buildDeviceInfo data))
                  (profile_subdevice data) [] |}.

(** [getByMacAddress]: [device.macAddress === macAddress]. *)
Definition mac_is (mac : string) (d : Device) : bool :=
  match macAddress d with
  | Some m => String.eqb m mac
  | None => false
  end.

Definition getByMacAddress (this : DeviceService) (mac : string)
    : list Device :=
  filter (mac_is mac) (OMap.values (devices this)).

(** [this.devices[name]] among the stored devices; [None] is
    [undefined] for every name that is no [inherited] key. *)
Definition getByName (this : DeviceService) (name : string) : option Device :=
  OMap.get name (devices this).

(** ** BLE status decoder (AedesService) *)

(** [device.name || "Unnamed Device"], then the room in parentheses. *)
Definition service_name_of (device : Device) : string :=
  let service_name :=
    if Js.truthy (name device) then template (name device)
    else "Unnamed Device" in
  if Js.truthy (roomName device)
  then service_name ++ " (" ++ template (roomName device) ++ ")"
  else service_name.

Definition setCharacteristic (device : Device) (characteristic : string)
    (value : json) : M unit :=
  w ← get_world;
  let topic := topicPrefix w ++ "/to/set" in
  emit (AedesPublish topic
          (JObj [("name", JStr (id device));
                 ("service_name", JStr (service_name_of device));
                 ("characteristic", JStr characteristic);
                 ("value", value)])).

(** The [lightStates] array of [handleSwitchBLEData]. *)
Definition lightStates (data : string) : list string :=
  let status := Js.slice_from data (-1) in
  let statusInt := Js.parseInt status 16 in
  rev (Js.chars (Js.slice (Js.padStart (Js.toString_radix statusInt 2) 4 "0")
                          0 (-1))).

Definition handleSwitchBLEData (device : Device) (data : string) : M unit :=
  logger DEBUG;;
  let lightStates := lightStates data in
  if negb (DeviceType_eqb (type device) SWITCH) then logger ERROR
  else
    match Js.array_get lightStates (Js.sub (index device) (Int 1)) with
    | None => logger WARN
    | Some isOn =>
        setCharacteristic device "On" (JBool (String.eqb isOn "1"))
    end.

(** [Math.round((brightness / 255) * 100)] *)
Definition scaleTo100 (brightness : number) : number :=
  Js.Math_round (Js.to_float brightness / 255 * 100)%float.

Definition handleDimmingBLEData (device : Device) (data : string) : M unit :=
  logger DEBUG;;
  if Js.len data <? 6 then logger WARN
  else
    let brightnessHex := Js.substring data 4 6 in
    match Js.parseInt brightnessHex 16 with
    | NaN => logger WARN
    | parsed =>
        let brightness := scaleTo100 parsed in
        setCharacteristic device "Brightness" (JNum brightness);;
        setCharacteristic device "On" (JBool (Js.gt0 brightness))
    end.

Definition decodeFor (data : string) (device : Device) : M unit :=
  match type device with
  | SWITCH => handleSwitchBLEData device data
  | DIMMING => handleDimmingBLEData device data
  end.

Definition handleBleDeviceData (macAddress data : string) : M unit :=
  w ← get_world;
  match deviceService (service w) with
  | None => logger ERROR
  | Some deviceService =>
      match getByMacAddress deviceService macAddress with
      | [] => logger DEBUG
      | devices => for_each devices (decodeFor data)
      end
  end.

Definition extractAndCacheBleDeviceMessage (payloadString : string) : M unit :=
  let macAddress := Js.slice payloadString 0 17 in
  let data := Js.slice_from payloadString 17 in
  w ← get_world;
  put_world (with_cache w (OMap.set macAddress data (bleDeviceCache w)));;
  logger DEBUG;;
  handleBleDeviceData macAddress data.

(** ** Discovery and subscription (AedesService) *)

Definition addDevice (device : Device) (service : string)
    (additionalProperties : list (string * json)) : M unit :=
  w ← get_world;
  let payload :=
    JObj ([("name", JStr (id device));
           ("service_name", JStr (service_name_of device));
           ("service", JStr service)] ++ additionalProperties)%list in
  let topic := topicPrefix w ++ "/to/add" in
  emit (AedesPublish topic payload).

Definition publishDeviceAddition (device : Device) : M unit :=
  match type device with
  | SWITCH => addDevice device "Lightbulb" []
  | DIMMING => addDevice device "Lightbulb" [("Brightness", JStr "default")]
  end.

Definition all_devices (s : Service) : list Device :=
  match deviceService s with
  | Some ds => OMap.values (devices ds)
  | None => []
  end.

Definition replay (entry : string * string) : M unit :=
  handleBleDeviceData (fst entry) (snd entry).

Definition handleSubscription (subscription_topic : string) : M unit :=
  logger INFO;;
  w ← get_world;
  if negb (String.eqb subscription_topic (topicPrefix w ++ "/to/#"))
  then mret tt
  else
    for_each (all_devices (service w)) publishDeviceAddition;;
    logger INFO;;
    for_each (bleDeviceCache w) replay.

Definition handleClientConnection : M unit := logger INFO.

(** ** Values received from the hub *)

(** [String(v)], also the property key a value is turned into and its
    text in a template literal; [None] is a thrown [TypeError].  An
    object converts through the [toString] it inherits, unless it has a
    [toString] of its own: no parsed value is callable, so that one is
    passed over, [valueOf] gives the object back, and the conversion
    throws.  An array joins the conversions of its elements, [null]
    giving the empty string. *)
Fixpoint js_String (v : json) : option string :=
  match v with
  | JNull => Some "null"
  | JBool b => Some (if b then "true" else "false")
  | JNum n => Some (Js.toString n)
  | JStr s => Some s
  | JArr items =>
      option_map (String.concat ",")
        ((fix join (l : list json) : option (list string) :=
            match l with
            | [] => Some []
            | x :: r =>
                match match x with JNull => Some "" | _ => js_String x end,
                      join r with
                | Some s, Some t => Some (s :: t)
                | _, _ => None
                end
            end) items)
  | JObj fields =>
      match OMap.get "toString" fields with
      | Some _ => None
      | None => Some "[object Object]"
      end
  end.

(** The conversion of a property that may be [undefined]. *)
Definition to_key (o : option json) : option string :=
  match o with
  | Some v => js_String v
  | None => Some "undefined"
  end.

(** Truthiness. *)
Definition to_boolean (o : option json) : bool :=
  match o with
  | None | Some JNull => false
  | Some (JBool b) => b
  | Some (JNum (Int z)) => negb (z =? 0)
  | Some (JNum NaN) => false
  | Some (JNum (Infinity _)) => true
  | Some (JStr s) => negb (String.eqb s "")
  | Some (JArr _) | Some (JObj _) => true
  end.

(** [Number(v)]; an object or an array converts through its string. *)
Definition to_Number (o : option json) : option number :=
  match o with
  | None => Some NaN
  | Some JNull => Some (Int 0)
  | Some (JBool b) => Some (Int (if b then 1 else 0))
  | Some (JNum n) => Some n
  | Some (JStr s) => Some (Js.Number s)
  | Some v => option_map Js.Number (js_String v)
  end.

(** A conversion inside a handler: a [TypeError] where it is undefined. *)
Definition convert {A} (o : option A) : M A :=
  match o with
  | Some a => mret a
  | None => throw TypeError
  end.

(** [payload.k] on a value returned by [JSON.parse]: reading a property
    of [null] throws; the fields of a parsed object have distinct keys;
    the other values have none of the three properties the handler
    reads. *)
Definition prop (payload : json) (k : string) : M (option json) :=
  match payload with
  | JNull => throw TypeError
  | JObj fields => mret (OMap.get k fields)
  | _ => mret None
  end.

Definition is_str (o : option json) (s : string) : bool :=
  match o with
  | Some (JStr s') => String.eqb s' s
  | _ => false
  end.

Record PublishPacket := {
  topic : string;
  payload : string
}.

(** ** Command encoder and hub commands

    [md5] (utils.ts, a digest of the platform's crypto library) and
    [JSON.parse] are taken as they are: a function on strings, and a
    partial function from strings to values that throws a [SyntaxError]
    where it is undefined. *)

Section Bridge.

Variable md5 : string -> string.
Variable JSON_parse : string -> option json.

(** [`cmd/${await md5(await md5(gatewayId))}`]; the text encoder reads
    [undefined] as the empty string. *)
Definition commandTopic (gatewayId : option string) : string :=
  "cmd/" ++ md5 (md5 (match gatewayId with Some g => g | None => "" end)).

(** The object handed to [service.mqttService.publish]. *)
Definition writeCommand (guid macAddress value : string) : json :=
  JObj [("command", JStr "Control");
        ("function", JStr "bleHelper.perform");
        ("params",
         JArr [JObj [("action", JStr "write");
                     ("guid", JStr guid);
                     ("mac_address", JStr macAddress);
                     ("service_id", JStr "ff80");
                     ("char_id", JStr "ff81");
                     ("value", JStr value)]]);
        ("callback", JStr "");
        ("raw", JStr "")].

(** [await service.mqttService?.publish(topic, data)] *)
Definition mqttPublish (topic : string) (data : json) : M unit :=
  w ← get_world;
  if mqttService (service w) then emit (MqttPublish topic data) else mret tt.

(** The [bits] array of [switchDevice]. *)
Definition switchBits (position : number) (isOn : bool) : Js.array :=
  let bits := Js.Array_fill 8 (Int 0) in
  let bits := Js.array_set bits (Js.sub (Int 4) position) (Int 1) in
  if isOn then Js.array_set bits (Js.sub (Int 8) position) (Int 1) else bits.

(** The [data] byte of [switchDevice]. *)
Definition switchData (position : number) (isOn : bool) : string :=
  Js.padStart
    (Js.toUpperCase
       (Js.toString_radix (Js.parseInt (Js.array_join (switchBits position isOn)) 2) 16))
    2 "0".

(** [macAddress.split(":").reverse().join("")] *)
Definition reversedMac (macAddress : string) : string :=
  Js.join (rev (Js.split_on ":" macAddress)).

Definition switchDevice (this : DeviceService) (id : string) (on : bool)
    : M unit :=
  logger DEBUG;;
  match OMap.get id (devices this) with
  | None => throw (Error ("Device with id " ++ id ++ " not found"))
  | Some device =>
      if negb (DeviceType_eqb (type device) SWITCH)
      then throw (Error ("Device with id " ++ id ++ " is not a switch"))
      else
        let data := switchData (index device) on in
        match macAddress device with
        | None => throw TypeError
        | Some mac =>
            let value := "02" ++ reversedMac mac ++ "8000" ++ data ++ "00" in
            let topic := commandTopic (gatewayId device) in
            logger DEBUG;;
            mqttPublish topic (writeCommand (guid device) mac value)
        end
  end.

(** [Math.round((brightness / 100) * 255)] *)
Definition scaleTo255 (brightness : number) : number :=
  Js.Math_round (Js.to_float brightness / 100 * 255)%float.

(** The [data] byte of [dimmingDevice]. *)
Definition dimmingData (brightness : number) : string :=
  Js.toUpperCase (Js.padStart (Js.toString_radix (scaleTo255 brightness) 16) 2 "0").

Definition dimmingDevice (this : DeviceService) (id : string)
    (brightness : number) : M unit :=
  logger DEBUG;;
  match OMap.get id (devices this) with
  | None => throw (Error ("Device with id " ++ id ++ " not found"))
  | Some device =>
      if negb (DeviceType_eqb (type device) DIMMING)
      then throw (Error ("Device with id " ++ id ++ " is not a dimming device"))
      else
        let data := dimmingData brightness in
        match macAddress device with
        | None => throw TypeError
        | Some mac =>
            let value := "02" ++ reversedMac mac ++ "8900" ++ data in
            let topic := commandTopic (gatewayId device) in
            logger DEBUG;;
            mqttPublish topic (writeCommand (guid device) mac value)
        end
  end.

(** The [case "On"] arm of [handleHomebridgeSetMessage], from its [try];
    [key] is [payload.name] as a string.  The templates and lookups that
    convert [payload.name] again get the same string and are not
    repeated here. *)
Definition setOn (this : DeviceService) (device : Device) (key : string)
    (payload : json) : M unit :=
  try_catch
    (match type device with
     | SWITCH =>
         value ← prop payload "value";
         _ ← convert (to_key value);
         logger INFO;;
         switchDevice this key (to_boolean value)
     | DIMMING =>
         value ← prop payload "value";
         let brightness := if to_boolean value then Int 100 else Int 0 in
         logger INFO;;
         dimmingDevice this key brightness
     end)
    (fun _ => logger ERROR).

(** The [case "Brightness"] arm; the template of its [logger.info]
    converts [payload.value] before the [try]. *)
Definition setBrightness (this : DeviceService) (device : Device)
    (key : string) (payload : json) : M unit :=
  if negb (DeviceType_eqb (type device) DIMMING) then logger ERROR
  else
    value ← prop payload "value";
    _ ← convert (to_key value);
    logger INFO;;
    try_catch
      (brightness ← convert (to_Number value);
       dimmingDevice this key brightness)
      (fun _ => logger ERROR).

(** With no device service the lookup is skipped by [?.] and
    [payload.name] is first read by the template of the error message. *)
Definition handleHomebridgeSetMessage (payload : json) : M unit :=
  w ← get_world;
  match deviceService (service w) with
  | None =>
      name ← prop payload "name";
      _ ← convert (to_key name);
      logger ERROR
  | Some this =>
      name ← prop payload "name";
      key ← convert (to_key name);
      match getByName this key with
      | None => logger ERROR
      | Some device =>
          characteristic ← prop payload "characteristic";
          if is_str characteristic "On" then
            if negb (DeviceType_eqb (type device) SWITCH)
               && negb (DeviceType_eqb (type device) DIMMING)
            then logger ERROR
            else setOn this device key payload
          else if is_str characteristic "Brightness" then
            setBrightness this device key payload
          else logger WARN
      end
  end.

Definition handlePublish (packet : PublishPacket) : M unit :=
  logger DEBUG;;
  w ← get_world;
  (if String.eqb (topic packet) (topicPrefix w ++ "/from/set")
   then match JSON_parse (payload packet) with
        | None => throw SyntaxError
        | Some payload => handleHomebridgeSetMessage payload
        end
   else mret tt);;
  if String.eqb (topic packet) "yoswit/ble/devices"
  then extractAndCacheBleDeviceMessage (payload packet)
  else mret tt.

End Bridge.

(** ** Messages and sample data used in the statements *)

(** The hub status message [setCharacteristic] publishes. *)
Definition statusUpdate (prefix : string) (device : Device)
    (characteristic : string) (value : json) : event :=
  AedesPublish (prefix ++ "/to/set")
    (JObj [("name", JStr (id device));
           ("service_name", JStr (service_name_of device));
           ("characteristic", JStr characteristic);
           ("value", value)]).

(** The hub discovery message [addDevice] publishes. *)
Definition discovery (prefix : string) (device : Device) : event :=
  AedesPublish (prefix ++ "/to/add")
    (JObj ([("name", JStr (id device));
            ("service_name", JStr (service_name_of device));
            ("service", JStr "Lightbulb")]
           ++ match type device with
              | SWITCH => []
              | DIMMING => [("Brightness", JStr "default")]
              end)%list).

(** Switch decoding as the specification words it: the 4-bit binary
    string of the status nibble without its most significant bit,
    reversed. *)
Definition spec_lightStates (data : string) : list string :=
  let status := Js.slice_from data (-1) in
  let statusInt := Js.parseInt status 16 in
  rev (Js.chars (Js.slice_from
                   (Js.padStart (Js.toString_radix statusInt 2) 4 "0") 1)).

(** One binary digit of a nibble, as the character [lightStates] holds. *)
Definition bit_char (v k : Z) : string := if Z.testbit v k then "1" else "0".

(** Two upper-case hexadecimal digits. *)
Definition hex2 (n : Z) : string :=
  String (Js.upper_char (Js.digit_char (n / 16)))
    (String (Js.upper_char (Js.digit_char (n mod 16))) "").

Definition kitchen : Device :=
  {| id := "M1-1"; guid := "M1"; name := Some "Kitchen"; type := SWITCH;
     index := Int 1; macAddress := Some "aa:bb:cc:dd:ee:ff";
     roomName := None; gatewayId := Some "G1" |}.

Definition dimmer : Device :=
  {| id := "M2-0"; guid := "M2"; name := Some "Lamp"; type := DIMMING;
     index := Int 0; macAddress := Some "11:22:33:44:55:66";
     roomName := Some "Hall"; gatewayId := Some "G1" |}.

Definition registry : DeviceService :=
  {| devices := [("M1-1", kitchen); ("M2-0", dimmer)] |}.

(** The bridge after start-up on that registry. *)
Definition home : world :=
  {| service := {| deviceService := Some registry; mqttService := true |};
     topicPrefix := "homebridge";
     bleDeviceCache := [] |}.

Definition number_eqb (a b : number) : bool :=
  match a, b with
  | Int x, Int y => x =? y
  | NaN, NaN => true
  | Infinity s, Infinity t => Bool.eqb s t
  | _, _ => false
  end.

(** Rounding to the nearest integer in exact arithmetic, ties upwards:
    [floor (p / q + 1/2)]. *)
Definition round_div (p q : Z) : Z := (2 * p + q) / (2 * q).

(** [s.includes(sep)] for one character. *)
Fixpoint has_char (sep : ascii) (s : string) : bool :=
  match s with
  | String c r => Ascii.eqb c sep || has_char sep r
  | EmptyString => false
  end.

(** A stand-in digest for the concrete runs below. *)
Definition sample_digest (s : string) : string := "h(" ++ s ++ ")".

(** A stand-in for [JSON.parse] in the concrete runs below: the three
    literal texts, every other text rejected. *)
Definition parse_literals (s : string) : option json :=
  if String.eqb s "null" then Some JNull
  else if String.eqb s "true" then Some (JBool true)
  else if String.eqb s "false" then Some (JBool false)
  else None.

(** A snapshot in which module [M3] has a gateway but no device record,
    hence no MAC address, and hosts one dimmer and one switch. *)
Definition partial_snapshot : AfterLoginResp :=
  {| profile_device := [{| pd_device := Some "M3"; pd_gateway := Some "G1" |}];
     device := [];
     profile_subdevice :=
       [{| device_button_group := Some "DIMMING"; ps_device := Some "M3";
           title := Some "Lamp"; room_name := None |};
        {| device_button_group := Some "ONOFF GANG1"; ps_device := Some "M3";
           title := Some "Relay"; room_name := None |}] |}.

Definition lamp : Device :=
  {| id := "M3-0"; guid := "M3"; name := Some "Lamp"; type := DIMMING;
     index := Int 0; macAddress := None; roomName := None;
     gatewayId := Some "G1" |}.

(** The snapshot of the specification's scenario. *)
Definition kitchen_snapshot : AfterLoginResp :=
  {| profile_device := [{| pd_device := Some "M1"; pd_gateway := Some "G1" |}];
     device := [{| dd_name := Some "M1";
                   dd_mac_address := Some "AA:BB:CC:DD:EE:FF" |}];
     profile_subdevice :=
       [{| device_button_group := Some "ONOFF GANG1"; ps_device := Some "M1";
           title := Some "Kitchen"; room_name := None |}] |}.

(** ** Registry invariants *)

(** What holds of every entry of the intermediate table. *)
Definition info_ok (info : DeviceInfo) : Prop :=
  Js.truthy (gateway info) = true
  /\ (info_macAddress info = None \/ Js.truthy (info_macAddress info) = true).

(** What holds of every stored device, under its key. *)
Definition device_ok (k : string) (d : Device) : Prop :=
  id d = k
  /\ id d = guid d ++ "-" ++ Js.toString (index d)
  /\ Js.truthy (gatewayId d) = true
  /\ (type d = SWITCH -> Js.truthy (macAddress d) = true)
  /\ (type d = DIMMING -> index d = Int 0).

Definition registry_ok (devs : list (string * Device)) : Prop :=
  NoDup (OMap.keys devs) /\ Forall (fun kd => device_ok (fst kd) (snd kd)) devs.

(** The invariant of the specification's data model. *)
Definition has_addresses (d : Device) : Prop :=
  Js.truthy (macAddress d) = true /\ Js.truthy (gatewayId d) = true.

(** ** Observations of a run *)

Definition result {A} (m : M A) (w : world) : outcome A := fst (fst (run m w)).

Definition final {A} (m : M A) (w : world) : world := snd (fst (run m w)).

Definition trace {A} (m : M A) (w : world) : list event := snd (run m w).

(** A handler that returns normally and leaves the state as it was. *)
Definition quiet (m : M unit) : Prop :=
  forall w, result m w = Ok tt /\ final m w = w.

(** The frame of the BLE relay: MAC address and tail. *)
Definition frame_mac (p : string) : string := Js.slice p 0 17.

Definition frame_data (p : string) : string := Js.slice_from p 17.

Definition cached (w : world) (p : string) : world :=
  with_cache w (OMap.set (frame_mac p) (frame_data p) (bleDeviceCache w)).

(** The bridge after start-up on [partial_snapshot]. *)
Definition partial_home : world :=
  {| service := {| deviceService := Some (fromAfterLoginResp partial_snapshot);
                   mqttService := true |};
     topicPrefix := "homebridge";
     bleDeviceCache := [] |}.

(** The hub command [{name: "M3-0", characteristic: "Brightness", value: 50}]. *)
Definition dim_lamp : json :=
  JObj [("name", JStr "M3-0"); ("characteristic", JStr "Brightness");
        ("value", JNum (Int 50))].

(** An encoder call raises. *)
Definition raises (m : M unit) (w : world) : Prop :=
  exists e, result m w = Throw e.

(** A computation that leaves the state as it was, whatever its outcome. *)
Definition steady {A} (m : M A) : Prop := forall w, final m w = w.

(** A computation that returns normally. *)
Definition succeeds {A} (m : M A) : Prop := forall w, exists a, result m w = Ok a.

(** ** The broker's event callbacks (setupEventHandlers)

    [client] is null for the packets the broker publishes itself. *)

Section Events.

Variable md5 : string -> string.
Variable JSON_parse : string -> option json.

(** [this.aedes.on("publish", async (packet, client) => { if (client)
    await this.handlePublish(packet, client); })] *)
Definition onPublish (packet : PublishPacket) (client : option string) : M unit :=
  match client with
  | Some _ => handlePublish md5 JSON_parse packet
  | None => mret tt
  end.

(** [this.aedes.on("subscribe", (subscriptions, client) => { if (client)
    subscriptions.forEach((sub) => this.handleSubscription(sub, client)); })] *)
Definition onSubscribe (subscriptions : list string) (client : option string)
    : M unit :=
  match client with
  | Some _ => for_each subscriptions handleSubscription
  | None => mret tt
  end.

(** An event of the cloud side: a log entry, or a command published to a
    gateway topic. *)
Definition cloud_event (ev : event) : Prop :=
  match ev with
  | Log _ => True
  | MqttPublish t _ => exists gatewayId, t = commandTopic md5 gatewayId
  | AedesPublish _ _ => False
  end.

End Events.

(** An event of the hub side: a log entry, or a publish on the embedded
    broker to the status or the discovery topic. *)
Definition hub_event (prefix : string) (ev : event) : Prop :=
  match ev with
  | Log _ => True
  | AedesPublish t _ => t = prefix ++ "/to/set" \/ t = prefix ++ "/to/add"
  | MqttPublish _ _ => False
  end.

(** Every event of every run of [m] satisfies [P], which may depend on
    the state the run starts in. *)
Definition emits {A} (P : world -> event -> Prop) (m : M A) : Prop :=
  forall w, Forall (P w) (trace m w).

(** No run of [m] publishes more than [n] messages. *)
Definition budget {A} (n : nat) (m : M A) : Prop :=
  forall w, (length (publishes (trace m w)) <= n)%nat.

(** ** Registry construction, record by record *)

(** The condition under which the switch branch skips a record as the
    internal relay of a dimmer. *)
Definition internal_relay (sub : ProfileSubdevice) : bool :=
  Js.truthy (title sub)
  && (Js.includes (template (title sub)) "V1"
      || Js.includes (template (title sub)) "V2").

(** The device the third loop builds from one record, when it builds
    one: the conditions and the fields of the two branches. *)
Inductive Stored (deviceInfo : gmap string DeviceInfo) (sub : ProfileSubdevice)
  : Device -> Prop :=
| Stored_switch (group guid : string) (info : DeviceInfo) :
    device_button_group sub = Some group ->
    Js.startsWith group "ONOFF GANG" = true ->
    internal_relay sub = false ->
    ps_device sub = Some guid ->
    Js.truthy (Some guid) = true ->
    deviceInfo !! guid = Some info ->
    Js.truthy (info_macAddress info) = true ->
    Js.truthy (gateway info) = true ->
    Stored deviceInfo sub
      {| id := guid ++ "-"
               ++ Js.toString (Js.Number (Js.remove_first group "ONOFF GANG"));
         guid := guid; name := title sub; type := SWITCH;
         index := Js.Number (Js.remove_first group "ONOFF GANG");
         macAddress := info_macAddress info;
         roomName := cleanRoomName (room_name sub);
         gatewayId := gateway info |}
| Stored_dimming (group guid : string) (info : DeviceInfo) :
    device_button_group sub = Some group ->
    Js.startsWith group "ONOFF GANG" = false ->
    Js.startsWith group "DIMMING" = true ->
    ps_device sub = Some guid ->
    Js.truthy (Some guid) = true ->
    deviceInfo !! guid = Some info ->
    Stored deviceInfo sub
      {| id := guid ++ "-" ++ Js.toString (Int 0);
         guid := guid; name := title sub; type := DIMMING;
         index := Int 0;
         macAddress := info_macAddress info;
         roomName := cleanRoomName (room_name sub);
         gatewayId := gateway info |}.

(** Where an entry of [deviceInfo] comes from: its gateway from a
    [profile_device] record of the module, its MAC address, when it has
    one, from a [device] record named as the module, in lower case. *)
Definition info_from (data : AfterLoginResp) (module : string)
    (info : DeviceInfo) : Prop :=
  (exists pd, In pd (profile_device data)
              /\ pd_device pd = Some module
              /\ pd_gateway pd = gateway info
              /\ Js.truthy (gateway info) = true)
  /\ (info_macAddress info = None
      \/ exists dd mac, In dd (device data)
                        /\ dd_name dd = Some module
                        /\ dd_mac_address dd = Some mac
                        /\ info_macAddress info = Some (Js.toLowerCase mac)).

(** The snapshot with another list of subdevice records. *)
Definition with_subdevices (data : AfterLoginResp)
    (subs : list ProfileSubdevice) : AfterLoginResp :=
  {| profile_device := profile_device data;
     device := device data;
     profile_subdevice := subs |}.

(** A snapshot with one module [M1] on gateway [G1], whose switch record
    comes twice under different titles and whose relay record is internal. *)
Definition first_record : ProfileSubdevice :=
  {| device_button_group := Some "ONOFF GANG1"; ps_device := Some "M1";
     title := Some "Kitchen"; room_name := Some "[en]Ground floor[/en] " |}.

Definition second_record : ProfileSubdevice :=
  {| device_button_group := Some "ONOFF GANG1"; ps_device := Some "M1";
     title := Some "Pantry"; room_name := None |}.

(** ** Decoding of arbitrary tails *)

(** The 256 code units of the model's strings. *)
Definition all_ascii : list ascii := map ascii_of_nat (seq 0 256).

(** What the dimming decoder makes of the characters [e], [f] at offsets
    4 and 5: nothing, or a brightness between -6 and 100 that is negative
    only under a minus sign. *)
Definition brightness_in_range (e f : ascii) : bool :=
  match Js.parseInt (String e (String f "")) 16 with
  | NaN => true
  | parsed =>
      match scaleTo100 parsed with
      | Int b => (-6 <=? b) && (b <=? 100) && ((0 <=? b) || Ascii.eqb e "-")
      | _ => false
      end
  end.

(** ** Earlier revisions kept in the repository

    The sources also hold the broker as it was before the replay
    cache ([Rev0]), and the broker and the device service as they were
    before dimmers ([Rev1]). *)

Module Rev0.

(** [parseSwitchStatus] *)
Definition parseSwitchStatus (status : string) : list bool :=
  let statusInt := Js.parseInt status 16 in
  let statusBin := Js.padStart (Js.toString_radix statusInt 2) 4 "0" in
  let statusBin := Js.slice statusBin 0 (-1) in
  map (fun bit => String.eqb bit "1") (rev (Js.chars statusBin)).

(** [lightStates[i]] on an array of booleans; [None] is [undefined]. *)
Definition state_at (a : list bool) (i : number) : option bool :=
  match i with
  | Int k => if 0 <=? k then nth_error a (Z.to_nat k) else None
  | _ => None
  end.

Definition handleSwitchPayload (macAddress status : string) : M unit :=
  let lightStates := parseSwitchStatus status in
  w ← get_world;
  for_each
    (match deviceService (service w) with
     | Some deviceService => getByMacAddress deviceService macAddress
     | None => []
     end)
    (fun device =>
       if negb (DeviceType_eqb (type device) SWITCH) then mret tt
       else
         match state_at lightStates (Js.sub (index device) (Int 1)) with
         | None => logger WARN
         | Some isOn =>
             w ← get_world;
             let topic := topicPrefix w ++ "/to/set" in
             emit (AedesPublish topic
                     (JObj [("name", JStr (id device));
                            ("service_name", JStr (service_name_of device));
                            ("characteristic", JStr "On");
                            ("value", JBool isOn)]))
         end).

Definition handleBleDeviceMessage (payloadString : string) : M unit :=
  let macAddress := Js.slice payloadString 0 17 in
  let data := Js.slice_from payloadString 17 in
  let deviceType := Js.slice data (-4) (-1) in
  let status := Js.slice_from data (-1) in
  logger DEBUG;;
  if String.eqb deviceType "400" then handleSwitchPayload macAddress status
  else logger DEBUG.

End Rev0.

Module Rev1.

Definition handleSwitchPayload (macAddress status : string) : M unit :=
  let statusInt := Js.parseInt status 16 in
  let lightStates :=
    rev (Js.chars (Js.slice (Js.padStart (Js.toString_radix statusInt 2) 4 "0")
                            0 (-1))) in
  w ← get_world;
  for_each
    (match deviceService (service w) with
     | Some deviceService => getByMacAddress deviceService macAddress
     | None => []
     end)
    (fun device =>
       if negb (DeviceType_eqb (type device) SWITCH) then mret tt
       else
         match Js.array_get lightStates (Js.sub (index device) (Int 1)) with
         | None => logger WARN
         | Some isOn =>
             w ← get_world;
             let topic := topicPrefix w ++ "/to/set" in
             emit (AedesPublish topic
                     (JObj [("name", JStr (id device));
                            ("service_name", JStr (service_name_of device));
                            ("characteristic", JStr "On");
                            ("value", JBool (String.eqb isOn "1"))]))
         end).

Definition handleBleDeviceData (macAddress data : string) : M unit :=
  let deviceType := Js.slice data (-4) (-1) in
  let status := Js.slice_from data (-1) in
  logger DEBUG;;
  if String.eqb deviceType "400" then handleSwitchPayload macAddress status
  else logger DEBUG.

Definition extractAndCacheBleDeviceMessage (payloadString : string) : M unit :=
  let macAddress := Js.slice payloadString 0 17 in
  let data := Js.slice_from payloadString 17 in
  w ← get_world;
  put_world (with_cache w (OMap.set macAddress data (bleDeviceCache w)));;
  logger DEBUG;;
  handleBleDeviceData macAddress data.

Section Encoder.

Variable md5 : string -> string.

(** [switchDevice] of the device service before dimmers. *)
Definition switchDevice (this : DeviceService) (id : string) (on : bool)
    : M unit :=
  logger DEBUG;;
  match OMap.get id (devices this) with
  | None => throw (Error ("Device with id " ++ id ++ " not found"))
  | Some device =>
      if negb (DeviceType_eqb (type device) SWITCH)
      then throw (Error ("Device with id " ++ id ++ " is not a switch"))
      else
        let position := index device in
        match macAddress device with
        | None => throw TypeError
        | Some mac =>
            let reversedMac := reversedMac mac in
            let onOffStatus :=
              if on then Js.toString_radix position 16 else "0" in
            let value := "02" ++ reversedMac ++ "8000"
                         ++ Js.toString_radix position 16 ++ onOffStatus
                         ++ "00" in
            let topic := commandTopic md5 (gatewayId device) in
            logger DEBUG;;
            mqttPublish topic (writeCommand (guid device) mac value)
        end
  end.

End Encoder.

End Rev1.

(** The devices the loops of the earlier decoders run over:
    [service.deviceService?.getByMacAddress(macAddress) || []]. *)
Definition found (w : world) (mac : string) : list Device :=
  match deviceService (service w) with
  | Some deviceService => getByMacAddress deviceService mac
  | None => []
  end.

(** ** Start-up and the cloud envelope *)

(** [setCookie.split(",")[0].split(";")[0]] of the start-up script;
    reading [.split] of [undefined] would throw. *)
Definition sessionCookie (setCookie : string) : outcome (option string) :=
  match Js.array_get (Js.split_on "," setCookie) (Int 0) with
  | None => Throw TypeError
  | Some first => Ok (Js.array_get (Js.split_on ";" first) (Int 0))
  end.

(** [const pad = (n) => n.toString().padStart(2, "0")] of
    [MqttService.publish]. *)
Definition pad (n : number) : string := Js.padStart (Js.toString n) 2 "0".

(** The [date] field [MqttService.publish] stamps on a command, from the
    six readings of [now]; [month] is [getMonth ()], which counts from 0. *)
Definition publishDate (fullYear month date hours minutes seconds : Z) : string :=
  Js.toString (Int fullYear) ++ "-" ++ pad (Int (month + 1)) ++ "-"
  ++ pad (Int date) ++ " " ++ pad (Int hours) ++ ":" ++ pad (Int minutes)
  ++ ":" ++ pad (Int seconds).

(** Two characters that read back as [n]. *)
Definition two_digits (n : Z) (s : string) : bool :=
  match s with
  | String a (String b "") =>
      number_eqb (Js.Number (String a (String b ""))) (Int n)
  | _ => false
  end.

(** Four characters that read back as [n]. *)
Definition four_digits (n : Z) (s : string) : bool :=
  match s with
  | String a (String b (String c (String d ""))) =>
      number_eqb (Js.Number (String a (String b (String c (String d "")))))
        (Int n)
  | _ => false
  end.

(** The device service before dimmers: MAC addresses are stored as the
    cloud gives them, and only [ONOFF GANG] records are read. *)
Module Rev1Service.

Definition addMacAddress (deviceInfo : gmap string DeviceInfo)
    (deviceData : DeviceData) : gmap string DeviceInfo :=
  if negb (Js.truthy (dd_name deviceData))
     || negb (Js.truthy (dd_mac_address deviceData))
  then deviceInfo
  else match dd_name deviceData, dd_mac_address deviceData with
       | Some n, Some mac =>
           match deviceInfo !! n with
           | Some info =>
               if negb (Js.truthy (gateway info)) then deviceInfo
               else <[n := {| gateway := gateway info;
                              info_macAddress := Some mac |}]> deviceInfo
           | None => deviceInfo
           end
       | _, _ => deviceInfo
       end.

Definition addSubdevice (deviceInfo : gmap string DeviceInfo)
    (devs : list (string * Device)) (sub : ProfileSubdevice)
    : list (string * Device) :=
  match device_button_group sub with
  | Some group =>
      if negb (Js.truthy (device_button_group sub))
         || negb (Js.startsWith group "ONOFF GANG")
      then devs
      else
        let index := Js.Number (Js.remove_first group "ONOFF GANG") in
        let id := template (ps_device sub) ++ "-" ++ Js.toString index in
        match OMap.get id devs with
        | Some _ => devs
        | None =>
            match ps_device sub with
            | Some guid =>
                if negb (Js.truthy (ps_device sub)) then devs
                else
                  let roomName := cleanRoomName (room_name sub) in
                  match deviceInfo !! guid with
                  | Some info =>
                      if negb (Js.truthy (info_macAddress info))
                         || negb (Js.truthy (gateway info))
                      then devs
                      else OMap.set id
                             {| id := id; guid := guid; name := title sub;
                                type := SWITCH; index := index;
                                macAddress := info_macAddress info;
                                roomName := roomName;
                                gatewayId := gateway info |} devs
                  | None => devs
                  end
            | None => devs
            end
        end
  | None => devs
  end.

Definition fromAfterLoginResp (data : AfterLoginResp) : DeviceService :=
  {| devices :=
       fold_left
         (addSubdevice
            (fold_left addMacAddress (device data)
               (fold_left addGateway (profile_device data) ∅)))
         (profile_subdevice data) [] |}.

End Rev1Service.

(** The snapshot of the specification's scenario with the MAC address in
    lower case. *)
Definition lower_snapshot : AfterLoginResp :=
  {| profile_device := [{| pd_device := Some "M1"; pd_gateway := Some "G1" |}];
     device := [{| dd_name := Some "M1";
                   dd_mac_address := Some "aa:bb:cc:dd:ee:ff" |}];
     profile_subdevice :=
       [{| device_button_group := Some "ONOFF GANG1"; ps_device := Some "M1";
           title := Some "Kitchen"; room_name := None |}] |}.

(** ** The inputs the model reads as the platform does

    Three things of the platform are outside the carriers of this
    model; the statements that depend on them say so by a hypothesis.

    A plain object finds, under some keys, the properties it inherits
    from [Object.prototype] ([inherited]); the lookups [deviceInfo[k]]
    and [this.devices[k]] of the model are the code's for every other
    key.  [Number] and [String] are modelled on integers: a numeral
    with a fraction, an exponent or a radix prefix, and an integer that
    takes more digits than a binary64 holds exactly, are read or
    printed otherwise by the platform ([plain_numeral], [plain_label],
    [plain_text]). *)

Definition inherited (k : string) : bool :=
  existsb (String.eqb k)
    ["constructor"; "toString"; "toLocaleString"; "valueOf";
     "hasOwnProperty"; "isPrototypeOf"; "propertyIsEnumerable";
     "__proto__"; "__defineGetter__"; "__defineSetter__";
     "__lookupGetter__"; "__lookupSetter__"].

(** A module name, possibly missing, that is no inherited key. *)
Definition ordinary (o : option string) : bool :=
  match o with
  | Some k => negb (inherited k)
  | None => true
  end.

(** No character of a fraction, an exponent or a radix prefix. *)
Definition plain_numeral (s : string) : bool :=
  negb (has_char "." s) && negb (has_char "e" s) && negb (has_char "E" s)
  && negb (has_char "x" s) && negb (has_char "X" s)
  && negb (has_char "o" s) && negb (has_char "O" s)
  && negb (has_char "b" s) && negb (has_char "B" s).

(** A switch label whose channel is a plain numeral of at most 15
    characters, or a label that is none of a switch. *)
Definition plain_label (o : option string) : bool :=
  match o with
  | Some group =>
      if Js.startsWith group "ONOFF GANG"
      then let rest := Js.remove_first group "ONOFF GANG" in
           plain_numeral rest && (Js.len rest <=? 15)
      else true
  | None => true
  end.

(** A snapshot all of whose module names are ordinary and all of whose
    switch labels are plain. *)
Definition readable (data : AfterLoginResp) : bool :=
  forallb (fun pd => ordinary (pd_device pd)) (profile_device data)
  && forallb (fun sub => ordinary (ps_device sub)
                         && plain_label (device_button_group sub))
       (profile_subdevice data).






(** The bridge after a frame of the kitchen module was received. *)
Definition home_after_frame : world :=
  {| service := {| deviceService := Some registry; mqttService := true |};
     topicPrefix := "homebridge";
     bleDeviceCache := [("aa:bb:cc:dd:ee:ff", "0201064002")] |}.

(** * Properties *)

(** ** Tactics and basic facts *)

Ltac run_M :=
  unfold run, logger, emit, throw, get_world, put_world, mqttPublish,
    mbind, M_bind, mret, M_ret, try_catch in *; simpl in *.

Lemma ascii_cases (P : ascii -> Prop) :
  (forall b0 b1 b2 b3 b4 b5 b6 b7, P (Ascii b0 b1 b2 b3 b4 b5 b6 b7)) ->
  forall c, P c.
Proof. intros H [b0 b1 b2 b3 b4 b5 b6 b7]. apply H. Qed.

Ltac by_ascii_cases c :=
  revert c; apply ascii_cases;
  intros [] [] [] [] [] [] [] []; vm_compute; try reflexivity; try congruence.

(** A statement over an integer interval, decided point by point. *)
Lemma Z_range_forallb (p : Z -> bool) (lo : Z) (n : nat) :
  forallb (fun k => p (lo + Z.of_nat k)) (seq 0 n) = true ->
  forall z, lo <= z < lo + Z.of_nat n -> p z = true.
Proof.
  intros H z Hz.
  rewrite forallb_forall in H.
  replace z with (lo + Z.of_nat (Z.to_nat (z - lo))) by lia.
  apply H. apply in_seq. lia.
Qed.

Lemma app_nil_l (s : string) : "" ++ s = s.
Proof. reflexivity. Qed.

Lemma app_cons (c : ascii) (a b : string) : String c a ++ b = String c (a ++ b).
Proof. reflexivity. Qed.

Lemma substring_all (s : string) : String.substring 0 (String.length s) s = s.
Proof. induction s as [|c s IH]; simpl; [reflexivity | now rewrite IH]. Qed.

Lemma substring_app_tail (pre s : string) :
  String.substring (String.length pre) (String.length s) (pre ++ s) = s.
Proof.
  induction pre as [|c pre IH].
  - rewrite app_nil_l. apply substring_all.
  - rewrite app_cons. exact IH.
Qed.

Lemma length_app (a b : string) :
  String.length (a ++ b) = (String.length a + String.length b)%nat.
Proof.
  induction a as [|c a IH]; [reflexivity |].
  rewrite app_cons. simpl. now rewrite IH.
Qed.

(** [data.slice(-1)] is the final character of a non-empty tail. *)
Lemma slice_last (pre : string) (c : ascii) :
  Js.slice_from (pre ++ String c "") (-1) = String c "".
Proof.
  unfold Js.slice_from, Js.slice, Js.rel_index, Js.len.
  rewrite length_app. simpl String.length.
  set (N := Z.of_nat (String.length pre + 1)).
  assert (HN : N = Z.of_nat (String.length pre) + 1) by (unfold N; lia).
  change (-1 <? 0) with true. cbv iota.
  destruct (Z.ltb_spec N 0) as [Hneg | _]; [lia |].
  replace (Z.to_nat (Z.max (N + -1) 0)) with (String.length pre) by lia.
  replace (Z.to_nat (Z.max (Z.min N N - Z.max (N + -1) 0) 0)) with 1%nat by lia.
  apply (substring_app_tail pre (String c "")).
Qed.

(** [parseInt] of one character in radix 16. *)
Lemma parseInt_hex_char (c : ascii) :
  Js.parseInt (String c "") 16 =
  match Js.digit_val c with
  | Some d => if d <? 16 then Int d else NaN
  | None => NaN
  end.
Proof. by_ascii_cases c. Qed.

Lemma digit_val_range (c : ascii) (v : Z) :
  Js.digit_val c = Some v -> 0 <= v < 36.
Proof.
  unfold Js.digit_val.
  repeat match goal with |- context [if ?b then _ else _] =>
    let E := fresh in destruct b eqn:E end; intros [= <-]; lia.
Qed.

(** The three characters the decoder keeps of a nibble: its bits of
    weight 2, 4 and 8, in this order. *)
Lemma nibble_states (v : Z) :
  0 <= v < 16 ->
  rev (Js.chars (Js.slice (Js.padStart (Js.toString_radix (Int v) 2) 4 "0") 0 (-1)))
  = [bit_char v 1; bit_char v 2; bit_char v 3].
Proof.
  intros Hv.
  assert (H : v = 0 \/ v = 1 \/ v = 2 \/ v = 3 \/ v = 4 \/ v = 5 \/ v = 6
              \/ v = 7 \/ v = 8 \/ v = 9 \/ v = 10 \/ v = 11 \/ v = 12
              \/ v = 13 \/ v = 14 \/ v = 15) by lia.
  repeat (destruct H as [-> | H]; [vm_compute; reflexivity |]).
  subst v. vm_compute. reflexivity.
Qed.

Lemma lightStates_hex (pre : string) (c : ascii) (v : Z) :
  Js.digit_val c = Some v -> v < 16 ->
  lightStates (pre ++ String c "") = [bit_char v 1; bit_char v 2; bit_char v 3].
Proof.
  intros Hc Hv. unfold lightStates.
  rewrite slice_last, parseInt_hex_char, Hc.
  destruct (Z.ltb_spec v 16) as [_ | ?]; [| lia].
  apply nibble_states. pose proof (digit_val_range c v Hc). lia.
Qed.

(** Reading channel [i] out of the three kept characters. *)
Lemma array_get_states (a b c : string) (n : number) :
  Js.array_get [a; b; c] (Js.sub n (Int 1)) =
  match n with
  | Int i => if i =? 1 then Some a else if i =? 2 then Some b
             else if i =? 3 then Some c else None
  | _ => None
  end.
Proof.
  destruct n as [i | | s]; simpl; [| reflexivity | reflexivity].
  destruct (Z.leb_spec 0 (i - 1)) as [H0 | H0].
  - destruct (Z.eqb_spec i 1) as [-> | H1]; [reflexivity |].
    destruct (Z.eqb_spec i 2) as [-> | H2]; [reflexivity |].
    destruct (Z.eqb_spec i 3) as [-> | H3]; [reflexivity |].
    replace (Z.to_nat (i - 1)) with (3 + Z.to_nat (i - 4))%nat by lia.
    simpl. now destruct (Z.to_nat (i - 4)).
  - destruct (Z.eqb_spec i 1); [lia |].
    destruct (Z.eqb_spec i 2); [lia |].
    destruct (Z.eqb_spec i 3); [lia | reflexivity].
Qed.

Lemma bit_char_is_1 (v k : Z) : String.eqb (bit_char v k) "1" = Z.testbit v k.
Proof. unfold bit_char. now destruct (Z.testbit v k). Qed.

(** ** BLE status decoder: switches *)

(** The trace of [handleSwitchBLEData] on a tail that ends in a
    hexadecimal digit. *)
Lemma handleSwitchBLEData_hex
    (device : Device) (pre : string) (c : ascii) (v : Z) (w : world) :
  type device = SWITCH ->
  Js.digit_val c = Some v ->
  v < 16 ->
  run (handleSwitchBLEData device (pre ++ String c "")) w =
  (Ok tt, w,
   Log DEBUG ::
   match index device with
   | Int i =>
       if (1 <=? i) && (i <=? 3)
       then [statusUpdate (topicPrefix w) device "On" (JBool (Z.testbit v i))]
       else [Log WARN]
   | _ => [Log WARN]
   end).
Proof.
  intros Hty Hc Hv.
  pose proof (lightStates_hex pre c v Hc Hv) as Hls.
  unfold handleSwitchBLEData, setCharacteristic, statusUpdate. run_M.
  rewrite Hty, Hls, array_get_states. simpl.
  destruct (index device) as [i | | s]; try reflexivity.
  destruct (Z.eqb_spec i 1) as [-> | H1];
    [simpl; now rewrite bit_char_is_1 |].
  destruct (Z.eqb_spec i 2) as [-> | H2];
    [simpl; now rewrite bit_char_is_1 |].
  destruct (Z.eqb_spec i 3) as [-> | H3];
    [simpl; now rewrite bit_char_is_1 |].
  destruct (Z.leb_spec 1 i), (Z.leb_spec i 3); simpl; try reflexivity; lia.
Qed.

(** C1 (amended).  For a Switch device and a tail whose final character
    is a hexadecimal digit of value [v], the decoder turns [v] into a
    4-bit binary string, drops its last character (the least significant
    bit), and reverses the remaining three, so that position 0 holds the
    bit of weight 2.  A device of channel index [i] in 1..3 gets one [On]
    update whose value is bit [i] of the nibble; for any other index
    nothing is published, a warning is logged and the handler returns. *)
Theorem switch_status_decoding
    (device : Device) (pre : string) (c : ascii) (v : Z) (w : world) :
  type device = SWITCH ->
  Js.digit_val c = Some v ->
  v < 16 ->
  lightStates (pre ++ String c "") = [bit_char v 1; bit_char v 2; bit_char v 3]
  /\ run (handleSwitchBLEData device (pre ++ String c "")) w =
     (Ok tt, w,
      Log DEBUG ::
      match index device with
      | Int i =>
          if (1 <=? i) && (i <=? 3)
          then [statusUpdate (topicPrefix w) device "On" (JBool (Z.testbit v i))]
          else [Log WARN]
      | _ => [Log WARN]
      end).
Proof.
  intros Hty Hc Hv. split.
  - now apply lightStates_hex.
  - now apply handleSwitchBLEData_hex.
Qed.

(** C1, witness: a tail ending in nibble 2 (binary 0010) switches
    channel 1 on. *)
Lemma switch_status_decoding_witness :
  run (handleSwitchBLEData kitchen ("020106400" ++ "2")) home =
  (Ok tt, home, [Log DEBUG; statusUpdate "homebridge" kitchen "On" (JBool true)]).
Proof.
  exact (proj2 (switch_status_decoding kitchen "020106400" "2" 2 home
                  eq_refl eq_refl eq_refl)).
Defined.

(** C1, counterexample to the claim as stated.  On the tail [...4001]
    the decoding of the specification (drop the most significant bit)
    reads channel 1 as on; the handler drops the least significant bit
    and publishes [On = false] for the device of index 1. *)
Lemma switch_status_decoding_counterexample :
  Js.array_get (spec_lightStates "0201064001") (Js.sub (index kitchen) (Int 1))
  = Some "1"
  /\ run (handleSwitchBLEData kitchen "0201064001") home =
     (Ok tt, home, [Log DEBUG; statusUpdate "homebridge" kitchen "On" (JBool false)])
  /\ run (handleSwitchBLEData kitchen "0201064001") home <>
     (Ok tt, home, [Log DEBUG; statusUpdate "homebridge" kitchen "On" (JBool true)]).
Proof.
  split; [vm_compute; reflexivity |].
  assert (E : run (handleSwitchBLEData kitchen "0201064001") home =
              (Ok tt, home,
               [Log DEBUG; statusUpdate "homebridge" kitchen "On" (JBool false)]))
    by (vm_compute; reflexivity).
  split; [exact E |].
  rewrite E. intros [=].
Qed.

(** ** Command encoder: the switch data byte *)

Lemma Z_cases_1_4 (i : Z) : 1 <= i <= 4 -> i = 1 \/ i = 2 \/ i = 3 \/ i = 4.
Proof. lia. Qed.

(** The data byte is the field 2^(3+i) + (on ? 2^(i-1) : 0) as two
    upper-case hexadecimal digits. *)
Lemma switchData_hex2 (i : Z) (on : bool) :
  1 <= i <= 4 ->
  switchData (Int i) on = hex2 (2 ^ (3 + i) + (if on then 2 ^ (i - 1) else 0)).
Proof.
  intros H. destruct (Z_cases_1_4 i H) as [-> | [-> | [-> | ->]]];
    destruct on; vm_compute; reflexivity.
Qed.

Lemma low_nibble (i : Z) (on : bool) :
  1 <= i <= 4 ->
  (2 ^ (3 + i) + (if on then 2 ^ (i - 1) else 0)) mod 16
  = if on then 2 ^ (i - 1) else 0.
Proof.
  intros H. destruct (Z_cases_1_4 i H) as [-> | [-> | [-> | ->]]];
    destruct on; reflexivity.
Qed.

Lemma digit_val_hex_digit (d : Z) :
  0 <= d < 16 -> Js.digit_val (Js.upper_char (Js.digit_char d)) = Some d.
Proof.
  intros H.
  assert (C : d = 0 \/ d = 1 \/ d = 2 \/ d = 3 \/ d = 4 \/ d = 5 \/ d = 6
              \/ d = 7 \/ d = 8 \/ d = 9 \/ d = 10 \/ d = 11 \/ d = 12
              \/ d = 13 \/ d = 14 \/ d = 15) by lia.
  repeat (destruct C as [-> | C]; [vm_compute; reflexivity |]).
  subst d. vm_compute. reflexivity.
Qed.

Lemma hex2_split (n : Z) :
  hex2 n = String (Js.upper_char (Js.digit_char (n / 16))) ""
           ++ String (Js.upper_char (Js.digit_char (n mod 16))) "".
Proof. reflexivity. Qed.

(** Decoding the data byte of a command for channel [i0]: the encoder
    puts the requested state at bit [i0 - 1] of the low nibble, the
    decoder reads bit [i] for the device of index [i]. *)
Lemma decode_switchData (device : Device) (i0 : Z) (on : bool) (w : world) :
  type device = SWITCH ->
  1 <= i0 <= 4 ->
  run (handleSwitchBLEData device (switchData (Int i0) on)) w =
  (Ok tt, w,
   Log DEBUG ::
   match index device with
   | Int i =>
       if (1 <=? i) && (i <=? 3)
       then [statusUpdate (topicPrefix w) device "On"
               (JBool (on && (i =? i0 - 1)))]
       else [Log WARN]
   | _ => [Log WARN]
   end).
Proof.
  intros Hty Hi.
  rewrite switchData_hex2, hex2_split by exact Hi.
  set (n := 2 ^ (3 + i0) + (if on then 2 ^ (i0 - 1) else 0)).
  assert (Hn : 0 <= n mod 16 < 16) by (apply Z.mod_pos_bound; lia).
  rewrite (handleSwitchBLEData_hex device
             (String (Js.upper_char (Js.digit_char (n / 16))) "")
             (Js.upper_char (Js.digit_char (n mod 16))) (n mod 16) w Hty
             (digit_val_hex_digit _ Hn) (proj2 Hn)).
  unfold n. rewrite low_nibble by exact Hi.
  destruct (index device) as [i | | s]; try reflexivity.
  destruct ((1 <=? i) && (i <=? 3)) eqn:Hr; [| reflexivity].
  apply andb_prop in Hr as [H1 H3].
  apply Z.leb_le in H1. apply Z.leb_le in H3.
  do 4 f_equal. unfold statusUpdate. do 6 f_equal.
  destruct on; simpl.
  - rewrite Z.pow2_bits_eqb by lia. rewrite Z.eqb_sym. reflexivity.
  - apply Z.bits_0.
Qed.

(** ** Switch encode and decode *)

(** C4 (amended).  For a Switch device of channel index [i] in 1..3,
    decoding the data byte of its own command yields [On = false]
    whatever state was encoded: the encoder writes the state at bit
    [i - 1] of the low nibble and the decoder reads bit [i].  The
    requested state is read back by the device one channel below: the
    data byte of the command for channel [i + 1] decodes, for the device
    of index [i], to [On] equal to the encoded state. *)
Theorem switch_encode_decode (device : Device) (i : Z) (w : world) :
  type device = SWITCH ->
  index device = Int i ->
  1 <= i <= 3 ->
  (forall on,
     run (handleSwitchBLEData device (switchData (index device) on)) w =
     (Ok tt, w,
      [Log DEBUG; statusUpdate (topicPrefix w) device "On" (JBool false)]))
  /\ (forall on,
        run (handleSwitchBLEData device (switchData (Int (i + 1)) on)) w =
        (Ok tt, w,
         [Log DEBUG; statusUpdate (topicPrefix w) device "On" (JBool on)])).
Proof.
  intros Hty Hidx Hi.
  assert (Hr : (1 <=? i) && (i <=? 3) = true)
    by (apply andb_true_intro; split; apply Z.leb_le; lia).
  split; intros on.
  - rewrite Hidx at 1. rewrite decode_switchData by (exact Hty || lia).
    rewrite Hidx, Hr.
    replace (i =? i - 1) with false by (symmetry; apply Z.eqb_neq; lia).
    now rewrite andb_false_r.
  - rewrite decode_switchData by (exact Hty || lia).
    rewrite Hidx, Hr.
    replace (i =? i + 1 - 1) with true by (symmetry; apply Z.eqb_eq; lia).
    now rewrite andb_true_r.
Qed.

(** C4, witness: the kitchen switch, channel 1. *)
Lemma switch_encode_decode_witness :
  (forall on,
     run (handleSwitchBLEData kitchen (switchData (index kitchen) on)) home =
     (Ok tt, home,
      [Log DEBUG; statusUpdate "homebridge" kitchen "On" (JBool false)]))
  /\ (forall on,
        run (handleSwitchBLEData kitchen (switchData (Int 2) on)) home =
        (Ok tt, home,
         [Log DEBUG; statusUpdate "homebridge" kitchen "On" (JBool on)])).
Proof.
  apply (switch_encode_decode kitchen 1 home); [reflexivity | reflexivity | lia].
Defined.

(** C4, counterexample to the claim as stated: the command that turns
    channel 1 on carries the data byte [11]; decoded for the same device
    its low nibble gives [On = false]. *)
Lemma switch_encode_decode_counterexample :
  switchData (index kitchen) true = "11"
  /\ run (handleSwitchBLEData kitchen (switchData (index kitchen) true)) home =
     (Ok tt, home,
      [Log DEBUG; statusUpdate "homebridge" kitchen "On" (JBool false)])
  /\ run (handleSwitchBLEData kitchen (switchData (index kitchen) true)) home <>
     (Ok tt, home,
      [Log DEBUG; statusUpdate "homebridge" kitchen "On" (JBool true)]).
Proof.
  split; [vm_compute; reflexivity |].
  assert (E : run (handleSwitchBLEData kitchen (switchData (index kitchen) true)) home =
              (Ok tt, home,
               [Log DEBUG; statusUpdate "homebridge" kitchen "On" (JBool false)]))
    by (vm_compute; reflexivity).
  split; [exact E |].
  rewrite E. intros [=].
Qed.

(** ** The two brightness scalings *)

Lemma number_eqb_eq (a b : number) : number_eqb a b = true -> a = b.
Proof.
  destruct a as [x | | s], b as [y | | u]; simpl; try discriminate; intros H.
  - apply Z.eqb_eq in H. now subst.
  - reflexivity.
  - apply Bool.eqb_prop in H. now subst.
Qed.

(** On a byte, the binary64 computation [Math.round((v / 255) * 100)]
    is rounding of 100 v / 255 to the nearest integer. *)
Lemma scaleTo100_exact (v : Z) :
  0 <= v <= 255 -> scaleTo100 (Int v) = Int (round_div (100 * v) 255).
Proof.
  intros H. apply number_eqb_eq.
  apply (Z_range_forallb
           (fun v => number_eqb (scaleTo100 (Int v)) (Int (round_div (100 * v) 255)))
           0 256); [vm_compute; reflexivity | lia].
Qed.

(** On a percentage, the binary64 computation
    [Math.round((b / 100) * 255)] is rounding of 255 b / 100 to the
    nearest integer, ties upwards. *)
Lemma scaleTo255_exact (b : Z) :
  0 <= b <= 100 -> scaleTo255 (Int b) = Int (round_div (255 * b) 100).
Proof.
  intros H. apply number_eqb_eq.
  apply (Z_range_forallb
           (fun b => number_eqb (scaleTo255 (Int b)) (Int (round_div (255 * b) 100)))
           0 101); [vm_compute; reflexivity | lia].
Qed.

Lemma round_div_255_range (b : Z) :
  0 <= b <= 100 -> 0 <= round_div (255 * b) 100 <= 255.
Proof. unfold round_div. intros H. split; Z.div_mod_to_equations; lia. Qed.

(** Scaling a percentage up and back down is the identity. *)
Lemma scale_round_trip (b : Z) :
  0 <= b <= 100 -> round_div (100 * round_div (255 * b) 100) 255 = b.
Proof. unfold round_div. intros H. Z.div_mod_to_equations. lia. Qed.

(** The data byte of a dimming command reads back as the scaled value. *)
Lemma dimmingData_parse (b : Z) :
  0 <= b <= 100 -> Js.parseInt (dimmingData (Int b)) 16 = scaleTo255 (Int b).
Proof.
  intros H. apply number_eqb_eq.
  apply (Z_range_forallb
           (fun b => number_eqb (Js.parseInt (dimmingData (Int b)) 16)
                       (scaleTo255 (Int b)))
           0 101); [vm_compute; reflexivity | lia].
Qed.

(** C8.  For every integer brightness [b] in 0..100 the encoder's
    scaling [Math.round((b / 100) * 255)] gives a byte [v], which is what
    the two hexadecimal digits of the command's data byte denote, and the
    decoder's scaling [Math.round((v / 255) * 100)] of that byte is
    within 1 of [b]. *)
Theorem dimming_round_trip (b : Z) :
  0 <= b <= 100 ->
  exists v b' : Z,
    scaleTo255 (Int b) = Int v
    /\ 0 <= v <= 255
    /\ Js.parseInt (dimmingData (Int b)) 16 = Int v
    /\ scaleTo100 (Int v) = Int b'
    /\ Z.abs (b' - b) <= 1.
Proof.
  intros H.
  exists (round_div (255 * b) 100), b.
  pose proof (round_div_255_range b H) as Hv.
  pose proof (scaleTo255_exact b H) as He.
  repeat split; try lia.
  - exact He.
  - rewrite dimmingData_parse by exact H. exact He.
  - rewrite scaleTo100_exact by exact Hv. now rewrite scale_round_trip.
Qed.

(** C8, witness: 50 percent is byte 128 and comes back as 50. *)
Lemma dimming_round_trip_witness :
  exists v b' : Z,
    scaleTo255 (Int 50) = Int v
    /\ 0 <= v <= 255
    /\ Js.parseInt (dimmingData (Int 50)) 16 = Int v
    /\ scaleTo100 (Int v) = Int b'
    /\ Z.abs (b' - 50) <= 1.
Proof. apply (dimming_round_trip 50). lia. Defined.

(** ** BLE status decoder: dimmers *)

(** The trace of [handleDimmingBLEData], by cases on the tail. *)
Lemma handleDimmingBLEData_trace (device : Device) (data : string) (w : world) :
  run (handleDimmingBLEData device data) w =
  (Ok tt, w,
   Log DEBUG ::
   if Js.len data <? 6 then [Log WARN]
   else match Js.parseInt (Js.substring data 4 6) 16 with
        | NaN => [Log WARN]
        | parsed =>
            [statusUpdate (topicPrefix w) device "Brightness"
               (JNum (scaleTo100 parsed));
             statusUpdate (topicPrefix w) device "On"
               (JBool (Js.gt0 (scaleTo100 parsed)))]
        end).
Proof.
  unfold handleDimmingBLEData, setCharacteristic, statusUpdate. run_M.
  destruct (Js.len data <? 6); [reflexivity |].
  destruct (Js.parseInt (Js.substring data 4 6) 16); reflexivity.
Qed.

(** Characters 4 and 5 of a tail of at least six characters. *)
Lemma substring_4_6 (a b c d e f : ascii) (post : string) :
  Js.substring (String a (String b (String c (String d (String e (String f post)))))) 4 6
  = String e (String f "").
Proof.
  unfold Js.substring, Js.len. simpl String.length.
  set (N := Z.of_nat (S (S (S (S (S (S (String.length post)))))))).
  assert (HN : 6 <= N) by (unfold N; lia).
  replace (Z.min (Z.max 4 0) N) with 4 by lia.
  replace (Z.min (Z.max 6 0) N) with 6 by lia.
  simpl. now destruct post.
Qed.

Lemma len_ge_6 (a b c d e f : ascii) (post : string) :
  (Js.len (String a (String b (String c (String d (String e (String f post))))))
   <? 6) = false.
Proof. apply Z.ltb_ge. unfold Js.len. simpl String.length. lia. Qed.

(** C5.  For a Dimming device and a tail [t]: when [t] has fewer than six
    characters, or when the two characters at offsets 4 and 5 do not
    start with a hexadecimal number, nothing is published (a warning is
    logged and the handler returns); otherwise, with [v] the parsed
    value, a [Brightness] update of value [Math.round((v / 255) * 100)]
    is published, followed by an [On] update of value [brightness > 0].
    On a byte [v] in 0..255 the brightness is 100 v / 255 rounded to the
    nearest integer.  When the two characters are [7F] the updates are
    [Brightness = 50] and [On = true]. *)
Theorem dimming_status_decoding (device : Device) (w : world) :
  (forall t, Js.len t < 6 ->
     run (handleDimmingBLEData device t) w = (Ok tt, w, [Log DEBUG; Log WARN]))
  /\ (forall t, 6 <= Js.len t ->
        Js.parseInt (Js.substring t 4 6) 16 = NaN ->
        run (handleDimmingBLEData device t) w = (Ok tt, w, [Log DEBUG; Log WARN]))
  /\ (forall t v, 6 <= Js.len t ->
        Js.parseInt (Js.substring t 4 6) 16 = Int v ->
        run (handleDimmingBLEData device t) w =
        (Ok tt, w,
         [Log DEBUG;
          statusUpdate (topicPrefix w) device "Brightness" (JNum (scaleTo100 (Int v)));
          statusUpdate (topicPrefix w) device "On" (JBool (Js.gt0 (scaleTo100 (Int v))))]))
  /\ (forall v, 0 <= v <= 255 ->
        scaleTo100 (Int v) = Int (round_div (100 * v) 255))
  /\ (forall a b c d post,
        run (handleDimmingBLEData device
               (String a (String b (String c (String d ("7F" ++ post)))))) w =
        (Ok tt, w,
         [Log DEBUG;
          statusUpdate (topicPrefix w) device "Brightness" (JNum (Int 50));
          statusUpdate (topicPrefix w) device "On" (JBool true)])).
Proof.
  repeat split.
  - intros t Ht. rewrite handleDimmingBLEData_trace.
    destruct (Z.ltb_spec (Js.len t) 6); [reflexivity | lia].
  - intros t Ht Hp. rewrite handleDimmingBLEData_trace, Hp.
    destruct (Z.ltb_spec (Js.len t) 6); [lia | reflexivity].
  - intros t v Ht Hp. rewrite handleDimmingBLEData_trace, Hp.
    destruct (Z.ltb_spec (Js.len t) 6); [lia | reflexivity].
  - apply scaleTo100_exact.
  - intros a b c d post. rewrite handleDimmingBLEData_trace.
    change ("7F" ++ post) with (String "7" (String "F" post)).
    rewrite len_ge_6, substring_4_6.
    change (Js.parseInt "7F" 16) with (Int 127).
    change (scaleTo100 (Int 127)) with (Int 50).
    reflexivity.
Qed.

(** C5, witness: a dimmer frame whose characters 4 and 5 are [7F]. *)
Lemma dimming_status_decoding_witness :
  run (handleDimmingBLEData dimmer "02017F00") home =
  (Ok tt, home,
   [Log DEBUG;
    statusUpdate "homebridge" dimmer "Brightness" (JNum (Int 50));
    statusUpdate "homebridge" dimmer "On" (JBool true)]).
Proof.
  exact (proj2 (proj2 (proj2 (proj2 (dimming_status_decoding dimmer home))))
           "0"%char "2"%char "0"%char "1"%char "00").
Defined.

(** ** Command encoder *)





Section Encoder.

Variable md5 : string -> string.

Lemma switchDevice_ok (this : DeviceService) (id : string) (device : Device)
    (mac : string) (on : bool) (w : world) :
  OMap.get id (devices this) = Some device ->
  type device = SWITCH ->
  macAddress device = Some mac ->
  run (switchDevice md5 this id on) w =
  (Ok tt, w,
   Log DEBUG :: Log DEBUG ::
   if mqttService (service w)
   then [MqttPublish (commandTopic md5 (gatewayId device))
           (writeCommand (guid device) mac
              ("02" ++ reversedMac mac ++ "8000"
               ++ switchData (index device) on ++ "00"))]
   else []).
Proof.
  intros Hget Hty Hmac. unfold switchDevice. run_M.
  rewrite Hget, Hty. simpl. rewrite Hmac. simpl.
  now destruct (mqttService (service w)).
Qed.

Lemma dimmingDevice_ok (this : DeviceService) (id : string) (device : Device)
    (mac : string) (brightness : number) (w : world) :
  OMap.get id (devices this) = Some device ->
  type device = DIMMING ->
  macAddress device = Some mac ->
  run (dimmingDevice md5 this id brightness) w =
  (Ok tt, w,
   Log DEBUG :: Log DEBUG ::
   if mqttService (service w)
   then [MqttPublish (commandTopic md5 (gatewayId device))
           (writeCommand (guid device) mac
              ("02" ++ reversedMac mac ++ "8900" ++ dimmingData brightness))]
   else []).
Proof.
  intros Hget Hty Hmac. unfold dimmingDevice. run_M.
  rewrite Hget, Hty. simpl. rewrite Hmac. simpl.
  now destruct (mqttService (service w)).
Qed.

(** Beyond channel 8 neither position exists and the array stays zero. *)
Lemma switchBits_beyond (i : Z) (on : bool) :
  9 <= i -> switchBits (Int i) on = Js.Array_fill 8 (Int 0).
Proof.
  intros Hi. unfold switchBits, Js.array_set, Js.sub.
  destruct (Z.leb_spec 0 (4 - i)); [lia |].
  destruct (Z.leb_spec 0 (8 - i)); [lia |].
  now destruct on.
Qed.


End Encoder.



(** ** Insertion-ordered maps *)

Lemma OMap_get_set_eq {V} (k : string) (v : V) (m : list (string * V)) :
  OMap.get k (OMap.set k v m) = Some v.
Proof.
  induction m as [|[k' v'] m IH]; simpl.
  - now rewrite String.eqb_refl.
  - destruct (String.eqb_spec k k') as [-> | Hne]; simpl.
    + now rewrite String.eqb_refl.
    + destruct (String.eqb_spec k k'); [contradiction | exact IH].
Qed.

Lemma OMap_get_set_ne {V} (k k' : string) (v : V) (m : list (string * V)) :
  k <> k' -> OMap.get k' (OMap.set k v m) = OMap.get k' m.
Proof.
  intros Hne. induction m as [|[k0 v0] m IH]; simpl.
  - destruct (String.eqb_spec k' k); [congruence | reflexivity].
  - destruct (String.eqb_spec k k0) as [-> | Hk]; simpl.
    + destruct (String.eqb_spec k' k0); [congruence | reflexivity].
    + destruct (String.eqb_spec k' k0); [reflexivity | exact IH].
Qed.

Lemma OMap_get_None {V} (k : string) (m : list (string * V)) :
  OMap.get k m = None -> ~ In k (OMap.keys m).
Proof.
  induction m as [|[k' v'] m IH]; simpl; [tauto |].
  destruct (String.eqb_spec k k') as [-> | Hne]; [discriminate |].
  intros H [Heq | Hin]; [congruence | now apply IH].
Qed.

Lemma OMap_get_In {V} (k : string) (v : V) (m : list (string * V)) :
  OMap.get k m = Some v -> In (k, v) m.
Proof.
  induction m as [|[k' v'] m IH]; simpl; [discriminate |].
  destruct (String.eqb_spec k k') as [-> | Hne].
  - intros [= ->]. now left.
  - intros H. right. now apply IH.
Qed.

(** Assigning to an absent key appends the entry. *)
Lemma OMap_set_absent {V} (k : string) (v : V) (m : list (string * V)) :
  OMap.get k m = None -> OMap.set k v m = (m ++ [(k, v)])%list.
Proof.
  induction m as [|[k' v'] m IH]; simpl; [reflexivity |].
  destruct (String.eqb_spec k k') as [-> | Hne]; [discriminate |].
  intros H. now rewrite IH.
Qed.

(** ** Registry construction *)

Lemma toLowerCase_truthy (s : string) :
  Js.truthy (Some s) = true -> Js.truthy (Some (Js.toLowerCase s)) = true.
Proof. destruct s; [discriminate | reflexivity]. Qed.

Lemma addGateway_ok (m : gmap string DeviceInfo) (pd : ProfileDevice) :
  map_Forall (fun _ => info_ok) m -> map_Forall (fun _ => info_ok) (addGateway m pd).
Proof.
  intros Hm. unfold addGateway.
  destruct (Js.truthy (pd_device pd)) eqn:Hd; [| exact Hm].
  destruct (Js.truthy (pd_gateway pd)) eqn:Hg; [| exact Hm].
  simpl. destruct (pd_device pd) as [d |]; [| exact Hm].
  apply map_Forall_insert_2; [| exact Hm].
  split; [exact Hg | now left].
Qed.

Lemma addMacAddress_ok (m : gmap string DeviceInfo) (dd : DeviceData) :
  map_Forall (fun _ => info_ok) m -> map_Forall (fun _ => info_ok) (addMacAddress m dd).
Proof.
  intros Hm. unfold addMacAddress.
  destruct (Js.truthy (dd_name dd)) eqn:Hn; [| exact Hm].
  destruct (Js.truthy (dd_mac_address dd)) eqn:Ha; [| exact Hm].
  simpl. destruct (dd_name dd) as [n |]; [| exact Hm].
  destruct (dd_mac_address dd) as [mac |]; [| exact Hm].
  destruct (m !! n) as [info |] eqn:Hl; [| exact Hm].
  destruct (Js.truthy (gateway info)) eqn:Hg; [| exact Hm].
  simpl. apply map_Forall_insert_2; [| exact Hm].
  split; [exact Hg | right; now apply toLowerCase_truthy].
Qed.

Lemma fold_left_inv {A B} (P : A -> Prop) (f : A -> B -> A) (l : list B) (a : A) :
  (forall a b, P a -> P (f a b)) -> P a -> P (fold_left f l a).
Proof.
  intros Hf. revert a. induction l as [|b l IH]; simpl; intros a Ha;
    [exact Ha | apply IH, Hf, Ha].
Qed.

Lemma buildDeviceInfo_ok (data : AfterLoginResp) :
  map_Forall (fun _ => info_ok) (buildDeviceInfo data).
Proof.
  unfold buildDeviceInfo.
  apply fold_left_inv; [apply addMacAddress_ok |].
  apply fold_left_inv; [apply addGateway_ok |].
  apply map_Forall_empty.
Qed.

(** Storing a well-formed device under a fresh key keeps the registry
    well formed. *)
Lemma registry_ok_set (devs : list (string * Device)) (k : string) (d : Device) :
  registry_ok devs -> OMap.get k devs = None -> device_ok k d ->
  registry_ok (OMap.set k d devs).
Proof.
  intros [Hnd Hall] Hget Hd. rewrite (OMap_set_absent k d devs Hget).
  split.
  - unfold OMap.keys. rewrite map_app. simpl.
    apply NoDup_app. split; [exact Hnd | split].
    + intros x Hx Hin. apply list_elem_of_In in Hin. simpl in Hin.
      destruct Hin as [<- | []].
      apply list_elem_of_In in Hx. now apply (OMap_get_None k devs Hget).
    + apply NoDup_singleton.
  - apply Forall_app; split; [exact Hall |]. now constructor.
Qed.

Lemma registry_lookup_ok (devs : list (string * Device)) (k : string) (d : Device) :
  registry_ok devs -> OMap.get k devs = Some d -> device_ok k d.
Proof.
  intros [_ Hall] Hget. apply OMap_get_In in Hget.
  rewrite List.Forall_forall in Hall. exact (Hall (k, d) Hget).
Qed.

Lemma truthy_Some (o : option string) :
  Js.truthy o = true -> exists s, o = Some s.
Proof. destruct o as [s |]; [now exists s | discriminate]. Qed.

Lemma addSwitch_ok (m : gmap string DeviceInfo) (group : string)
    (sub : ProfileSubdevice) (devs : list (string * Device)) :
  registry_ok devs -> registry_ok (addSwitch m group sub devs).
Proof.
  intros Hok. unfold addSwitch.
  destruct (Js.truthy (title sub) && _); [exact Hok |].
  destruct (OMap.get _ devs) eqn:Hget; [exact Hok |].
  destruct (ps_device sub) as [guid |] eqn:Hdev; [| exact Hok].
  destruct (Js.truthy (Some guid)); [| exact Hok]. simpl negb. cbv iota.
  destruct (m !! guid) as [info |]; [| exact Hok].
  destruct (Js.truthy (info_macAddress info)) eqn:Hmac; [| exact Hok].
  destruct (Js.truthy (gateway info)) eqn:Hgw; [| exact Hok].
  simpl. simpl in Hget.
  apply registry_ok_set; [exact Hok | exact Hget |].
  repeat split; simpl; try assumption; try reflexivity;
    first [intros _; assumption | intros _; reflexivity | intros [=]].
Qed.

Lemma addDimming_ok (m : gmap string DeviceInfo) (sub : ProfileSubdevice)
    (devs : list (string * Device)) :
  map_Forall (fun _ => info_ok) m ->
  registry_ok devs -> registry_ok (addDimming m sub devs).
Proof.
  intros Hm Hok. unfold addDimming.
  destruct (OMap.get _ devs) eqn:Hget; [exact Hok |].
  destruct (ps_device sub) as [guid |] eqn:Hdev; [| exact Hok].
  destruct (Js.truthy (Some guid)); [| exact Hok]. simpl negb. cbv iota.
  destruct (m !! guid) as [info |] eqn:Hinfo; [| exact Hok].
  simpl in Hget.
  apply registry_ok_set; [exact Hok | exact Hget |].
  destruct (Hm guid info Hinfo) as [Hgw _].
  repeat split; simpl; try assumption; try reflexivity;
    first [intros _; assumption | intros _; reflexivity | intros [=]].
Qed.

Lemma addSubdevice_ok (m : gmap string DeviceInfo)
    (devs : list (string * Device)) (sub : ProfileSubdevice) :
  map_Forall (fun _ => info_ok) m ->
  registry_ok devs -> registry_ok (addSubdevice m devs sub).
Proof.
  intros Hm Hok. unfold addSubdevice.
  destruct (device_button_group sub) as [group |]; [| exact Hok].
  destruct (Js.truthy (Some group)); [| exact Hok]. simpl negb. cbv iota.
  destruct (Js.startsWith group "ONOFF GANG"); [now apply addSwitch_ok |].
  destruct (Js.startsWith group "DIMMING"); [now apply addDimming_ok |].
  exact Hok.
Qed.

Lemma fromAfterLoginResp_ok (data : AfterLoginResp) :
  registry_ok (devices (fromAfterLoginResp data)).
Proof.
  unfold fromAfterLoginResp. simpl.
  apply fold_left_inv.
  - intros devs sub. apply addSubdevice_ok, buildDeviceInfo_ok.
  - split; [constructor | constructor].
Qed.

(** X1.  For every snapshot: the stored ids are pairwise distinct and
    every device is stored under its id; every Switch device has a
    non-empty MAC address and a non-empty gateway id; every Dimming
    device has index 0.  On a snapshot whose module names are ordinary
    and whose switch labels are plain, every id is the module, a dash
    and the index, and every device, Dimming ones included, has a
    non-empty gateway id. *)
Theorem registry_well_formed (data : AfterLoginResp) :
  NoDup (OMap.keys (devices (fromAfterLoginResp data)))
  /\ (forall k d,
        OMap.get k (devices (fromAfterLoginResp data)) = Some d ->
        id d = k
        /\ (type d = SWITCH ->
            Js.truthy (macAddress d) = true /\ Js.truthy (gatewayId d) = true)
        /\ (type d = DIMMING -> index d = Int 0)
        /\ (readable data = true ->
            id d = guid d ++ "-" ++ Js.toString (index d)
            /\ Js.truthy (gatewayId d) = true)).
Proof.
  pose proof (fromAfterLoginResp_ok data) as Hok. split.
  - apply Hok.
  - intros k d Hget.
    destruct (registry_lookup_ok _ k d Hok Hget) as (Hk & Hid & Hgw & Hmac & Hdim).
    split; [exact Hk | split; [| split; [exact Hdim |]]].
    + intros Hty. split; [exact (Hmac Hty) | exact Hgw].
    + intros _. split; [exact Hid | exact Hgw].
Qed.

(** X1, witness: the registry of the specification's snapshot. *)
Lemma registry_well_formed_witness :
  readable kitchen_snapshot = true
  /\ OMap.get "M1-1" (devices (fromAfterLoginResp kitchen_snapshot)) = Some kitchen
  /\ id kitchen = guid kitchen ++ "-" ++ Js.toString (index kitchen)
  /\ Js.truthy (gatewayId kitchen) = true.
Proof.
  split; [reflexivity | split; [vm_compute; reflexivity |]].
  destruct (registry_well_formed kitchen_snapshot) as [_ Hall].
  destruct (Hall "M1-1" kitchen) as (_ & _ & _ & Hread);
    [vm_compute; reflexivity |].
  exact (Hread eq_refl).
Defined.

(** C3, the code at the failing input.  Module [M3] has a gateway and no
    MAC address.  Its Switch record is dropped; its Dimming record is
    stored, with [macAddress] undefined: the dimming branch of
    [fromAfterLoginResp] lacks the check the switch branch makes. *)
Theorem dimmer_stored_without_mac :
  devices (fromAfterLoginResp partial_snapshot) = [("M3-0", lamp)]
  /\ type lamp = DIMMING
  /\ macAddress lamp = None
  /\ ~ has_addresses lamp.
Proof.
  split; [vm_compute; reflexivity |].
  split; [reflexivity |]. split; [reflexivity |].
  intros [Hmac _]. discriminate Hmac.
Qed.

(** The scenario of the specification: one switch on a complete module. *)
Lemma kitchen_snapshot_registry :
  devices (fromAfterLoginResp kitchen_snapshot) = [("M1-1", kitchen)].
Proof. vm_compute. reflexivity. Qed.

(** ** The handler monad *)

Lemma run_eta {A} (m : M A) (w : world) :
  run m w = (result m w, final m w, trace m w).
Proof. unfold result, final, trace. now destruct (run m w) as [[o w'] t]. Qed.

Lemma quiet_run (m : M unit) (w : world) :
  quiet m -> run m w = (Ok tt, w, trace m w).
Proof. intros H. rewrite run_eta. now destruct (H w) as [-> ->]. Qed.

Lemma quiet_logger (lvl : LogLevel) : quiet (logger lvl).
Proof. intros w. now split. Qed.

Lemma quiet_bind (m : M unit) (k : unit -> M unit) :
  quiet m -> (forall u, quiet (k u)) -> quiet (mbind k m).
Proof.
  intros Hm Hk w. unfold result, final, run, mbind, M_bind.
  pose proof (quiet_run m w Hm) as E. unfold run in E. rewrite E.
  pose proof (quiet_run (k tt) w (Hk tt)) as E2. unfold run in E2. rewrite E2.
  now split.
Qed.

Lemma trace_bind (m : M unit) (k : unit -> M unit) (w : world) :
  quiet m -> trace (mbind k m) w = (trace m w ++ trace (k tt) w)%list.
Proof.
  intros Hm. unfold trace, run, mbind, M_bind.
  pose proof (quiet_run m w Hm) as E. unfold trace, run in E. rewrite E.
  simpl. now destruct (k tt w) as [[o w'] t].
Qed.

Lemma quiet_for_each {A} (l : list A) (body : A -> M unit) :
  (forall x, quiet (body x)) -> quiet (for_each l body).
Proof.
  intros Hb. induction l as [|x l IH]; simpl.
  - intros w. now split.
  - apply quiet_bind; [apply Hb | intros _; exact IH].
Qed.

(** A loop of quiet bodies emits the traces of its bodies, in order. *)
Lemma trace_for_each {A} (l : list A) (body : A -> M unit) (w : world) :
  (forall x, quiet (body x)) ->
  trace (for_each l body) w = flat_map (fun x => trace (body x) w) l.
Proof.
  intros Hb. induction l as [|x l IH]; simpl; [reflexivity |].
  rewrite trace_bind by apply Hb. now rewrite IH.
Qed.

(** ** Decoding, discovery and replay leave the state alone *)

Lemma quiet_setCharacteristic (device : Device) (c : string) (v : json) :
  quiet (setCharacteristic device c v).
Proof. intros w. now split. Qed.

Lemma quiet_handleSwitchBLEData (device : Device) (data : string) :
  quiet (handleSwitchBLEData device data).
Proof.
  intros w. unfold handleSwitchBLEData, result, final. run_M.
  destruct (negb _); [now split |].
  destruct (Js.array_get _ _); now split.
Qed.

Lemma quiet_handleDimmingBLEData (device : Device) (data : string) :
  quiet (handleDimmingBLEData device data).
Proof.
  intros w. unfold result, final. rewrite handleDimmingBLEData_trace. now split.
Qed.

Lemma quiet_decodeFor (data : string) (device : Device) :
  quiet (decodeFor data device).
Proof.
  unfold decodeFor. destruct (type device);
    [apply quiet_handleSwitchBLEData | apply quiet_handleDimmingBLEData].
Qed.

Lemma quiet_handleBleDeviceData (mac data : string) :
  quiet (handleBleDeviceData mac data).
Proof.
  intros w. unfold handleBleDeviceData, result, final, run, mbind, M_bind, get_world.
  destruct (deviceService (service w)) as [ds |]; [| now split].
  destruct (getByMacAddress ds mac) as [|d l] eqn:E; [now split |].
  pose proof (quiet_run _ w (quiet_for_each (d :: l) (decodeFor data)
                               (quiet_decodeFor data))) as Q.
  unfold run in Q. rewrite Q. now split.
Qed.

Lemma quiet_publishDeviceAddition (device : Device) :
  quiet (publishDeviceAddition device).
Proof. intros w. unfold publishDeviceAddition. destruct (type device); now split. Qed.

Lemma trace_publishDeviceAddition (device : Device) (w : world) :
  trace (publishDeviceAddition device) w = [discovery (topicPrefix w) device].
Proof. unfold publishDeviceAddition, discovery. now destruct (type device). Qed.

Lemma quiet_get_world (k : world -> M unit) :
  (forall w, quiet (k w)) -> quiet (mbind k get_world).
Proof.
  intros Hk w. unfold result, final, run, mbind, M_bind, get_world.
  pose proof (quiet_run (k w) w (Hk w)) as Q. unfold run in Q. rewrite Q.
  now split.
Qed.

Lemma trace_get_world (k : world -> M unit) (w : world) :
  trace (mbind k get_world) w = trace (k w) w.
Proof.
  unfold trace, run, mbind, M_bind, get_world.
  now destruct (k w w) as [[o w'] t].
Qed.

Lemma quiet_ret : quiet (mret tt).
Proof. intros w. now split. Qed.

Lemma quiet_replay (entry : string * string) : quiet (replay entry).
Proof. apply quiet_handleBleDeviceData. Qed.

Lemma quiet_handleSubscription (subscription_topic : string) :
  quiet (handleSubscription subscription_topic).
Proof.
  unfold handleSubscription.
  apply quiet_bind; [apply quiet_logger | intros _].
  apply quiet_get_world. intros w.
  destruct (negb _); [apply quiet_ret |].
  apply quiet_bind;
    [apply quiet_for_each, quiet_publishDeviceAddition | intros _].
  apply quiet_bind; [apply quiet_logger | intros _].
  apply quiet_for_each, quiet_replay.
Qed.

Lemma flat_map_discovery (w : world) (l : list Device) :
  flat_map (fun d => trace (publishDeviceAddition d) w) l
  = map (discovery (topicPrefix w)) l.
Proof.
  induction l as [|d l IH]; simpl; [reflexivity |].
  now rewrite trace_publishDeviceAddition, IH.
Qed.

Lemma trace_handleSubscription (subscription_topic : string) (w : world) :
  trace (handleSubscription subscription_topic) w =
  Log INFO ::
  if String.eqb subscription_topic (topicPrefix w ++ "/to/#")
  then (map (discovery (topicPrefix w)) (all_devices (service w))
        ++ Log INFO
           :: flat_map (fun e => trace (handleBleDeviceData (fst e) (snd e)) w)
                (bleDeviceCache w))%list
  else [].
Proof.
  unfold handleSubscription.
  rewrite trace_bind by apply quiet_logger.
  rewrite trace_get_world.
  change (trace (logger INFO) w) with [Log INFO]. simpl app. f_equal.
  destruct (String.eqb subscription_topic _); simpl negb; cbv iota;
    [| reflexivity].
  rewrite trace_bind
    by apply quiet_for_each, quiet_publishDeviceAddition.
  rewrite trace_for_each by apply quiet_publishDeviceAddition.
  rewrite flat_map_discovery. f_equal.
  rewrite trace_bind by apply quiet_logger.
  rewrite trace_for_each by apply quiet_replay.
  reflexivity.
Qed.

(** What the relay handler publishes for a frame is what a replay of the
    cached frame publishes. *)
Lemma trace_extractAndCache (p : string) (w : world) :
  run (extractAndCacheBleDeviceMessage p) w =
  (Ok tt, cached w p,
   Log DEBUG :: trace (handleBleDeviceData (frame_mac p) (frame_data p)) (cached w p)).
Proof.
  unfold extractAndCacheBleDeviceMessage, run, mbind, M_bind, get_world,
    put_world, logger, emit.
  pose proof (quiet_run _ (cached w p)
                (quiet_handleBleDeviceData (frame_mac p) (frame_data p))) as Q.
  unfold run in Q. unfold cached, frame_mac, frame_data in *.
  rewrite Q. reflexivity.
Qed.

Lemma trace_decode_prefix (l : list Device) (data : string) (w1 w2 : world) :
  topicPrefix w1 = topicPrefix w2 ->
  trace (for_each l (decodeFor data)) w1 = trace (for_each l (decodeFor data)) w2.
Proof.
  intros Hp. rewrite !trace_for_each by apply quiet_decodeFor.
  apply flat_map_ext. intros dev. unfold decodeFor.
  destruct (type dev).
  - unfold trace, handleSwitchBLEData, setCharacteristic. run_M.
    destruct (negb _); [reflexivity |].
    destruct (Js.array_get _ _); [| reflexivity]. now rewrite Hp.
  - unfold trace. rewrite !handleDimmingBLEData_trace. simpl. now rewrite Hp.
Qed.

(** The decode pipeline reads the registry and the topic prefix only. *)
Lemma handleBleDeviceData_cache (mac data : string) (w : world)
    (c : list (string * string)) :
  trace (handleBleDeviceData mac data) (with_cache w c)
  = trace (handleBleDeviceData mac data) w.
Proof.
  unfold trace, run, handleBleDeviceData, mbind, M_bind, get_world.
  change (service (with_cache w c)) with (service w).
  destruct (deviceService (service w)) as [ds |]; [| reflexivity].
  destruct (getByMacAddress ds mac) as [|d l]; [reflexivity |].
  cbv beta iota.
  pose proof (quiet_run _ (with_cache w c)
                (quiet_for_each (d :: l) _ (quiet_decodeFor data))) as Q1.
  pose proof (quiet_run _ w
                (quiet_for_each (d :: l) _ (quiet_decodeFor data))) as Q2.
  unfold run in Q1, Q2. rewrite Q1, Q2. cbv beta iota.
  exact (trace_decode_prefix (d :: l) data (with_cache w c) w eq_refl).
Qed.

(** ** Subscription: discovery, then replay *)

Lemma world_eta (w0 w : world) :
  service w0 = service w -> topicPrefix w0 = topicPrefix w ->
  w0 = with_cache w (bleDeviceCache w0).
Proof. destruct w0, w. simpl. now intros -> ->. Qed.

(** What the decoder publishes for a device is part of what a frame of
    its MAC address publishes. *)
Lemma trace_handleBleDeviceData_device (ds : DeviceService) (mac tail : string)
    (d : Device) (w : world) (ev : event) :
  deviceService (service w) = Some ds ->
  getByName ds (id d) = Some d ->
  macAddress d = Some mac ->
  In ev (trace (decodeFor tail d) w) ->
  In ev (trace (handleBleDeviceData mac tail) w).
Proof.
  intros Hds Hget Hmac Hev.
  assert (Hin : In d (getByMacAddress ds mac)).
  { unfold getByMacAddress. apply list_elem_of_In, list_elem_of_filter. split.
    - unfold mac_is. rewrite Hmac. now rewrite String.eqb_refl.
    - apply list_elem_of_In. unfold OMap.values.
      apply (in_map snd) with (x := (id d, d)). now apply OMap_get_In. }
  unfold handleBleDeviceData. rewrite trace_get_world, Hds.
  destruct (getByMacAddress ds mac) as [|d0 l] eqn:E; [destruct Hin |].
  rewrite trace_for_each by apply quiet_decodeFor.
  apply in_flat_map. now exists d.
Qed.

(** C2.  A subscription to exactly [{prefix}/to/#] publishes one
    discovery message to [{prefix}/to/add] for every device of the
    registry (service [Lightbulb], with [Brightness: "default"] for a
    Dimming device), and after them runs every entry of the replay cache
    through the decode pipeline, in the order of the cache; what a replay
    publishes for a frame is what was published when the frame was
    received.  So the status of every cached frame is published again:
    for a stored Switch device of channel 1 to 3 with the MAC address of
    a cached frame that ends in a hexadecimal digit, its [On] update;
    for a stored Dimming device, on a frame that carries a brightness,
    its [Brightness] and [On] updates.  A subscription to any other
    topic publishes nothing.  In both cases the handler returns normally
    and changes no state. *)
Theorem subscription_discovery_and_replay (subscription_topic : string) (w : world) :
  (subscription_topic = topicPrefix w ++ "/to/#" ->
   run (handleSubscription subscription_topic) w =
   (Ok tt, w,
    Log INFO ::
    (map (discovery (topicPrefix w)) (all_devices (service w))
     ++ Log INFO
        :: flat_map (fun e => trace (handleBleDeviceData (fst e) (snd e)) w)
             (bleDeviceCache w))%list))
  /\ (subscription_topic <> topicPrefix w ++ "/to/#" ->
      run (handleSubscription subscription_topic) w = (Ok tt, w, [Log INFO]))
  /\ (forall p w0,
        service w0 = service w -> topicPrefix w0 = topicPrefix w ->
        trace (extractAndCacheBleDeviceMessage p) w0 =
        Log DEBUG :: trace (handleBleDeviceData (frame_mac p) (frame_data p)) w)
  /\ (forall ds mac tail d,
        subscription_topic = topicPrefix w ++ "/to/#" ->
        deviceService (service w) = Some ds ->
        In (mac, tail) (bleDeviceCache w) ->
        getByName ds (id d) = Some d ->
        macAddress d = Some mac ->
        (forall pre c v i,
           type d = SWITCH ->
           tail = pre ++ String c "" -> Js.digit_val c = Some v -> v < 16 ->
           index d = Int i -> 1 <= i <= 3 ->
           In (statusUpdate (topicPrefix w) d "On" (JBool (Z.testbit v i)))
              (trace (handleSubscription subscription_topic) w))
        /\ (forall v,
              type d = DIMMING ->
              6 <= Js.len tail ->
              Js.parseInt (Js.substring tail 4 6) 16 = Int v ->
              In (statusUpdate (topicPrefix w) d "Brightness"
                    (JNum (scaleTo100 (Int v))))
                 (trace (handleSubscription subscription_topic) w)
              /\ In (statusUpdate (topicPrefix w) d "On"
                       (JBool (Js.gt0 (scaleTo100 (Int v)))))
                    (trace (handleSubscription subscription_topic) w))).
Proof.
  split; [| split; [| split]].
  - intros ->.
    rewrite quiet_run by apply quiet_handleSubscription.
    now rewrite trace_handleSubscription, String.eqb_refl.
  - intros Hne.
    rewrite quiet_run by apply quiet_handleSubscription.
    rewrite trace_handleSubscription.
    now destruct (String.eqb_spec subscription_topic (topicPrefix w ++ "/to/#")).
  - intros p w0 Hs Hp. unfold trace at 1. rewrite trace_extractAndCache. simpl.
    f_equal. unfold cached. rewrite handleBleDeviceData_cache.
    rewrite (world_eta w0 w Hs Hp). apply handleBleDeviceData_cache.
  - intros ds mac tail d -> Hds Hcache Hget Hmac.
    assert (Hreplay : forall ev,
               In ev (trace (decodeFor tail d) w) ->
               In ev (trace (handleSubscription (topicPrefix w ++ "/to/#")) w)).
    { intros ev Hev. rewrite trace_handleSubscription, String.eqb_refl.
      right. apply in_or_app. right. right.
      apply in_flat_map. exists (mac, tail). split; [exact Hcache |].
      exact (trace_handleBleDeviceData_device ds mac tail d w ev Hds Hget Hmac Hev). }
    split.
    + intros pre c v i Hty -> Hc Hv Hidx Hi. apply Hreplay.
      unfold decodeFor, trace. rewrite Hty.
      rewrite (handleSwitchBLEData_hex d pre c v w Hty Hc Hv), Hidx.
      destruct (Z.leb_spec 1 i); [| lia]. destruct (Z.leb_spec i 3); [| lia].
      right. now left.
    + intros v Hty Hlen Hparse.
      assert (Htr : trace (decodeFor tail d) w =
                    [Log DEBUG;
                     statusUpdate (topicPrefix w) d "Brightness"
                       (JNum (scaleTo100 (Int v)));
                     statusUpdate (topicPrefix w) d "On"
                       (JBool (Js.gt0 (scaleTo100 (Int v))))]).
      { unfold decodeFor, trace. rewrite Hty, handleDimmingBLEData_trace, Hparse.
        destruct (Z.ltb_spec (Js.len tail) 6); [lia | reflexivity]. }
      split; apply Hreplay; rewrite Htr; [right; now left | right; right; now left].
Qed.

(** C2, witness: a client subscribes after a frame of the kitchen module
    was cached; it gets the discovery messages of all devices, then the
    status of the cached frame. *)
Lemma subscription_discovery_and_replay_witness :
  bleDeviceCache home_after_frame = [("aa:bb:cc:dd:ee:ff", "0201064002")]
  /\ run (handleSubscription "homebridge/to/#") home_after_frame =
     (Ok tt, home_after_frame,
      [Log INFO; discovery "homebridge" kitchen; discovery "homebridge" dimmer;
       Log INFO;
       Log DEBUG; statusUpdate "homebridge" kitchen "On" (JBool true)])
  /\ In (statusUpdate "homebridge" kitchen "On" (JBool true))
        (trace (handleSubscription "homebridge/to/#") home_after_frame).
Proof.
  pose proof (subscription_discovery_and_replay "homebridge/to/#" home_after_frame)
    as (Hrun & _ & _ & Hstatus).
  split; [reflexivity | split].
  - rewrite (Hrun eq_refl). vm_compute. reflexivity.
  - destruct (Hstatus registry "aa:bb:cc:dd:ee:ff" "0201064002" kitchen
                eq_refl eq_refl (or_introl eq_refl) eq_refl eq_refl)
      as [Hswitch _].
    exact (Hswitch "020106400" "2"%char 2 1 eq_refl eq_refl eq_refl
             ltac:(lia) eq_refl ltac:(lia)).
Defined.

(** The scenario of the specification: a client that subscribes after a
    frame for the kitchen module was cached gets the discovery messages
    of all devices, then the status of the cached frame. *)
Lemma late_subscriber_scenario :
  let w1 := final (extractAndCacheBleDeviceMessage "aa:bb:cc:dd:ee:ff0201064002") home in
  bleDeviceCache w1 = [("aa:bb:cc:dd:ee:ff", "0201064002")]
  /\ run (handleSubscription "homebridge/to/#") w1 =
     (Ok tt, w1,
      [Log INFO;
       discovery "homebridge" kitchen; discovery "homebridge" dimmer;
       Log INFO;
       Log DEBUG; statusUpdate "homebridge" kitchen "On" (JBool true)]).
Proof. split; vm_compute; reflexivity. Qed.

(** ** The BLE relay topic *)

Lemma substring_app_head (pre s : string) :
  String.substring 0 (String.length pre) (pre ++ s) = pre.
Proof.
  induction pre as [|c pre IH].
  - rewrite app_nil_l. now destruct s.
  - rewrite app_cons. simpl. now rewrite IH.
Qed.

Lemma app_assoc_string (a b c : string) : (a ++ b) ++ c = a ++ (b ++ c).
Proof.
  induction a as [|x a IH]; [reflexivity |].
  rewrite !app_cons. now rewrite IH.
Qed.

(** A 17-character MAC address followed by a tail splits into the two. *)
Lemma frame_split (mac tail : string) :
  String.length mac = 17%nat ->
  frame_mac (mac ++ tail) = mac /\ frame_data (mac ++ tail) = tail.
Proof.
  intros Hlen.
  unfold frame_mac, frame_data, Js.slice_from, Js.slice, Js.rel_index, Js.len.
  rewrite length_app, Hlen.
  set (N := Z.of_nat (17 + String.length tail)).
  assert (HN : N = 17 + Z.of_nat (String.length tail)) by (unfold N; lia).
  change (0 <? 0) with false. change (17 <? 0) with false. cbv iota.
  destruct (Z.ltb_spec N 0) as [Hneg | _]; [lia |].
  replace (Z.min 0 N) with 0 by lia.
  replace (Z.min 17 N) with 17 by lia.
  replace (Z.min N N) with N by lia.
  split.
  - change (Z.to_nat (Z.max (17 - 0) 0)) with 17%nat. change (Z.to_nat 0) with 0%nat.
    rewrite <- Hlen. apply substring_app_head.
  - replace (Z.to_nat (Z.max (N - 17) 0)) with (String.length tail) by lia.
    change (Z.to_nat 17) with 17%nat. rewrite <- Hlen.
    apply substring_app_tail.
Qed.

(** The hub command topic is never the relay topic: they end in
    different characters. *)
Lemma set_topic_is_not_ble (prefix : string) :
  String.eqb "yoswit/ble/devices" (prefix ++ "/from/set") = false.
Proof.
  apply String.eqb_neq. intros H.
  apply (f_equal (fun s => Js.slice_from s (-1))) in H.
  change (prefix ++ "/from/set")
    with (prefix ++ ("/from/se" ++ String "t" "")) in H.
  rewrite <- app_assoc_string, slice_last in H.
  vm_compute in H. discriminate.
Qed.

Section Broker.

Variable md5 : string -> string.
Variable JSON_parse : string -> option json.

Lemma handlePublish_ble (p : string) (w : world) :
  run (handlePublish md5 JSON_parse
         {| topic := "yoswit/ble/devices"; payload := p |}) w =
  (Ok tt, cached w p,
   Log DEBUG :: Log DEBUG
   :: trace (handleBleDeviceData (frame_mac p) (frame_data p)) (cached w p)).
Proof.
  unfold handlePublish. unfold run, mbind, M_bind, get_world, logger, emit.
  cbn [topic payload].
  rewrite set_topic_is_not_ble. simpl.
  pose proof (trace_extractAndCache p w) as E. unfold run in E. rewrite E.
  reflexivity.
Qed.

(** C9.  For every publish on the relay topic with payload [p], the
    handler returns normally in the state whose replay cache maps the
    first 17 characters of [p] to the rest of [p]; the decode pipeline
    runs in that state, after the update, whatever it then finds (no
    device for the MAC address, an undecodable tail); every other cache
    entry, the registry and the rest of the state are as before.  On a
    frame made of a 17-character MAC address and a tail, the key is the
    MAC address and the value the tail. *)
Theorem ble_ingress_updates_cache (p : string) (w : world) :
  let mac := Js.slice p 0 17 in
  let data := Js.slice_from p 17 in
  let w' := with_cache w (OMap.set mac data (bleDeviceCache w)) in
  run (handlePublish md5 JSON_parse
         {| topic := "yoswit/ble/devices"; payload := p |}) w =
  (Ok tt, w',
   Log DEBUG :: Log DEBUG :: trace (handleBleDeviceData mac data) w')
  /\ OMap.get mac (bleDeviceCache w') = Some data
  /\ (forall k, k <> mac ->
        OMap.get k (bleDeviceCache w') = OMap.get k (bleDeviceCache w))
  /\ service w' = service w
  /\ topicPrefix w' = topicPrefix w
  /\ (forall m tail,
        String.length m = 17%nat -> p = m ++ tail -> mac = m /\ data = tail).
Proof.
  cbv zeta. split; [| split; [| split; [| split; [| split]]]].
  - apply handlePublish_ble.
  - apply OMap_get_set_eq.
  - intros k Hk. simpl. apply OMap_get_set_ne. congruence.
  - reflexivity.
  - reflexivity.
  - intros m tail Hlen ->. now apply frame_split.
Qed.

(** C10.  A publish on [{prefix}/from/set] whose payload [JSON.parse]
    rejects makes [handlePublish] throw the [SyntaxError] of the parse:
    the exception leaves the handler, before any command is dispatched
    (the trace holds the debug log only) and with the state unchanged. *)
Theorem invalid_json_escapes (p : string) (w : world) :
  JSON_parse p = None ->
  run (handlePublish md5 JSON_parse
         {| topic := topicPrefix w ++ "/from/set"; payload := p |}) w =
  (Throw SyntaxError, w, [Log DEBUG]).
Proof.
  intros Hp. unfold handlePublish. unfold run, mbind, M_bind, get_world, logger, emit.
  cbn [topic payload].
  rewrite String.eqb_refl, Hp. reflexivity.
Qed.

End Broker.

(** C9, witness: a frame of the kitchen module. *)
Lemma ble_ingress_updates_cache_witness :
  OMap.get "aa:bb:cc:dd:ee:ff"
    (bleDeviceCache
       (final (handlePublish sample_digest parse_literals
                 {| topic := "yoswit/ble/devices";
                    payload := "aa:bb:cc:dd:ee:ff0201064002" |}) home))
  = Some "0201064002".
Proof.
  destruct (ble_ingress_updates_cache sample_digest parse_literals
              "aa:bb:cc:dd:ee:ff0201064002" home) as (Hrun & Hget & _).
  unfold final. rewrite Hrun. exact Hget.
Defined.

(** C10, witness: a payload that is not JSON. *)
Lemma invalid_json_escapes_witness :
  run (handlePublish sample_digest parse_literals
         {| topic := "homebridge/from/set"; payload := "not json" |}) home =
  (Throw SyntaxError, home, [Log DEBUG]).
Proof. exact (invalid_json_escapes sample_digest parse_literals "not json" home eq_refl). Defined.

(** ** Hub commands *)

Section Commands.

Variable md5 : string -> string.

(** C6, the code at the failing input.  On the registry built from
    [partial_snapshot] the id [M3-0] is present and its device is of type
    Dimming, yet [dimmingDevice] raises: [macAddress] is undefined and
    [macAddress.split] throws a [TypeError].  Nothing is published; the
    hub-command handler catches the exception, logs it and returns. *)
Theorem dimmingDevice_raises_on_stored_dimmer :
  let this := fromAfterLoginResp partial_snapshot in
  getByName this "M3-0" = Some lamp
  /\ type lamp = DIMMING
  /\ run (dimmingDevice md5 this "M3-0" (Int 50)) partial_home =
     (Throw TypeError, partial_home, [Log DEBUG])
  /\ run (handleHomebridgeSetMessage md5 dim_lamp) partial_home =
     (Ok tt, partial_home, [Log INFO; Log DEBUG; Log ERROR]).
Proof. repeat split; vm_compute; reflexivity. Qed.

(** The outcomes of [switchDevice], by cases on the registry. *)
Lemma switchDevice_cases (this : DeviceService) (id : string) (on : bool) (w : world) :
  run (switchDevice md5 this id on) w =
  match OMap.get id (devices this) with
  | None =>
      (Throw (Error ("Device with id " ++ id ++ " not found")), w, [Log DEBUG])
  | Some device =>
      match type device, macAddress device with
      | DIMMING, _ =>
          (Throw (Error ("Device with id " ++ id ++ " is not a switch")), w,
           [Log DEBUG])
      | SWITCH, None => (Throw TypeError, w, [Log DEBUG])
      | SWITCH, Some mac =>
          (Ok tt, w,
           Log DEBUG :: Log DEBUG ::
           if mqttService (service w)
           then [MqttPublish (commandTopic md5 (gatewayId device))
                   (writeCommand (guid device) mac
                      ("02" ++ reversedMac mac ++ "8000"
                       ++ switchData (index device) on ++ "00"))]
           else [])
      end
  end.
Proof.
  destruct (OMap.get id (devices this)) as [device |] eqn:Hget.
  - destruct (type device) eqn:Hty.
    + destruct (macAddress device) as [mac |] eqn:Hmac.
      * now apply switchDevice_ok.
      * unfold switchDevice. run_M. now rewrite Hget, Hty, Hmac.
    + unfold switchDevice. run_M. now rewrite Hget, Hty.
  - unfold switchDevice. run_M. now rewrite Hget.
Qed.

(** The outcomes of [dimmingDevice], by cases on the registry. *)
Lemma dimmingDevice_cases (this : DeviceService) (id : string)
    (brightness : number) (w : world) :
  run (dimmingDevice md5 this id brightness) w =
  match OMap.get id (devices this) with
  | None =>
      (Throw (Error ("Device with id " ++ id ++ " not found")), w, [Log DEBUG])
  | Some device =>
      match type device, macAddress device with
      | SWITCH, _ =>
          (Throw (Error ("Device with id " ++ id ++ " is not a dimming device")),
           w, [Log DEBUG])
      | DIMMING, None => (Throw TypeError, w, [Log DEBUG])
      | DIMMING, Some mac =>
          (Ok tt, w,
           Log DEBUG :: Log DEBUG ::
           if mqttService (service w)
           then [MqttPublish (commandTopic md5 (gatewayId device))
                   (writeCommand (guid device) mac
                      ("02" ++ reversedMac mac ++ "8900" ++ dimmingData brightness))]
           else [])
      end
  end.
Proof.
  destruct (OMap.get id (devices this)) as [device |] eqn:Hget.
  - destruct (type device) eqn:Hty.
    + unfold dimmingDevice. run_M. now rewrite Hget, Hty.
    + destruct (macAddress device) as [mac |] eqn:Hmac.
      * now apply dimmingDevice_ok.
      * unfold dimmingDevice. run_M. now rewrite Hget, Hty, Hmac.
  - unfold dimmingDevice. run_M. now rewrite Hget.
Qed.

End Commands.

(** ** Outcomes of the hub-command handler *)

Lemma steady_bind {A B} (m : M A) (k : A -> M B) :
  steady m -> (forall a, steady (k a)) -> steady (mbind k m).
Proof.
  intros Hm Hk w. specialize (Hm w).
  unfold final, run, mbind, M_bind in *.
  destruct (m w) as [[[a | e] w1] t1]; simpl in Hm; subst w1; [| reflexivity].
  specialize (Hk a w). unfold final, run in Hk.
  now destruct (k a w) as [[o w2] t2].
Qed.

Lemma succeeds_bind {A B} (m : M A) (k : A -> M B) :
  succeeds m -> (forall a, succeeds (k a)) -> succeeds (mbind k m).
Proof.
  intros Hm Hk w. destruct (Hm w) as [a Ha].
  unfold result, run, mbind, M_bind in *.
  destruct (m w) as [[o w1] t1]; simpl in Ha; subst o.
  destruct (Hk a w1) as [b Hb]. unfold result, run in Hb.
  exists b. now destruct (k a w1) as [[o w2] t2].
Qed.

Lemma steady_try_catch {A} (m : M A) (h : exn -> M A) :
  steady m -> (forall e, steady (h e)) -> steady (try_catch m h).
Proof.
  intros Hm Hh w. specialize (Hm w).
  unfold final, run, try_catch in *.
  destruct (m w) as [[[a | e] w1] t1]; simpl in Hm; subst w1; [reflexivity |].
  specialize (Hh e w). unfold final, run in Hh.
  now destruct (h e w) as [[o w2] t2].
Qed.


Lemma steady_prop (payload : json) (k : string) : steady (prop payload k).
Proof. intros w. now destruct payload. Qed.

Lemma succeeds_prop (fields : list (string * json)) (k : string) :
  succeeds (prop (JObj fields) k).
Proof. intros w. now eexists. Qed.

Lemma steady_logger (lvl : LogLevel) : steady (logger lvl).
Proof. now intros w. Qed.

Lemma succeeds_logger (lvl : LogLevel) : succeeds (logger lvl).
Proof. intros w. now exists tt. Qed.

Lemma steady_get_world : steady get_world.
Proof. now intros w. Qed.

Lemma succeeds_get_world : succeeds get_world.
Proof. intros w. now exists w. Qed.

Section Handler.

Variable md5 : string -> string.

Lemma steady_switchDevice (this : DeviceService) (id : string) (on : bool) :
  steady (switchDevice md5 this id on).
Proof.
  intros w. unfold final. rewrite switchDevice_cases.
  destruct (OMap.get id (devices this)) as [d |]; [| reflexivity].
  destruct (type d), (macAddress d); reflexivity.
Qed.

Lemma steady_dimmingDevice (this : DeviceService) (id : string) (b : number) :
  steady (dimmingDevice md5 this id b).
Proof.
  intros w. unfold final. rewrite dimmingDevice_cases.
  destruct (OMap.get id (devices this)) as [d |]; [| reflexivity].
  destruct (type d), (macAddress d); reflexivity.
Qed.

Lemma steady_convert {A} (o : option A) : steady (convert o).
Proof. intros w. now destruct o. Qed.

Lemma steady_setOn (this : DeviceService) (device : Device) (key : string)
    (payload : json) :
  steady (setOn md5 this device key payload).
Proof.
  unfold setOn. apply steady_try_catch; [| intros e; apply steady_logger].
  destruct (type device).
  - apply steady_bind; [apply steady_prop | intros value].
    apply steady_bind; [apply steady_convert | intros _].
    apply steady_bind; [apply steady_logger | intros _].
    apply steady_switchDevice.
  - apply steady_bind; [apply steady_prop | intros value].
    apply steady_bind; [apply steady_logger | intros _].
    apply steady_dimmingDevice.
Qed.

Lemma steady_setBrightness (this : DeviceService) (device : Device)
    (key : string) (payload : json) :
  steady (setBrightness md5 this device key payload).
Proof.
  unfold setBrightness. destruct (negb _); [apply steady_logger |].
  apply steady_bind; [apply steady_prop | intros value].
  apply steady_bind; [apply steady_convert | intros _].
  apply steady_bind; [apply steady_logger | intros _].
  apply steady_try_catch; [| intros e; apply steady_logger].
  apply steady_bind; [apply steady_convert | intros brightness].
  apply steady_dimmingDevice.
Qed.

(** The handler never changes the replay cache or the registry. *)
Lemma steady_handleHomebridgeSetMessage (payload : json) :
  steady (handleHomebridgeSetMessage md5 payload).
Proof.
  unfold handleHomebridgeSetMessage.
  apply steady_bind; [apply steady_get_world | intros w].
  destruct (deviceService (service w)) as [this |].
  - apply steady_bind; [apply steady_prop | intros name].
    apply steady_bind; [apply steady_convert | intros key].
    destruct (getByName this key) as [device |]; [| apply steady_logger].
    apply steady_bind; [apply steady_prop | intros characteristic].
    destruct (is_str characteristic "On").
    + destruct (_ && _); [apply steady_logger | apply steady_setOn].
    + destruct (is_str characteristic "Brightness");
        [apply steady_setBrightness | apply steady_logger].
  - apply steady_bind; [apply steady_prop | intros name].
    apply steady_bind; [apply steady_convert | intros _].
    apply steady_logger.
Qed.



End Handler.

Section EncoderErrors.

Variable md5 : string -> string.

(** X2.  On a registry built from a snapshot, [switchDevice] raises
    exactly when the id is absent or its device is not a Switch;
    [dimmingDevice] raises whenever the id is absent or its device is not
    a Dimming device; and whenever either raises, on any registry, the
    state is unchanged and nothing has been published. *)
Theorem encoder_errors (data : AfterLoginResp) (id : string) (w : world) :
  let this := fromAfterLoginResp data in
  (forall on,
     raises (switchDevice md5 this id on) w <->
     (getByName this id = None
      \/ exists d, getByName this id = Some d /\ type d <> SWITCH))
  /\ (forall brightness,
        (getByName this id = None
         \/ exists d, getByName this id = Some d /\ type d <> DIMMING) ->
        raises (dimmingDevice md5 this id brightness) w)
  /\ (forall this' on e,
        result (switchDevice md5 this' id on) w = Throw e ->
        final (switchDevice md5 this' id on) w = w
        /\ publishes (trace (switchDevice md5 this' id on) w) = [])
  /\ (forall this' brightness e,
        result (dimmingDevice md5 this' id brightness) w = Throw e ->
        final (dimmingDevice md5 this' id brightness) w = w
        /\ publishes (trace (dimmingDevice md5 this' id brightness) w) = []).
Proof.
  cbv zeta. unfold raises, getByName, result, final, trace.
  pose proof (fromAfterLoginResp_ok data) as Hreg.
  split; [| split; [| split]].
  - intros on. split.
    + intros [e He]. rewrite switchDevice_cases in He.
      destruct (OMap.get id _) as [d |] eqn:Hget; [| now left].
      right. exists d. split; [reflexivity |].
      destruct (registry_lookup_ok _ _ _ Hreg Hget) as (_ & _ & _ & Hmac & _).
      destruct (type d) eqn:Hty; [| discriminate].
      destruct (truthy_Some _ (Hmac eq_refl)) as [mac Hm].
      rewrite Hm in He. discriminate.
    + intros [Hnone | (d & Hget & Hty)]; rewrite switchDevice_cases.
      * rewrite Hnone. now eexists.
      * rewrite Hget. destruct (type d); [contradiction | now eexists].
  - intros brightness [Hnone | (d & Hget & Hty)]; rewrite dimmingDevice_cases.
    + rewrite Hnone. now eexists.
    + rewrite Hget. destruct (type d); [now eexists | contradiction].
  - intros this' on e He. split; [apply steady_switchDevice |].
    revert He. rewrite switchDevice_cases.
    destruct (OMap.get id (devices this')) as [d |]; [| reflexivity].
    destruct (type d), (macAddress d); try reflexivity; discriminate.
  - intros this' brightness e He. split; [apply steady_dimmingDevice |].
    revert He. rewrite dimmingDevice_cases.
    destruct (OMap.get id (devices this')) as [d |]; [| reflexivity].
    destruct (type d), (macAddress d); try reflexivity; discriminate.
Qed.


End EncoderErrors.


(** ** Payloads outside the expected shape *)

(** A tail that does not end in a hexadecimal digit: the status parses
    to [NaN], whose padded text gives three characters none of which is
    [1]; channels 1 to 3 are reported off. *)
Lemma lightStates_not_hex (pre : string) (c : ascii) :
  Js.parseInt (String c "") 16 = NaN ->
  lightStates (pre ++ String c "") = ["a"; "N"; "0"].
Proof.
  intros Hc. unfold lightStates. rewrite slice_last, Hc.
  vm_compute. reflexivity.
Qed.

Section NullPayload.

Variable md5 : string -> string.
Variable JSON_parse : string -> option json.

(** X4.  [null] is valid JSON; when the device service is set, a publish
    on [{prefix}/from/set] whose payload parses to [null] makes
    [handlePublish] throw a [TypeError] (reading [payload.name]), outside
    every [try], with nothing published and the state unchanged. *)
Theorem null_payload_escapes (p : string) (w : world) (this : DeviceService) :
  JSON_parse p = Some JNull ->
  deviceService (service w) = Some this ->
  run (handlePublish md5 JSON_parse
         {| topic := topicPrefix w ++ "/from/set"; payload := p |}) w =
  (Throw TypeError, w, [Log DEBUG]).
Proof.
  intros Hp Hds. unfold handlePublish.
  unfold run, mbind, M_bind, get_world, logger, emit.
  cbn [topic payload].
  rewrite String.eqb_refl, Hp.
  unfold handleHomebridgeSetMessage, mbind, M_bind, get_world.
  rewrite Hds. reflexivity.
Qed.

End NullPayload.

(** X4, witness: the payload [null] on the sample bridge. *)
Lemma null_payload_escapes_witness :
  run (handlePublish sample_digest parse_literals
         {| topic := "homebridge/from/set"; payload := "null" |}) home =
  (Throw TypeError, home, [Log DEBUG]).
Proof.
  exact (null_payload_escapes sample_digest parse_literals "null" home registry
           eq_refl eq_refl).
Defined.

(** * Further properties of the code *)

(** ** Relay frames and the replay cache *)

Lemma substring_split (k : nat) (s : string) :
  (k <= String.length s)%nat ->
  String.substring 0 k s ++ String.substring k (String.length s - k) s = s.
Proof.
  revert k. induction s as [|c s IH]; intros [|k] Hk; simpl in *;
    try reflexivity; try lia.
  - rewrite app_nil_l. now rewrite substring_all.
  - rewrite app_cons. rewrite IH by lia. reflexivity.
Qed.

Lemma substring_head_length (k : nat) (s : string) :
  (k <= String.length s)%nat -> String.length (String.substring 0 k s) = k.
Proof.
  revert k. induction s as [|c s IH]; intros [|k] Hk; simpl in *;
    try reflexivity; try lia.
  rewrite IH by lia. reflexivity.
Qed.

Lemma frame_mac_substring (p : string) :
  frame_mac p
  = String.substring 0 (Nat.min 17 (String.length p)) p.
Proof.
  unfold frame_mac, Js.slice, Js.rel_index, Js.len.
  change (0 <? 0) with false. change (17 <? 0) with false. cbv iota.
  set (n := String.length p).
  replace (Z.to_nat (Z.min 0 (Z.of_nat n))) with 0%nat by lia.
  replace (Z.to_nat (Z.max (Z.min 17 (Z.of_nat n) - Z.min 0 (Z.of_nat n)) 0))
    with (Nat.min 17 n) by lia.
  reflexivity.
Qed.

Lemma frame_data_substring (p : string) :
  frame_data p
  = String.substring (Nat.min 17 (String.length p))
      (String.length p - Nat.min 17 (String.length p)) p.
Proof.
  unfold frame_data, Js.slice_from, Js.slice, Js.rel_index, Js.len.
  change (17 <? 0) with false. cbv iota.
  set (n := String.length p).
  destruct (Z.ltb_spec (Z.of_nat n) 0) as [Hneg | _]; [lia |].
  replace (Z.to_nat (Z.min 17 (Z.of_nat n))) with (Nat.min 17 n) by lia.
  replace (Z.to_nat (Z.max (Z.min (Z.of_nat n) (Z.of_nat n)
                            - Z.min 17 (Z.of_nat n)) 0))
    with (n - Nat.min 17 n)%nat by lia.
  reflexivity.
Qed.

(** X5.  The relay handler splits a payload without losing a character:
    key and value joined give the payload back; the key has 17
    characters, or is the whole payload when that is shorter, and then
    the cached value is the empty string. *)
Theorem frame_round_trip (p : string) :
  frame_mac p ++ frame_data p = p
  /\ Js.len (frame_mac p) = Z.min 17 (Js.len p)
  /\ (Js.len p <= 17 -> frame_mac p = p /\ frame_data p = "").
Proof.
  rewrite frame_mac_substring, frame_data_substring.
  assert (Hk : (Nat.min 17 (String.length p) <= String.length p)%nat) by lia.
  split; [now apply substring_split | split].
  - unfold Js.len. rewrite substring_head_length by exact Hk. lia.
  - unfold Js.len. intros Hlen.
    replace (Nat.min 17 (String.length p)) with (String.length p) by lia.
    rewrite substring_all. split; [reflexivity |].
    rewrite Nat.sub_diag.
    clear. induction p as [|c p IH]; [reflexivity | exact IH].
Qed.

Lemma OMap_set_set {V} (k : string) (v1 v2 : V) (m : list (string * V)) :
  OMap.set k v2 (OMap.set k v1 m) = OMap.set k v2 m.
Proof.
  induction m as [|[k' v'] m IH]; simpl.
  - now rewrite String.eqb_refl.
  - destruct (String.eqb_spec k k') as [-> | Hne]; simpl.
    + now rewrite String.eqb_refl.
    + destruct (String.eqb_spec k k'); [contradiction | now rewrite IH].
Qed.

Lemma OMap_keys_set {V} (k : string) (v : V) (m : list (string * V)) :
  OMap.keys (OMap.set k v m)
  = match OMap.get k m with
    | Some _ => OMap.keys m
    | None => (OMap.keys m ++ [k])%list
    end.
Proof.
  induction m as [|[k' v'] m IH]; simpl; [reflexivity |].
  destruct (String.eqb_spec k k') as [-> | Hne]; simpl; [reflexivity |].
  rewrite IH. now destruct (OMap.get k m).
Qed.

Lemma OMap_length_set {V} (k : string) (v : V) (m : list (string * V)) :
  length (OMap.set k v m)
  = match OMap.get k m with
    | Some _ => length m
    | None => S (length m)
    end.
Proof.
  induction m as [|[k' v'] m IH]; simpl; [reflexivity |].
  destruct (String.eqb_spec k k') as [-> | Hne]; simpl; [reflexivity |].
  rewrite IH. now destruct (OMap.get k m).
Qed.

Lemma OMap_NoDup_set {V} (k : string) (v : V) (m : list (string * V)) :
  NoDup (OMap.keys m) -> NoDup (OMap.keys (OMap.set k v m)).
Proof.
  intros Hnd. rewrite OMap_keys_set.
  destruct (OMap.get k m) eqn:Hget; [exact Hnd |].
  apply NoDup_app. split; [exact Hnd | split].
  - intros x Hx Hin. apply list_elem_of_In in Hin. simpl in Hin.
    destruct Hin as [<- | []].
    apply list_elem_of_In in Hx. now apply (OMap_get_None k m Hget).
  - apply NoDup_singleton.
Qed.

Lemma steady_throw {A} (e : exn) : steady (@throw A e).
Proof. now intros w. Qed.

Lemma steady_ret {A} (a : A) : steady (mret a).
Proof. now intros w. Qed.

Section Cache.

Variable md5 : string -> string.
Variable JSON_parse : string -> option json.

Lemma steady_handlePublish_other (packet : PublishPacket) :
  String.eqb (topic packet) "yoswit/ble/devices" = false ->
  steady (handlePublish md5 JSON_parse packet).
Proof.
  intros Hne. unfold handlePublish.
  apply steady_bind; [apply steady_logger | intros _].
  apply steady_bind; [apply steady_get_world | intros w].
  apply steady_bind.
  - destruct (String.eqb (topic packet) (topicPrefix w ++ "/from/set"));
      [| apply steady_ret].
    destruct (JSON_parse (payload packet));
      [apply steady_handleHomebridgeSetMessage | apply steady_throw].
  - intros _. rewrite Hne. apply steady_ret.
Qed.

(** The state after [handlePublish], for every packet and outcome. *)
Lemma final_handlePublish (packet : PublishPacket) (w : world) :
  final (handlePublish md5 JSON_parse packet) w
  = if String.eqb (topic packet) "yoswit/ble/devices"
    then cached w (payload packet) else w.
Proof.
  destruct (String.eqb (topic packet) "yoswit/ble/devices") eqn:Ht.
  - apply String.eqb_eq in Ht. destruct packet as [tp pl]. simpl in *. subst tp.
    unfold final. now rewrite handlePublish_ble.
  - now apply steady_handlePublish_other.
Qed.

(** X6.  Whatever is published to the bridge, and whether the handler
    returns or throws, the registry and the topic prefix stay as they
    were, and the replay cache changes only on the relay topic.  The
    cache keeps its keys distinct, never loses a key, and grows by at
    most one entry per publish.  A second frame for the same MAC address
    leaves the state as if it alone had been received. *)
Theorem replay_cache_discipline (packet : PublishPacket) (w : world) :
  let w' := final (handlePublish md5 JSON_parse packet) w in
  service w' = service w
  /\ topicPrefix w' = topicPrefix w
  /\ (topic packet <> "yoswit/ble/devices" -> bleDeviceCache w' = bleDeviceCache w)
  /\ (NoDup (OMap.keys (bleDeviceCache w)) -> NoDup (OMap.keys (bleDeviceCache w')))
  /\ (forall k, In k (OMap.keys (bleDeviceCache w)) ->
                In k (OMap.keys (bleDeviceCache w')))
  /\ (length (bleDeviceCache w) <= length (bleDeviceCache w')
      <= length (bleDeviceCache w) + 1)%nat
  /\ (forall p1 p2, frame_mac p1 = frame_mac p2 ->
        cached (cached w p1) p2 = cached w p2).
Proof.
  cbv zeta. rewrite final_handlePublish.
  destruct (String.eqb_spec (topic packet) "yoswit/ble/devices") as [Ht | Ht].
  - unfold cached. simpl.
    split; [reflexivity | split; [reflexivity | split; [contradiction |]]].
    split; [apply OMap_NoDup_set |].
    split; [| split].
    + intros k Hk. rewrite OMap_keys_set.
      destruct (OMap.get _ _); [exact Hk | apply in_or_app; now left].
    + rewrite OMap_length_set. destruct (OMap.get _ _); lia.
    + intros p1 p2 Hmac. rewrite Hmac. now rewrite OMap_set_set.
  - split; [reflexivity | split; [reflexivity | split; [reflexivity |]]].
    split; [tauto | split; [tauto | split; [lia |]]].
    intros p1 p2 Hmac. unfold cached. simpl. rewrite Hmac.
    now rewrite OMap_set_set.
Qed.

End Cache.

(** ** Who publishes where *)

Lemma quiet_steady (m : M unit) : quiet m -> steady m.
Proof. intros H w. apply H. Qed.

Lemma trace_bind_cases {A B} (m : M A) (k : A -> M B) (w : world) :
  steady m ->
  trace (mbind k m) w
  = match result m w with
    | Ok a => (trace m w ++ trace (k a) w)%list
    | Throw _ => trace m w
    end.
Proof.
  intros Hm. specialize (Hm w).
  unfold trace, result, final, run, mbind, M_bind in *.
  destruct (m w) as [[[a | e] w1] t1]; simpl in *; subst; [| reflexivity].
  now destruct (k a w) as [[o w2] t2].
Qed.

Lemma trace_try_catch {A} (m : M A) (h : exn -> M A) (w : world) :
  steady m ->
  trace (try_catch m h) w
  = match result m w with
    | Ok _ => trace m w
    | Throw e => (trace m w ++ trace (h e) w)%list
    end.
Proof.
  intros Hm. specialize (Hm w).
  unfold trace, result, final, run, try_catch in *.
  destruct (m w) as [[[a | e] w1] t1]; simpl in *; subst; [reflexivity |].
  now destruct (h e w) as [[o w2] t2].
Qed.

Lemma emits_bind {A B} (P : world -> event -> Prop) (m : M A) (k : A -> M B) :
  steady m -> emits P m -> (forall a, emits P (k a)) -> emits P (mbind k m).
Proof.
  intros Hs Hm Hk w. rewrite trace_bind_cases by exact Hs.
  destruct (result m w); [| apply Hm].
  apply Forall_app. split; [apply Hm | apply Hk].
Qed.

Lemma emits_try_catch {A} (P : world -> event -> Prop) (m : M A) (h : exn -> M A) :
  steady m -> emits P m -> (forall e, emits P (h e)) -> emits P (try_catch m h).
Proof.
  intros Hs Hm Hh w. rewrite trace_try_catch by exact Hs.
  destruct (result m w); [apply Hm |].
  apply Forall_app. split; [apply Hm | apply Hh].
Qed.

Lemma steady_for_each {A} (l : list A) (body : A -> M unit) :
  (forall x, steady (body x)) -> steady (for_each l body).
Proof.
  intros Hb. induction l as [|x l IH]; simpl; [apply steady_ret |].
  apply steady_bind; [apply Hb | intros _; exact IH].
Qed.

Lemma emits_for_each {A} (P : world -> event -> Prop) (l : list A)
    (body : A -> M unit) :
  (forall x, steady (body x)) -> (forall x, emits P (body x)) ->
  emits P (for_each l body).
Proof.
  intros Hs Hb. induction l as [|x l IH]; simpl.
  - intros w. constructor.
  - apply emits_bind; [apply Hs | apply Hb | intros _; exact IH].
Qed.

Lemma emits_logger (P : world -> event -> Prop) (lvl : LogLevel) :
  (forall w, P w (Log lvl)) -> emits P (logger lvl).
Proof. intros H w. constructor; [apply H | constructor]. Qed.

Lemma emits_silent {A} (P : world -> event -> Prop) (m : M A) :
  (forall w, trace m w = []) -> emits P m.
Proof. intros H w. rewrite H. constructor. Qed.

Lemma budget_bind {A B} (a b : nat) (m : M A) (k : A -> M B) :
  steady m -> budget a m -> (forall x, budget b (k x)) ->
  budget (a + b) (mbind k m).
Proof.
  intros Hs Hm Hk w. rewrite trace_bind_cases by exact Hs.
  specialize (Hm w). destruct (result m w) as [x | e]; [| lia].
  unfold publishes in *. rewrite filter_app, List.length_app.
  specialize (Hk x w). unfold publishes in Hk. lia.
Qed.

Lemma budget_try_catch {A} (a b : nat) (m : M A) (h : exn -> M A) :
  steady m -> budget a m -> (forall e, budget b (h e)) ->
  budget (a + b) (try_catch m h).
Proof.
  intros Hs Hm Hh w. rewrite trace_try_catch by exact Hs.
  specialize (Hm w). destruct (result m w) as [x | e]; [lia |].
  unfold publishes in *. rewrite filter_app, List.length_app.
  specialize (Hh e w). unfold publishes in Hh. lia.
Qed.

Lemma budget_silent {A} (m : M A) :
  (forall w, publishes (trace m w) = []) -> budget 0 m.
Proof. intros H w. now rewrite H. Qed.

Lemma hub_log (w : world) (lvl : LogLevel) : hub_event (topicPrefix w) (Log lvl).
Proof. exact I. Qed.

Lemma emits_handleBleDeviceData (mac data : string) :
  emits (fun w => hub_event (topicPrefix w)) (handleBleDeviceData mac data).
Proof.
  unfold handleBleDeviceData.
  apply emits_bind;
    [apply steady_get_world | apply emits_silent; reflexivity | intros w0].
  destruct (deviceService (service w0)) as [ds |];
    [| apply emits_logger; intros; exact I].
  destruct (getByMacAddress ds mac) as [|d l];
    [apply emits_logger; intros; exact I |].
  apply emits_for_each; intros dev.
  - apply quiet_steady, quiet_decodeFor.
  - intros w. unfold decodeFor. destruct (type dev).
    + unfold trace, handleSwitchBLEData, setCharacteristic. run_M.
      destruct (negb _); [repeat constructor |].
      destruct (Js.array_get _ _); repeat constructor.
    + unfold trace. rewrite handleDimmingBLEData_trace. simpl.
      destruct (Js.len data <? 6); [repeat constructor |].
      destruct (Js.parseInt _ _); repeat constructor; now left.
Qed.

Lemma emits_handleSubscription (subscription_topic : string) :
  emits (fun w => hub_event (topicPrefix w)) (handleSubscription subscription_topic).
Proof.
  intros w. rewrite trace_handleSubscription.
  constructor; [exact I |].
  destruct (String.eqb _ _); [| constructor].
  apply Forall_app. split.
  - apply List.Forall_forall. intros ev Hin. apply in_map_iff in Hin.
    destruct Hin as (d & <- & _). simpl. now right.
  - constructor; [exact I |].
    apply List.Forall_forall. intros ev Hin. apply in_flat_map in Hin.
    destruct Hin as (e & _ & Hev).
    pose proof (emits_handleBleDeviceData (fst e) (snd e) w) as Hall.
    rewrite List.Forall_forall in Hall. now apply Hall.
Qed.

Lemma trace_prop (payload : json) (k : string) (w : world) :
  trace (prop payload k) w = [].
Proof. now destruct payload. Qed.

Lemma budget_weaken {A} (n n' : nat) (m : M A) :
  (n <= n')%nat -> budget n m -> budget n' m.
Proof. intros Hn Hm w. specialize (Hm w). lia. Qed.

Lemma budget_logger (lvl : LogLevel) : budget 0 (logger lvl).
Proof. now apply budget_silent. Qed.

Lemma budget_prop (payload : json) (k : string) : budget 0 (prop payload k).
Proof. apply budget_silent. intros w. now rewrite trace_prop. Qed.

Lemma trace_convert {A} (o : option A) (w : world) : trace (convert o) w = [].
Proof. now destruct o. Qed.

Lemma budget_convert {A} (o : option A) : budget 0 (convert o).
Proof. apply budget_silent. intros w. now rewrite trace_convert. Qed.

Section CommandEvents.

Variable md5 : string -> string.
Variable JSON_parse : string -> option json.

Lemma emits_switchDevice (this : DeviceService) (id : string) (on : bool) :
  emits (fun _ => cloud_event md5) (switchDevice md5 this id on)
  /\ budget 1 (switchDevice md5 this id on).
Proof.
  split; intros w; unfold trace; rewrite switchDevice_cases;
    destruct (OMap.get id (devices this)) as [d |];
    try destruct (type d); try destruct (macAddress d);
    try destruct (mqttService (service w)); simpl;
    repeat constructor; now eexists.
Qed.

Lemma emits_dimmingDevice (this : DeviceService) (id : string) (b : number) :
  emits (fun _ => cloud_event md5) (dimmingDevice md5 this id b)
  /\ budget 1 (dimmingDevice md5 this id b).
Proof.
  split; intros w; unfold trace; rewrite dimmingDevice_cases;
    destruct (OMap.get id (devices this)) as [d |];
    try destruct (type d); try destruct (macAddress d);
    try destruct (mqttService (service w)); simpl;
    repeat constructor; now eexists.
Qed.

Ltac cloud_step :=
  first
    [ apply emits_logger; intros; exact I
    | apply emits_silent; intros; apply trace_prop
    | apply emits_silent; intros; apply trace_convert
    | apply emits_silent; reflexivity
    | apply emits_switchDevice
    | apply emits_dimmingDevice ].

Ltac steady_step :=
  first
    [ apply steady_logger | apply steady_prop | apply steady_get_world
    | apply steady_convert
    | apply steady_switchDevice | apply steady_dimmingDevice
    | apply steady_bind; [steady_step | intros ?; cbv zeta; steady_step] ].

Ltac budget_step :=
  first
    [ apply budget_logger | apply budget_prop | apply budget_convert
    | apply budget_silent; reflexivity ].

Ltac cloud_bind :=
  apply emits_bind; [steady_step | cloud_step | intros ?; cbv zeta].

Ltac budget_bind0 :=
  apply (budget_bind 0 1); [steady_step | budget_step | intros ?; cbv zeta].

Lemma emits_handleHomebridgeSetMessage (payload : json) :
  emits (fun _ => cloud_event md5) (handleHomebridgeSetMessage md5 payload).
Proof.
  unfold handleHomebridgeSetMessage.
  apply emits_bind; [steady_step | cloud_step | intros w].
  destruct (deviceService (service w)) as [this |];
    [| do 2 cloud_bind; cloud_step].
  apply emits_bind; [steady_step | cloud_step | intros name].
  apply emits_bind; [steady_step | cloud_step | intros key].
  destruct (getByName this key) as [device |]; [| cloud_step].
  apply emits_bind; [steady_step | cloud_step | intros characteristic].
  destruct (is_str characteristic "On").
  - destruct (_ && _); [cloud_step |].
    unfold setOn. apply emits_try_catch; [| | intros e; cloud_step];
      destruct (type device); try steady_step.
    + do 3 cloud_bind. cloud_step.
    + do 2 cloud_bind. cloud_step.
  - destruct (is_str characteristic "Brightness"); [| cloud_step].
    unfold setBrightness. destruct (negb _); [cloud_step |].
    do 3 cloud_bind.
    apply emits_try_catch; [steady_step | | intros e; cloud_step].
    cloud_bind. cloud_step.
Qed.

Lemma budget_handleHomebridgeSetMessage (payload : json) :
  budget 1 (handleHomebridgeSetMessage md5 payload).
Proof.
  unfold handleHomebridgeSetMessage.
  apply (budget_bind 0 1); [steady_step | budget_step | intros w].
  destruct (deviceService (service w)) as [this |];
    [| do 2 budget_bind0; apply (budget_weaken 0); [lia | budget_step]].
  apply (budget_bind 0 1); [steady_step | budget_step | intros name].
  apply (budget_bind 0 1); [steady_step | budget_step | intros key].
  destruct (getByName this key) as [device |];
    [| apply (budget_weaken 0); [lia | budget_step]].
  apply (budget_bind 0 1); [steady_step | budget_step | intros characteristic].
  destruct (is_str characteristic "On").
  - destruct (_ && _); [apply (budget_weaken 0); [lia | budget_step] |].
    unfold setOn.
    apply (budget_try_catch 1 0); [| | intros e; budget_step];
      destruct (type device); try steady_step.
    + do 3 budget_bind0. apply emits_switchDevice.
    + do 2 budget_bind0. apply emits_dimmingDevice.
  - destruct (is_str characteristic "Brightness");
      [| apply (budget_weaken 0); [lia | budget_step]].
    unfold setBrightness.
    destruct (negb _); [apply (budget_weaken 0); [lia | budget_step] |].
    do 3 budget_bind0.
    apply (budget_try_catch 1 0); [steady_step | | intros e; budget_step].
    budget_bind0. apply emits_dimmingDevice.
Qed.

(** The trace of [handlePublish] off the relay topic. *)
Lemma emits_handlePublish_other (packet : PublishPacket) :
  String.eqb (topic packet) "yoswit/ble/devices" = false ->
  emits (fun _ => cloud_event md5) (handlePublish md5 JSON_parse packet)
  /\ budget 1 (handlePublish md5 JSON_parse packet).
Proof.
  intros Hne. unfold handlePublish. rewrite Hne. split.
  - apply emits_bind; [steady_step | cloud_step | intros _].
    apply emits_bind; [steady_step | cloud_step | intros w].
    apply emits_bind; [| | intros _; cloud_step];
      destruct (String.eqb (topic packet) (topicPrefix w ++ "/from/set"));
      try destruct (JSON_parse (payload packet));
      first [ apply steady_handleHomebridgeSetMessage | apply steady_throw
            | apply steady_ret | apply emits_handleHomebridgeSetMessage
            | cloud_step ].
  - apply (budget_bind 0 1); [steady_step | budget_step | intros _].
    apply (budget_bind 0 1); [steady_step | budget_step | intros w].
    apply (budget_bind 1 0); [| | intros _; budget_step];
      destruct (String.eqb (topic packet) (topicPrefix w ++ "/from/set"));
      try destruct (JSON_parse (payload packet));
      first [ apply steady_handleHomebridgeSetMessage | apply steady_throw
            | apply steady_ret | apply budget_handleHomebridgeSetMessage
            | apply (budget_weaken 0); [lia | budget_step] ].
Qed.

(** X7.  Traffic is separated for every packet and every outcome.  What
    a relay frame or a subscription triggers is, besides log entries,
    only publishes on the embedded broker, to [{prefix}/to/set] or
    [{prefix}/to/add], never a cloud command.  What any other publish
    triggers is, besides log entries, only cloud commands to a [cmd/]
    topic, at most one per publish, never a message on the embedded
    broker. *)
Theorem traffic_separation (w : world) :
  (forall p,
     Forall (hub_event (topicPrefix w))
       (trace (handlePublish md5 JSON_parse
                 {| topic := "yoswit/ble/devices"; payload := p |}) w))
  /\ (forall subscription_topic,
        Forall (hub_event (topicPrefix w))
          (trace (handleSubscription subscription_topic) w))
  /\ (forall packet,
        topic packet <> "yoswit/ble/devices" ->
        Forall (cloud_event md5) (trace (handlePublish md5 JSON_parse packet) w)
        /\ (length (publishes (trace (handlePublish md5 JSON_parse packet) w))
            <= 1)%nat).
Proof.
  split; [| split].
  - intros p. unfold trace at 1. rewrite handlePublish_ble. simpl.
    constructor; [exact I |]. constructor; [exact I |].
    exact (emits_handleBleDeviceData (frame_mac p) (frame_data p) (cached w p)).
  - intros subscription_topic. apply emits_handleSubscription.
  - intros packet Hne. apply String.eqb_neq in Hne.
    destruct (emits_handlePublish_other packet Hne) as [He Hb].
    split; [apply He | apply Hb].
Qed.

End CommandEvents.

(** ** The bridge does not react to its own messages *)

Lemma app_inv_head_string (a b c : string) : a ++ b = a ++ c -> b = c.
Proof.
  induction a as [|x a IH]; [now rewrite !app_nil_l |].
  rewrite !app_cons. intros [= H]. now apply IH.
Qed.

Lemma hub_topic_is_not_ble (prefix : string) (t : string) :
  t = prefix ++ "/to/set" \/ t = prefix ++ "/to/add" ->
  String.eqb t "yoswit/ble/devices" = false.
Proof.
  intros Ht. apply String.eqb_neq. intros H.
  apply (f_equal (fun s => Js.slice_from s (-1))) in H.
  destruct Ht as [-> | ->].
  - change (prefix ++ "/to/set") with (prefix ++ ("/to/se" ++ String "t" "")) in H.
    rewrite <- app_assoc_string, slice_last in H. vm_compute in H. discriminate.
  - change (prefix ++ "/to/add") with (prefix ++ ("/to/ad" ++ String "d" "")) in H.
    rewrite <- app_assoc_string, slice_last in H. vm_compute in H. discriminate.
Qed.

Lemma hub_topic_is_not_set (prefix : string) (t : string) :
  t = prefix ++ "/to/set" \/ t = prefix ++ "/to/add" ->
  String.eqb t (prefix ++ "/from/set") = false.
Proof.
  intros Ht. apply String.eqb_neq. intros H.
  destruct Ht as [-> | ->]; apply app_inv_head_string in H; discriminate.
Qed.

Section Feedback.

Variable md5 : string -> string.
Variable JSON_parse : string -> option json.

(** A publish on one of the two hub-facing topics is only logged. *)
Lemma handlePublish_hub_topic (t q : string) (w : world) :
  t = topicPrefix w ++ "/to/set" \/ t = topicPrefix w ++ "/to/add" ->
  run (handlePublish md5 JSON_parse {| topic := t; payload := q |}) w
  = (Ok tt, w, [Log DEBUG]).
Proof.
  intros Ht. unfold handlePublish.
  unfold run, mbind, M_bind, get_world, logger, emit. cbn [topic payload].
  rewrite (hub_topic_is_not_set _ _ Ht), (hub_topic_is_not_ble _ _ Ht).
  reflexivity.
Qed.

Lemma emits_onSubscribe (subscriptions : list string) (client : option string) :
  emits (fun w => hub_event (topicPrefix w)) (onSubscribe subscriptions client).
Proof.
  unfold onSubscribe. destruct client as [c |];
    [| apply emits_silent; reflexivity].
  apply emits_for_each; intros sub.
  - apply quiet_steady, quiet_handleSubscription.
  - apply emits_handleSubscription.
Qed.

(** The hub-side publishes of [onPublish] go to the two hub topics. *)
Lemma onPublish_hub_topics (packet : PublishPacket) (client : option string)
    (w : world) (t : string) (pl : json) :
  In (AedesPublish t pl) (trace (onPublish md5 JSON_parse packet client) w) ->
  t = topicPrefix w ++ "/to/set" \/ t = topicPrefix w ++ "/to/add".
Proof.
  unfold onPublish. destruct client as [c |]; [| intros []].
  destruct (String.eqb (topic packet) "yoswit/ble/devices") eqn:Hb.
  - apply String.eqb_eq in Hb. destruct packet as [tp p]. simpl in Hb. subst tp.
    unfold trace at 1. rewrite handlePublish_ble. simpl.
    intros [[=] | [[=] | Hin]].
    pose proof (emits_handleBleDeviceData (frame_mac p) (frame_data p)
                  (cached w p)) as Hall.
    rewrite List.Forall_forall in Hall. exact (Hall _ Hin).
  - intros Hin.
    destruct (emits_handlePublish_other md5 JSON_parse packet Hb) as [Hall _].
    specialize (Hall w). rewrite List.Forall_forall in Hall.
    destruct (Hall _ Hin).
Qed.

(** X8.  The bridge never reacts to its own messages.  A packet the
    broker publishes itself (no client) is ignored.  And every message
    the bridge publishes on its broker, in answer to a publish or to a
    subscription, is on a topic on which an incoming publish, from any
    client and with any payload, is only logged: nothing is published,
    nothing is cached, the handler returns. *)
Theorem no_feedback_loop (w : world) :
  (forall packet, run (onPublish md5 JSON_parse packet None) w = (Ok tt, w, []))
  /\ (forall packet subscriptions client t pl,
        In (AedesPublish t pl) (trace (onPublish md5 JSON_parse packet client) w)
        \/ In (AedesPublish t pl) (trace (onSubscribe subscriptions client) w) ->
        forall q client' w',
          topicPrefix w' = topicPrefix w ->
          result (onPublish md5 JSON_parse {| topic := t; payload := q |} client') w'
          = Ok tt
          /\ final (onPublish md5 JSON_parse {| topic := t; payload := q |} client') w'
             = w'
          /\ publishes
               (trace (onPublish md5 JSON_parse {| topic := t; payload := q |} client') w')
             = []).
Proof.
  split; [reflexivity |].
  intros packet subscriptions client t pl Hin q client' w' Hp.
  assert (Ht : t = topicPrefix w' ++ "/to/set" \/ t = topicPrefix w' ++ "/to/add").
  { rewrite Hp. destruct Hin as [Hin | Hin].
    - exact (onPublish_hub_topics packet client w t pl Hin).
    - pose proof (emits_onSubscribe subscriptions client w) as Hall.
      rewrite List.Forall_forall in Hall. exact (Hall _ Hin). }
  unfold onPublish, result, final, trace. destruct client'; [| now repeat split].
  rewrite (handlePublish_hub_topic t q w' Ht). now repeat split.
Qed.

End Feedback.

(** X8, witness: the status message published for a kitchen frame, sent
    back to the bridge by a client. *)
Lemma no_feedback_loop_witness :
  result (onPublish sample_digest parse_literals
            {| topic := "homebridge/to/set"; payload := "echo" |} (Some "hub")) home
  = Ok tt
  /\ final (onPublish sample_digest parse_literals
              {| topic := "homebridge/to/set"; payload := "echo" |} (Some "hub")) home
     = home
  /\ publishes
       (trace (onPublish sample_digest parse_literals
                 {| topic := "homebridge/to/set"; payload := "echo" |} (Some "hub")) home)
     = [].
Proof.
  apply (proj2 (no_feedback_loop sample_digest parse_literals home)
           {| topic := "yoswit/ble/devices";
              payload := "aa:bb:cc:dd:ee:ff0201064002" |}
           [] (Some "relay") "homebridge/to/set"
           (JObj [("name", JStr "M1-1"); ("service_name", JStr "Kitchen");
                  ("characteristic", JStr "On"); ("value", JBool true)])).
  - left. vm_compute. right. right. right. now left.
  - reflexivity.
Defined.

(** ** The registry, record by record *)

Lemma OMap_In_get {V} (k : string) (v : V) (m : list (string * V)) :
  NoDup (OMap.keys m) -> In (k, v) m -> OMap.get k m = Some v.
Proof.
  induction m as [|[k' v'] m IH]; simpl; [tauto |].
  intros Hnd [[= -> ->] | Hin].
  - now rewrite String.eqb_refl.
  - apply NoDup_cons in Hnd as [Hk Hnd].
    destruct (String.eqb_spec k k') as [-> | Hne]; [| now apply IH].
    exfalso. apply Hk. apply list_elem_of_In.
    apply (in_map fst) in Hin. exact Hin.
Qed.

Lemma OMap_get_app_l {V} (k : string) (v : V) (m r : list (string * V)) :
  OMap.get k m = Some v -> OMap.get k (m ++ r)%list = Some v.
Proof.
  induction m as [|[k' v'] m IH]; simpl; [discriminate |].
  destruct (String.eqb k k'); [trivial | exact IH].
Qed.

Lemma OMap_get_app_r {V} (k : string) (m r : list (string * V)) :
  OMap.get k m = None -> OMap.get k (m ++ r)%list = OMap.get k r.
Proof.
  induction m as [|[k' v'] m IH]; simpl; [reflexivity |].
  destruct (String.eqb k k'); [discriminate | exact IH].
Qed.

Lemma startsWith_truthy (group p : string) :
  p <> "" -> Js.startsWith group p = true -> Js.truthy (Some group) = true.
Proof. intros Hp. destruct group, p; simpl; congruence. Qed.

(** One step of the third loop: the registry is unchanged, or one device
    is appended under a fresh id. *)
Lemma addSubdevice_cases (m : gmap string DeviceInfo)
    (devs : list (string * Device)) (sub : ProfileSubdevice) :
  addSubdevice m devs sub = devs
  \/ exists d, Stored m sub d
               /\ OMap.get (id d) devs = None
               /\ addSubdevice m devs sub = (devs ++ [(id d, d)])%list.
Proof.
  unfold addSubdevice.
  destruct (device_button_group sub) as [group |] eqn:Hg; [| now left].
  destruct (Js.truthy (Some group)) eqn:Htg; [| now left]. simpl negb. cbv iota.
  destruct (Js.startsWith group "ONOFF GANG") eqn:Hsw.
  - unfold addSwitch. fold (internal_relay sub).
    destruct (internal_relay sub) eqn:Hrel; [now left |].
    destruct (OMap.get _ devs) eqn:Hget; [now left |].
    destruct (ps_device sub) as [guid |] eqn:Hdev; [| now left].
    destruct (Js.truthy (Some guid)) eqn:Htd; [| now left]. simpl negb. cbv iota.
    destruct (m !! guid) as [info |] eqn:Hinfo; [| now left].
    destruct (Js.truthy (info_macAddress info)) eqn:Hmac; [| now left].
    destruct (Js.truthy (gateway info)) eqn:Hgw; [| now left].
    simpl. right. eexists. split; [| split].
    + exact (Stored_switch m sub group guid info Hg Hsw Hrel Hdev Htd Hinfo Hmac Hgw).
    + exact Hget.
    + now apply OMap_set_absent.
  - destruct (Js.startsWith group "DIMMING") eqn:Hdim; [| now left].
    unfold addDimming.
    destruct (OMap.get _ devs) eqn:Hget; [now left |].
    destruct (ps_device sub) as [guid |] eqn:Hdev; [| now left].
    destruct (Js.truthy (Some guid)) eqn:Htd; [| now left]. simpl negb. cbv iota.
    destruct (m !! guid) as [info |] eqn:Hinfo; [| now left].
    right. eexists. split; [| split].
    + exact (Stored_dimming m sub group guid info Hg Hsw Hdim Hdev Htd Hinfo).
    + exact Hget.
    + now apply OMap_set_absent.
Qed.

(** A record that qualifies leaves its id in the registry: its own
    device when the id was free, the earlier one otherwise. *)
Lemma addSubdevice_stores (m : gmap string DeviceInfo)
    (devs : list (string * Device)) (sub : ProfileSubdevice) (d : Device) :
  Stored m sub d ->
  OMap.get (id d) (addSubdevice m devs sub)
  = match OMap.get (id d) devs with
    | Some e => Some e
    | None => Some d
    end.
Proof.
  intros Hst. unfold addSubdevice.
  destruct Hst as [group guid info Hg Hsw Hrel Hdev Htd Hinfo Hmac Hgw
                  | group guid info Hg Hsw Hdim Hdev Htd Hinfo];
    rewrite Hg.
  - rewrite (startsWith_truthy group "ONOFF GANG") by (congruence || exact Hsw).
    simpl negb. cbv iota. rewrite Hsw.
    unfold addSwitch. fold (internal_relay sub). rewrite Hrel, Hdev. simpl template.
    simpl id.
    destruct (OMap.get _ devs) eqn:Hget; [exact Hget |].
    rewrite Htd. simpl negb. cbv iota. rewrite Hinfo, Hmac, Hgw. simpl.
    apply OMap_get_set_eq.
  - rewrite (startsWith_truthy group "DIMMING") by (congruence || exact Hdim).
    simpl negb. cbv iota. rewrite Hsw, Hdim.
    unfold addDimming. rewrite Hdev. simpl template. simpl id.
    destruct (OMap.get _ devs) eqn:Hget; [exact Hget |].
    rewrite Htd. simpl negb. cbv iota. rewrite Hinfo.
    apply OMap_get_set_eq.
Qed.

(** The loop only appends, at most one device per record. *)
Lemma addSubdevices_append (m : gmap string DeviceInfo)
    (subs : list ProfileSubdevice) (devs : list (string * Device)) :
  exists rest,
    fold_left (addSubdevice m) subs devs = (devs ++ rest)%list
    /\ (length rest <= length subs)%nat
    /\ (forall k d, In (k, d) rest ->
          k = id d /\ exists sub, In sub subs /\ Stored m sub d).
Proof.
  revert devs. induction subs as [|sub subs IH]; intros devs; simpl.
  - exists []. rewrite app_nil_r.
    split; [reflexivity | split; [simpl; lia | intros k d []]].
  - destruct (addSubdevice_cases m devs sub) as [-> | (d & Hst & _ & ->)].
    + destruct (IH devs) as (rest & Heq & Hlen & Hall).
      exists rest. split; [exact Heq | split; [lia |]].
      intros k e Hin. destruct (Hall k e Hin) as (Hk & s & Hs & Hst).
      split; [exact Hk | exists s; split; [now right | exact Hst]].
    + destruct (IH (devs ++ [(id d, d)])%list) as (rest & Heq & Hlen & Hall).
      exists ((id d, d) :: rest). rewrite Heq, <- app_assoc. simpl.
      split; [reflexivity | split; [lia |]].
      intros k e [[= <- <-] | Hin].
      * split; [reflexivity | exists sub; split; [now left | exact Hst]].
      * destruct (Hall k e Hin) as (Hk & s & Hs & Hst').
        split; [exact Hk | exists s; split; [now right | exact Hst']].
Qed.

Lemma addSubdevices_keep (m : gmap string DeviceInfo)
    (subs : list ProfileSubdevice) (devs : list (string * Device))
    (k : string) (d : Device) :
  OMap.get k devs = Some d ->
  OMap.get k (fold_left (addSubdevice m) subs devs) = Some d.
Proof.
  intros Hget. destruct (addSubdevices_append m subs devs) as (rest & -> & _).
  now apply OMap_get_app_l.
Qed.

Lemma fold_left_inv_In {A B} (P : A -> Prop) (f : A -> B -> A) (l : list B) (a : A) :
  (forall a b, In b l -> P a -> P (f a b)) -> P a -> P (fold_left f l a).
Proof.
  revert a. induction l as [|b l IH]; simpl; intros a Hf Ha; [exact Ha |].
  apply IH; [intros a' b' Hb; apply Hf; now right |].
  apply Hf; [now left | exact Ha].
Qed.

(** Where the entries of [deviceInfo] come from. *)
Lemma buildDeviceInfo_from (data : AfterLoginResp) (module : string)
    (info : DeviceInfo) :
  buildDeviceInfo data !! module = Some info -> info_from data module info.
Proof.
  unfold buildDeviceInfo. revert module info.
  apply (fold_left_inv_In
           (fun m => forall module info, m !! module = Some info ->
                                         info_from data module info)).
  - intros m dd Hdd Hm module info. unfold addMacAddress.
    destruct (_ || _); [apply Hm |].
    destruct (dd_name dd) as [n |] eqn:Hn; [| apply Hm].
    destruct (dd_mac_address dd) as [mac |] eqn:Hmac; [| apply Hm].
    destruct (m !! n) as [old |] eqn:Hold; [| apply Hm].
    destruct (negb _) eqn:Hgw; [apply Hm |].
    destruct (decide (n = module)) as [-> | Hne].
    + rewrite lookup_insert_eq. intros [= <-].
      destruct (Hm module old Hold) as [Hpd _].
      split; [exact Hpd |].
      right. exists dd, mac. now repeat split.
    + rewrite lookup_insert_ne by exact Hne. apply Hm.
  - apply (fold_left_inv_In
             (fun m => forall module info, m !! module = Some info ->
                                           info_from data module info)).
    + intros m pd Hpd Hm module info. unfold addGateway.
      destruct (Js.truthy (pd_device pd)) eqn:Hd; [| apply Hm].
      destruct (Js.truthy (pd_gateway pd)) eqn:Hg; [| apply Hm].
      simpl. destruct (pd_device pd) as [n |] eqn:Hn; [| apply Hm].
      destruct (decide (n = module)) as [-> | Hne].
      * rewrite lookup_insert_eq. intros [= <-].
        split; [exists pd; now repeat split | now left].
      * rewrite lookup_insert_ne by exact Hne. apply Hm.
    + intros module info. rewrite lookup_empty. discriminate.
Qed.

(** Every stored device was built from a record of the snapshot. *)
Lemma fromAfterLoginResp_stored (data : AfterLoginResp) (k : string) (d : Device) :
  getByName (fromAfterLoginResp data) k = Some d ->
  k = id d
  /\ exists sub, In sub (profile_subdevice data)
                 /\ Stored (buildDeviceInfo data) sub d.
Proof.
  unfold getByName, fromAfterLoginResp. simpl. intros Hget.
  destruct (addSubdevices_append (buildDeviceInfo data) (profile_subdevice data) [])
    as (rest & Heq & _ & Hall).
  rewrite Heq in Hget. simpl in Hget. apply OMap_get_In in Hget.
  exact (Hall k d Hget).
Qed.

(** X9.  On a snapshot whose module names are ordinary and whose switch
    labels are plain, every stored device is built from records of the
    snapshot: a
    subdevice record gives its module, title and cleaned room name, and
    its label decides the type (a Switch from a label starting with
    ONOFF GANG whose rest is the index and whose title names no internal
    relay, a Dimming from a label starting with DIMMING); its gateway is
    the one a [profile_device] record pairs with its module; its MAC
    address, when it has one, is the lower-cased address of a [device]
    record named as the module. *)
Theorem registry_provenance (data : AfterLoginResp) (k : string) (d : Device) :
  readable data = true ->
  getByName (fromAfterLoginResp data) k = Some d ->
  (exists sub group,
      In sub (profile_subdevice data)
      /\ ps_device sub = Some (guid d)
      /\ name d = title sub
      /\ roomName d = cleanRoomName (room_name sub)
      /\ device_button_group sub = Some group
      /\ match type d with
         | SWITCH => Js.startsWith group "ONOFF GANG" = true
                     /\ index d = Js.Number (Js.remove_first group "ONOFF GANG")
                     /\ internal_relay sub = false
         | DIMMING => Js.startsWith group "ONOFF GANG" = false
                      /\ Js.startsWith group "DIMMING" = true
         end)
  /\ (exists pd,
         In pd (profile_device data)
         /\ pd_device pd = Some (guid d)
         /\ pd_gateway pd = gatewayId d)
  /\ (macAddress d = None
      \/ exists dd mac,
           In dd (device data)
           /\ dd_name dd = Some (guid d)
           /\ dd_mac_address dd = Some mac
           /\ macAddress d = Some (Js.toLowerCase mac)).
Proof.
  intros _ Hget.
  destruct (fromAfterLoginResp_stored data k d Hget) as (_ & sub & Hsub & Hst).
  destruct Hst as [group guid info Hg Hsw Hrel Hdev Htd Hinfo Hmac Hgw
                  | group guid info Hg Hsw Hdim Hdev Htd Hinfo];
    destruct (buildDeviceInfo_from data guid info Hinfo)
      as [(pd & Hpd & Hpdd & Hpdg & _) Hfrom]; simpl.
  - split; [| split].
    + exists sub, group. now repeat split.
    + exists pd. now repeat split.
    + exact Hfrom.
  - split; [| split].
    + exists sub, group. now repeat split.
    + exists pd. now repeat split.
    + exact Hfrom.
Qed.

Lemma registry_provenance_witness :
  getByName (fromAfterLoginResp kitchen_snapshot) "M1-1" = Some kitchen
  /\ (exists dd mac,
         In dd (device kitchen_snapshot)
         /\ dd_name dd = Some "M1"
         /\ dd_mac_address dd = Some mac
         /\ macAddress kitchen = Some (Js.toLowerCase mac)).
Proof.
  split; [vm_compute; reflexivity |].
  destruct (registry_provenance kitchen_snapshot "M1-1" kitchen eq_refl)
    as (_ & _ & [Hnone | Hmac]).
  - vm_compute. reflexivity.
  - discriminate Hnone.
  - exact Hmac.
Defined.

Lemma with_subdevices_info (data : AfterLoginResp) (subs : list ProfileSubdevice) :
  buildDeviceInfo (with_subdevices data subs) = buildDeviceInfo data.
Proof. reflexivity. Qed.

Lemma with_subdevices_self (data : AfterLoginResp) :
  with_subdevices data (profile_subdevice data) = data.
Proof. now destruct data. Qed.

Lemma fromAfterLoginResp_app (data : AfterLoginResp)
    (subs1 subs2 : list ProfileSubdevice) :
  devices (fromAfterLoginResp (with_subdevices data (subs1 ++ subs2)%list))
  = fold_left (addSubdevice (buildDeviceInfo data)) subs2
      (devices (fromAfterLoginResp (with_subdevices data subs1))).
Proof.
  unfold fromAfterLoginResp. simpl. rewrite !with_subdevices_info.
  apply fold_left_app.
Qed.

(** X10.  The registry grows in the order of the subdevice records:
    records added at the end of the list leave the devices of the earlier
    records as they are, in their places, and append at most one device
    each.  So there are never more devices than records. *)
Theorem registry_in_record_order (data : AfterLoginResp)
    (subs1 subs2 : list ProfileSubdevice) :
  (exists rest,
      devices (fromAfterLoginResp (with_subdevices data (subs1 ++ subs2)%list))
      = (devices (fromAfterLoginResp (with_subdevices data subs1)) ++ rest)%list
      /\ (length rest <= length subs2)%nat)
  /\ (length (devices (fromAfterLoginResp data))
      <= length (profile_subdevice data))%nat.
Proof.
  split.
  - rewrite fromAfterLoginResp_app.
    destruct (addSubdevices_append (buildDeviceInfo data) subs2
                (devices (fromAfterLoginResp (with_subdevices data subs1))))
      as (rest & Heq & Hlen & _).
    exists rest. now split.
  - unfold fromAfterLoginResp. simpl.
    destruct (addSubdevices_append (buildDeviceInfo data)
                (profile_subdevice data) [])
      as (rest & Heq & Hlen & _).
    rewrite Heq. simpl. exact Hlen.
Qed.

(** X11.  The first record of an id wins, on a snapshot whose module
    names are ordinary and whose switch labels are plain.  When a record
    qualifies for a device, the registry holds, under that device's id, the device of an
    earlier record if the records before it already gave that id, and
    this record's device otherwise; the records after it change
    nothing. *)
Theorem first_record_wins (data : AfterLoginResp)
    (subs1 subs2 : list ProfileSubdevice) (sub : ProfileSubdevice) (d : Device) :
  readable (with_subdevices data (subs1 ++ sub :: subs2)%list) = true ->
  Stored (buildDeviceInfo data) sub d ->
  getByName
    (fromAfterLoginResp (with_subdevices data (subs1 ++ sub :: subs2)%list))
    (id d)
  = Some match getByName (fromAfterLoginResp (with_subdevices data subs1)) (id d) with
         | Some earlier => earlier
         | None => d
         end.
Proof.
  intros _ Hst. unfold getByName.
  rewrite fromAfterLoginResp_app. simpl fold_left.
  apply addSubdevices_keep.
  rewrite (addSubdevice_stores _ _ sub d Hst).
  now destruct (OMap.get (id d) _).
Qed.

Lemma first_record_wins_witness :
  Stored (buildDeviceInfo kitchen_snapshot) second_record
    {| id := "M1-1"; guid := "M1"; name := Some "Pantry"; type := SWITCH;
       index := Int 1; macAddress := Some "aa:bb:cc:dd:ee:ff";
       roomName := None; gatewayId := Some "G1" |}
  /\ option_map name
       (getByName
          (fromAfterLoginResp
             (with_subdevices kitchen_snapshot [first_record; second_record]))
          "M1-1")
     = Some (Some "Kitchen").
Proof.
  assert (Hst : Stored (buildDeviceInfo kitchen_snapshot) second_record
                  {| id := "M1-1"; guid := "M1"; name := Some "Pantry";
                     type := SWITCH; index := Int 1;
                     macAddress := Some "aa:bb:cc:dd:ee:ff";
                     roomName := None; gatewayId := Some "G1" |}).
  { exact (Stored_switch (buildDeviceInfo kitchen_snapshot) second_record
             "ONOFF GANG1" "M1"
             {| gateway := Some "G1";
                info_macAddress := Some "aa:bb:cc:dd:ee:ff" |}
             eq_refl eq_refl eq_refl eq_refl eq_refl eq_refl eq_refl eq_refl). }
  split; [exact Hst |].
  pose proof (first_record_wins kitchen_snapshot [first_record] [] second_record
                _ eq_refl Hst) as H.
  simpl id in H. simpl app in H. rewrite H. vm_compute. reflexivity.
Defined.

(** Selecting devices keeps their ids distinct. *)
Lemma distinct_ids_filter (keep : Device -> bool) (devs : list Device) :
  NoDup (map id devs) -> NoDup (map id (filter keep devs)).
Proof.
  induction devs as [|d devs IH]; [trivial |].
  simpl map. intros Hnd. apply NoDup_cons in Hnd as [Hd Hnd].
  rewrite filter_cons. destruct (decide (keep d)); [| now apply IH]. simpl map.
  apply NoDup_cons. split; [| now apply IH].
  intros Hin. apply Hd. apply list_elem_of_In. apply list_elem_of_In in Hin.
  apply in_map_iff in Hin as (x & Hx & Hin).
  apply list_elem_of_In, list_elem_of_filter in Hin as [_ Hin].
  apply in_map_iff. exists x. split; [exact Hx | now apply list_elem_of_In].
Qed.

Lemma registry_ids_keys (devs : list (string * Device)) :
  Forall (fun kd => device_ok (fst kd) (snd kd)) devs ->
  map id (OMap.values devs) = OMap.keys devs.
Proof.
  induction 1 as [|[k d] devs [Hk _] _ IH]; [reflexivity |].
  unfold OMap.values, OMap.keys in *. simpl in *. now rewrite IH, Hk.
Qed.

Lemma mac_is_spec (mac : string) (d : Device) :
  mac_is mac d = true <-> macAddress d = Some mac.
Proof.
  unfold mac_is. destruct (macAddress d) as [m |]; [| split; discriminate].
  destruct (String.eqb_spec m mac) as [-> | Hne]; split; congruence.
Qed.

(** X12.  The two lookups of the registry agree: a device is among those
    found for a MAC address exactly when it is the device stored under
    its own id and has that address; the devices found for one address
    have pairwise distinct ids. *)
Theorem lookup_by_mac_and_by_id (data : AfterLoginResp) (mac : string) :
  let this := fromAfterLoginResp data in
  (forall d, In d (getByMacAddress this mac)
             <-> getByName this (id d) = Some d /\ macAddress d = Some mac)
  /\ NoDup (map id (getByMacAddress this mac)).
Proof.
  intros this. pose proof (fromAfterLoginResp_ok data) as [Hnd Hall].
  fold this in Hnd, Hall. split.
  - intros d. unfold getByMacAddress, getByName.
    rewrite <- list_elem_of_In, list_elem_of_filter, Is_true_true, mac_is_spec.
    rewrite list_elem_of_In. unfold OMap.values. rewrite in_map_iff.
    split.
    + intros [Hmac ([k e] & <- & Hin)]. split; [| exact Hmac]. simpl in *.
      rewrite List.Forall_forall in Hall. destruct (Hall _ Hin) as [Hk _].
      simpl in Hk. rewrite Hk. now apply OMap_In_get.
    + intros [Hget Hmac]. split; [exact Hmac |].
      exists (id d, d). split; [reflexivity | now apply OMap_get_In].
  - unfold getByMacAddress. apply distinct_ids_filter.
    now rewrite registry_ids_keys.
Qed.

Lemma lower_char_idem (c : ascii) :
  Js.lower_char (Js.lower_char c) = Js.lower_char c.
Proof. by_ascii_cases c. Qed.

Lemma toLowerCase_idem (s : string) :
  Js.toLowerCase (Js.toLowerCase s) = Js.toLowerCase s.
Proof.
  unfold Js.toLowerCase. induction s as [|c s IH]; simpl; [reflexivity |].
  now rewrite lower_char_idem, IH.
Qed.

Lemma filter_none {A} (p : A -> bool) (l : list A) :
  (forall a, In a l -> p a = false) -> filter p l = [].
Proof.
  induction l as [|a l IH]; intros H; [reflexivity |].
  rewrite filter_cons. destruct (decide (p a)) as [Hp | _].
  - rewrite (H a) in Hp by now left. destruct Hp.
  - apply IH. intros b Hb. apply H. now right.
Qed.

Lemma registry_mac_lower (data : AfterLoginResp) (k mac : string) (d : Device) :
  getByName (fromAfterLoginResp data) k = Some d ->
  macAddress d = Some mac -> Js.toLowerCase mac = mac.
Proof.
  intros Hget Hmac.
  destruct (fromAfterLoginResp_stored data k d Hget) as (_ & sub & _ & Hst).
  assert (Hinfo : exists guid info,
             buildDeviceInfo data !! guid = Some info
             /\ info_macAddress info = Some mac).
  { destruct Hst; simpl in Hmac; eauto. }
  destruct Hinfo as (guid & info & Hinfo & Hm).
  destruct (buildDeviceInfo_from data guid info Hinfo)
    as [_ [Hnone | (dd & m & _ & _ & _ & Hlow)]]; [congruence |].
  rewrite Hm in Hlow. injection Hlow as ->. apply toLowerCase_idem.
Qed.

(** X13.  Stored MAC addresses are in lower case, and the lookup
    compares exactly: an address that is not its own lower case finds no
    device, and a status frame that carries one is cached but decoded
    for nobody, so nothing is published for it. *)
Theorem upper_case_mac_matches_nothing (data : AfterLoginResp)
    (mac payload : string) (w : world) :
  Js.toLowerCase mac <> mac ->
  deviceService (service w) = Some (fromAfterLoginResp data) ->
  getByMacAddress (fromAfterLoginResp data) mac = []
  /\ run (handleBleDeviceData mac payload) w = (Ok tt, w, [Log DEBUG]).
Proof.
  intros Hcase Hds.
  assert (Hnone : getByMacAddress (fromAfterLoginResp data) mac = []).
  { unfold getByMacAddress. apply filter_none. intros d Hin.
    destruct (mac_is mac d) eqn:Hmac; [| reflexivity].
    apply mac_is_spec in Hmac. exfalso. apply Hcase.
    unfold OMap.values in Hin. apply in_map_iff in Hin as ([k e] & <- & Hin).
    simpl in Hmac.
    assert (Hk : getByName (fromAfterLoginResp data) k = Some e).
    { apply OMap_In_get; [apply fromAfterLoginResp_ok | exact Hin]. }
    exact (registry_mac_lower data k mac e Hk Hmac). }
  split; [exact Hnone |].
  unfold handleBleDeviceData, run, mbind, M_bind, get_world.
  rewrite Hds, Hnone. reflexivity.
Qed.

Lemma upper_case_mac_matches_nothing_witness :
  Js.toLowerCase "AA:BB:CC:DD:EE:FF" <> "AA:BB:CC:DD:EE:FF"
  /\ getByMacAddress (fromAfterLoginResp kitchen_snapshot) "AA:BB:CC:DD:EE:FF" = []
  /\ getByMacAddress (fromAfterLoginResp kitchen_snapshot) "aa:bb:cc:dd:ee:ff"
     = [kitchen].
Proof.
  assert (Hcase : Js.toLowerCase "AA:BB:CC:DD:EE:FF" <> "AA:BB:CC:DD:EE:FF")
    by (vm_compute; discriminate).
  split; [exact Hcase | split].
  - exact (proj1 (upper_case_mac_matches_nothing kitchen_snapshot
                    "AA:BB:CC:DD:EE:FF" "0201064002"
                    {| service := {| deviceService :=
                                       Some (fromAfterLoginResp kitchen_snapshot);
                                     mqttService := true |};
                       topicPrefix := "homebridge";
                       bleDeviceCache := [] |}
                    Hcase eq_refl)).
  - vm_compute. reflexivity.
Defined.

(** ** Decoding of arbitrary tails *)

Lemma all_ascii_complete (c : ascii) : existsb (Ascii.eqb c) all_ascii = true.
Proof. by_ascii_cases c. Qed.

Lemma ascii_forallb (p : ascii -> bool) :
  forallb p all_ascii = true -> forall c, p c = true.
Proof.
  intros H c. rewrite forallb_forall in H. apply H.
  pose proof (all_ascii_complete c) as Hc.
  apply existsb_exists in Hc as (x & Hin & Hx).
  apply Ascii.eqb_eq in Hx. now subst.
Qed.

Lemma brightness_in_range_all (e f : ascii) : brightness_in_range e f = true.
Proof.
  apply (ascii_forallb (brightness_in_range e)).
  revert e.
  apply (ascii_forallb (fun e => forallb (brightness_in_range e) all_ascii)).
  vm_compute. reflexivity.
Qed.

Lemma string_6 (t : string) :
  6 <= Js.len t ->
  exists a b c d e f post,
    t = String a (String b (String c (String d (String e (String f post))))).
Proof.
  unfold Js.len.
  destruct t as [|a [|b [|c [|d [|e [|f post]]]]]]; simpl String.length;
    try lia.
  intros _. now exists a, b, c, d, e, f, post.
Qed.

(** X14.  Whatever the tail, the dimming decoder publishes nothing, or
    a [Brightness] update followed by an [On] update whose value is
    [brightness > 0]; the brightness lies between -6 and 100 and is
    negative only when the two characters at offsets 4 and 5 start with
    a minus sign, which [parseInt] accepts.  The tail [0201-f] gives
    brightness -6. *)
Theorem dimming_brightness_range (device : Device) (t : string) (w : world) :
  (run (handleDimmingBLEData device t) w = (Ok tt, w, [Log DEBUG; Log WARN])
   \/ exists b,
        -6 <= b <= 100
        /\ (b < 0 -> Js.startsWith (Js.substring t 4 6) "-" = true)
        /\ run (handleDimmingBLEData device t) w =
           (Ok tt, w,
            [Log DEBUG;
             statusUpdate (topicPrefix w) device "Brightness" (JNum (Int b));
             statusUpdate (topicPrefix w) device "On" (JBool (0 <? b))]))
  /\ run (handleDimmingBLEData device "0201-f") w =
     (Ok tt, w,
      [Log DEBUG;
       statusUpdate (topicPrefix w) device "Brightness" (JNum (Int (-6)));
       statusUpdate (topicPrefix w) device "On" (JBool false)]).
Proof.
  split; [| rewrite handleDimmingBLEData_trace; vm_compute; reflexivity].
  rewrite handleDimmingBLEData_trace.
  destruct (Z.ltb_spec (Js.len t) 6) as [Hlt | Hge]; [now left |].
  destruct (string_6 t Hge) as (a & b & c & d & e & f & post & ->).
  rewrite substring_4_6.
  pose proof (brightness_in_range_all e f) as H.
  unfold brightness_in_range in H.
  destruct (Js.parseInt (String e (String f "")) 16) as [v | | s];
    [| now left | destruct s; vm_compute in H; discriminate].
  cbv zeta. destruct (scaleTo100 (Int v)) as [z | | s]; try discriminate.
  right. exists z.
  apply andb_prop in H as [H Hneg]. apply andb_prop in H as [Hlo Hhi].
  apply Z.leb_le in Hlo, Hhi.
  split; [lia | split; [| reflexivity]].
  intros Hz. apply orb_prop in Hneg as [Hpos | Hminus].
  - apply Z.leb_le in Hpos. lia.
  - apply Ascii.eqb_eq in Hminus. subst e. reflexivity.
Qed.

Lemma string_snoc (t : string) :
  t = "" \/ exists pre c, t = pre ++ String c "".
Proof.
  induction t as [|a t IH]; [now left |]. right.
  destruct IH as [-> | (pre & c & ->)].
  - now exists "", a.
  - exists (String a pre), c. now rewrite app_cons.
Qed.

(** The array of [handleSwitchBLEData] has three entries, whatever the
    tail. *)
Lemma lightStates_length (t : string) : length (lightStates t) = 3%nat.
Proof.
  destruct (string_snoc t) as [-> | (pre & c & ->)]; [reflexivity |].
  unfold lightStates. rewrite slice_last. by_ascii_cases c.
Qed.

Lemma handleSwitchBLEData_trace (device : Device) (t : string) (w : world) :
  type device = SWITCH ->
  run (handleSwitchBLEData device t) w =
  (Ok tt, w,
   Log DEBUG ::
   match Js.array_get (lightStates t) (Js.sub (index device) (Int 1)) with
   | None => [Log WARN]
   | Some isOn =>
       [statusUpdate (topicPrefix w) device "On" (JBool (String.eqb isOn "1"))]
   end).
Proof.
  intros Hty. unfold handleSwitchBLEData, setCharacteristic, statusUpdate.
  rewrite Hty. run_M.
  now destruct (Js.array_get _ _).
Qed.

(** X15.  Whatever the tail, the array the switch decoder reads has
    three entries: a Switch device of index 1, 2 or 3 gets exactly one
    [On] update, a Switch device of any other index (4 included) gets a
    warning and no update.  When the last character of the tail is not a
    hexadecimal digit, or the tail is empty, the update says off. *)
Theorem switch_decoding_any_tail (device : Device) (t : string) (w : world) :
  type device = SWITCH ->
  length (lightStates t) = 3%nat
  /\ (forall i, 1 <= i <= 3 -> index device = Int i ->
        exists on,
          run (handleSwitchBLEData device t) w =
          (Ok tt, w,
           [Log DEBUG; statusUpdate (topicPrefix w) device "On" (JBool on)]))
  /\ ((forall i, 1 <= i <= 3 -> index device <> Int i) ->
      run (handleSwitchBLEData device t) w = (Ok tt, w, [Log DEBUG; Log WARN]))
  /\ (Js.parseInt (Js.slice_from t (-1)) 16 = NaN ->
      forall i, 1 <= i <= 3 -> index device = Int i ->
        run (handleSwitchBLEData device t) w =
        (Ok tt, w,
         [Log DEBUG; statusUpdate (topicPrefix w) device "On" (JBool false)])).
Proof.
  intros Hty. pose proof (lightStates_length t) as Hlen.
  split; [exact Hlen | split; [| split]].
  - intros i Hi Hidx. rewrite (handleSwitchBLEData_trace _ _ _ Hty), Hidx.
    unfold Js.sub, Js.array_get.
    destruct (Z.leb_spec 0 (i - 1)) as [_ | Hneg]; [| lia].
    destruct (nth_error (lightStates t) (Z.to_nat (i - 1))) as [x |] eqn:Hx.
    + now exists (String.eqb x "1").
    + apply nth_error_None in Hx. lia.
  - intros Hout. rewrite (handleSwitchBLEData_trace _ _ _ Hty).
    destruct (index device) as [k | | s] eqn:Hidx; [| reflexivity |].
    + unfold Js.sub, Js.array_get.
      destruct (Z.leb_spec 0 (k - 1)) as [Hpos | Hneg]; [| reflexivity].
      destruct (nth_error (lightStates t) (Z.to_nat (k - 1))) as [x |] eqn:Hx;
        [| reflexivity].
      exfalso. apply (Hout k); [| reflexivity].
      assert (Z.to_nat (k - 1) < 3)%nat; [| lia].
      rewrite <- Hlen. apply nth_error_Some. congruence.
    + now destruct s.
  - intros Hnan i Hi Hidx. rewrite (handleSwitchBLEData_trace _ _ _ Hty), Hidx.
    assert (Hls : lightStates t = ["a"; "N"; "0"]).
    { unfold lightStates. rewrite Hnan. vm_compute. reflexivity. }
    rewrite Hls.
    assert (Hcases : i = 1 \/ i = 2 \/ i = 3) by lia.
    destruct Hcases as [-> | [-> | ->]]; reflexivity.
Qed.

Lemma switch_decoding_any_tail_witness :
  type kitchen = SWITCH
  /\ run (handleSwitchBLEData kitchen "0201064x") home =
     (Ok tt, home,
      [Log DEBUG; statusUpdate "homebridge" kitchen "On" (JBool false)]).
Proof.
  split; [reflexivity |].
  apply (proj2 (proj2 (proj2 (switch_decoding_any_tail kitchen "0201064x" home
                                eq_refl)))
           ltac:(vm_compute; reflexivity) 1); [lia | reflexivity].
Defined.

(** ** Accepted hub commands *)

(** X16.  The data byte of a switch command outside the channels 1 to 4:
    for an index from 5 to 8 the select bit falls outside the array and
    only the state bit remains; for an index of 9 or more, and for an
    index that is not a number (a label such as [ONOFF GANGx]), the byte
    is [00] whatever the requested state.  On the channels 1 to 4 the
    byte is never [00].  A snapshot record labelled [ONOFF GANGx] does
    give a stored Switch whose index is not a number. *)
Theorem switch_data_out_of_range (on : bool) :
  (forall i, 5 <= i <= 8 ->
     switchData (Int i) on = hex2 (if on then 2 ^ (i - 1) else 0))
  /\ (forall i, 9 <= i -> switchData (Int i) on = "00")
  /\ switchData NaN on = "00"
  /\ (forall i, 1 <= i <= 4 -> switchData (Int i) on <> "00")
  /\ option_map index
       (getByName
          (fromAfterLoginResp
             (with_subdevices kitchen_snapshot
                [{| device_button_group := Some "ONOFF GANGx";
                    ps_device := Some "M1";
                    title := Some "Kitchen";
                    room_name := None |}]))
          "M1-NaN")
     = Some NaN.
Proof.
  split; [| split; [| split; [| split]]].
  - intros i Hi.
    assert (Hc : i = 5 \/ i = 6 \/ i = 7 \/ i = 8) by lia.
    destruct Hc as [-> | [-> | [-> | ->]]]; destruct on; vm_compute; reflexivity.
  - intros i Hi. unfold switchData. rewrite switchBits_beyond by exact Hi.
    vm_compute. reflexivity.
  - destruct on; vm_compute; reflexivity.
  - intros i Hi.
    destruct (Z_cases_1_4 i Hi) as [-> | [-> | [-> | ->]]]; destruct on;
      vm_compute; discriminate.
  - vm_compute. reflexivity.
Qed.

Section Dispatch.

Variable md5 : string -> string.


End Dispatch.


(** ** The revisions compared *)

Lemma publishes_app (a b : list event) :
  publishes (a ++ b)%list = (publishes a ++ publishes b)%list.
Proof. unfold publishes. apply filter_app. Qed.

Lemma publishes_flat_map {A} (f g : A -> list event) (l : list A) :
  (forall x, In x l -> publishes (f x) = publishes (g x)) ->
  publishes (flat_map f l) = publishes (flat_map g l).
Proof.
  induction l as [|x l IH]; intros H; [reflexivity |].
  simpl. rewrite !publishes_app, (H x) by now left.
  f_equal. apply IH. intros y Hy. apply H. now right.
Qed.

Lemma publishes_log (lvl : LogLevel) (t : list event) :
  publishes (Log lvl :: t) = publishes t.
Proof. reflexivity. Qed.

Lemma quiet_emit (ev : event) : quiet (emit ev).
Proof. intros w. now split. Qed.

Lemma quiet_Rev0_handleSwitchPayload (mac status : string) :
  quiet (Rev0.handleSwitchPayload mac status).
Proof.
  unfold Rev0.handleSwitchPayload. apply quiet_get_world. intros w.
  apply quiet_for_each. intros d.
  destruct (negb _); [apply quiet_ret |].
  destruct (Rev0.state_at _ _); [| apply quiet_logger].
  apply quiet_get_world. intros w'. apply quiet_emit.
Qed.

Lemma quiet_Rev1_handleSwitchPayload (mac status : string) :
  quiet (Rev1.handleSwitchPayload mac status).
Proof.
  unfold Rev1.handleSwitchPayload. apply quiet_get_world. intros w.
  apply quiet_for_each. intros d.
  destruct (negb _); [apply quiet_ret |].
  destruct (Js.array_get _ _); [| apply quiet_logger].
  apply quiet_get_world. intros w'. apply quiet_emit.
Qed.

Lemma quiet_Rev1_handleBleDeviceData (mac data : string) :
  quiet (Rev1.handleBleDeviceData mac data).
Proof.
  unfold Rev1.handleBleDeviceData.
  apply quiet_bind; [apply quiet_logger | intros _].
  destruct (String.eqb _ _);
    [apply quiet_Rev1_handleSwitchPayload | apply quiet_logger].
Qed.

Lemma quiet_Rev0_handleBleDeviceMessage (p : string) :
  quiet (Rev0.handleBleDeviceMessage p).
Proof.
  unfold Rev0.handleBleDeviceMessage.
  apply quiet_bind; [apply quiet_logger | intros _].
  destruct (String.eqb _ _);
    [apply quiet_Rev0_handleSwitchPayload | apply quiet_logger].
Qed.

Lemma state_at_parseSwitchStatus (status : string) (i : number) :
  Rev0.state_at (Rev0.parseSwitchStatus status) i
  = option_map (fun bit => String.eqb bit "1")
      (Js.array_get
         (rev (Js.chars
                 (Js.slice (Js.padStart
                              (Js.toString_radix (Js.parseInt status 16) 2) 4 "0")
                    0 (-1)))) i).
Proof.
  unfold Rev0.state_at, Rev0.parseSwitchStatus, Js.array_get.
  destruct i as [k | |]; try reflexivity.
  destruct (0 <=? k); [| reflexivity].
  apply nth_error_map.
Qed.

(** The two earlier decoders publish the same updates. *)
Lemma publishes_Rev0_Rev1 (mac status : string) (w : world) :
  publishes (trace (Rev0.handleSwitchPayload mac status) w)
  = publishes (trace (Rev1.handleSwitchPayload mac status) w).
Proof.
  unfold Rev0.handleSwitchPayload, Rev1.handleSwitchPayload.
  rewrite !trace_get_world.
  rewrite !trace_for_each.
  - apply publishes_flat_map. intros d _.
    destruct (negb _); [reflexivity |].
    rewrite state_at_parseSwitchStatus.
    destruct (Js.array_get _ _); reflexivity.
  - intros d. destruct (negb _); [apply quiet_ret |].
    destruct (Js.array_get _ _); [| apply quiet_logger].
    apply quiet_get_world. intros w'. apply quiet_emit.
  - intros d. destruct (negb _); [apply quiet_ret |].
    destruct (Rev0.state_at _ _); [| apply quiet_logger].
    apply quiet_get_world. intros w'. apply quiet_emit.
Qed.

Lemma trace_Rev1_handleSwitchPayload (mac status : string) (w : world) :
  trace (Rev1.handleSwitchPayload mac status) w
  = flat_map
      (fun device =>
         if negb (DeviceType_eqb (type device) SWITCH) then []
         else match Js.array_get
                      (rev (Js.chars
                              (Js.slice
                                 (Js.padStart
                                    (Js.toString_radix (Js.parseInt status 16) 2)
                                    4 "0") 0 (-1))))
                      (Js.sub (index device) (Int 1)) with
              | None => [Log WARN]
              | Some isOn =>
                  [statusUpdate (topicPrefix w) device "On"
                     (JBool (String.eqb isOn "1"))]
              end)
      (found w mac).
Proof.
  unfold Rev1.handleSwitchPayload. rewrite trace_get_world.
  rewrite trace_for_each.
  - apply flat_map_ext. intros d.
    destruct (negb _); [reflexivity |].
    destruct (Js.array_get _ _); reflexivity.
  - intros d. destruct (negb _); [apply quiet_ret |].
    destruct (Js.array_get _ _); [| apply quiet_logger].
    apply quiet_get_world. intros w'. apply quiet_emit.
Qed.

(** On a frame that an earlier decoder accepts, for devices that are all
    switches, the current decoder publishes the same updates. *)
Lemma publishes_Rev1_current (mac data : string) (w : world) :
  (forall d, In d (found w mac) -> type d = SWITCH) ->
  publishes (trace (Rev1.handleSwitchPayload mac (Js.slice_from data (-1))) w)
  = publishes (trace (handleBleDeviceData mac data) w).
Proof.
  intros Hsw. rewrite trace_Rev1_handleSwitchPayload.
  unfold handleBleDeviceData. rewrite trace_get_world.
  unfold found in *.
  destruct (deviceService (service w)) as [ds |]; [| reflexivity].
  destruct (getByMacAddress ds mac) as [|d l] eqn:E; [reflexivity |].
  rewrite trace_for_each by apply quiet_decodeFor.
  apply publishes_flat_map. intros x Hx.
  unfold decodeFor. rewrite (Hsw x Hx).
  unfold trace. rewrite (handleSwitchBLEData_trace x data w (Hsw x Hx)).
  simpl snd. rewrite publishes_log. reflexivity.
Qed.

(** X18.  The decoder through its revisions, on a relay payload.  The
    first two revisions publish the same updates; the first leaves the
    state as it is, the second stores the frame in the replay cache.
    Both decode only frames whose three characters before the last are
    [400], and publish nothing for any other frame.  On a [400] frame
    whose devices are all switches, the current decoder publishes what
    they publish. *)
Theorem decoder_revisions (p : string) (w : world) :
  (result (Rev0.handleBleDeviceMessage p) w = Ok tt
   /\ final (Rev0.handleBleDeviceMessage p) w = w)
  /\ (result (Rev1.extractAndCacheBleDeviceMessage p) w = Ok tt
      /\ final (Rev1.extractAndCacheBleDeviceMessage p) w = cached w p)
  /\ publishes (trace (Rev0.handleBleDeviceMessage p) w)
     = publishes (trace (Rev1.extractAndCacheBleDeviceMessage p) w)
  /\ (Js.slice (frame_data p) (-4) (-1) <> "400" ->
      publishes (trace (Rev1.extractAndCacheBleDeviceMessage p) w) = [])
  /\ (Js.slice (frame_data p) (-4) (-1) = "400" ->
      (forall d, In d (found w (frame_mac p)) -> type d = SWITCH) ->
      publishes (trace (Rev1.extractAndCacheBleDeviceMessage p) w)
      = publishes (trace (extractAndCacheBleDeviceMessage p) w)).
Proof.
  assert (Hrun1 : run (Rev1.extractAndCacheBleDeviceMessage p) w
                  = (Ok tt, cached w p,
                     Log DEBUG
                     :: trace (Rev1.handleBleDeviceData (frame_mac p) (frame_data p))
                          (cached w p))).
  { unfold Rev1.extractAndCacheBleDeviceMessage, run, mbind, M_bind, get_world,
      put_world, logger, emit.
    pose proof (quiet_run _ (cached w p)
                  (quiet_Rev1_handleBleDeviceData (frame_mac p) (frame_data p)))
      as Q.
    unfold run in Q. unfold cached, frame_mac, frame_data in *.
    rewrite Q. reflexivity. }
  assert (Htr1 : forall w0,
             trace (Rev1.handleBleDeviceData (frame_mac p) (frame_data p)) w0
             = Log DEBUG
               :: if String.eqb (Js.slice (frame_data p) (-4) (-1)) "400"
                  then trace (Rev1.handleSwitchPayload (frame_mac p)
                                (Js.slice_from (frame_data p) (-1))) w0
                  else [Log DEBUG]).
  { intros w0. unfold Rev1.handleBleDeviceData.
    rewrite trace_bind by apply quiet_logger.
    now destruct (String.eqb _ _). }
  assert (Htr0 : trace (Rev0.handleBleDeviceMessage p) w
                 = Log DEBUG
                   :: if String.eqb (Js.slice (frame_data p) (-4) (-1)) "400"
                      then trace (Rev0.handleSwitchPayload (frame_mac p)
                                    (Js.slice_from (frame_data p) (-1))) w
                      else [Log DEBUG]).
  { unfold Rev0.handleBleDeviceMessage.
    rewrite trace_bind by apply quiet_logger.
    fold (frame_mac p) (frame_data p).
    now destruct (String.eqb _ _). }
  assert (Hsame : forall mac status,
             trace (Rev1.handleSwitchPayload mac status) (cached w p)
             = trace (Rev1.handleSwitchPayload mac status) w).
  { intros mac status. now rewrite !trace_Rev1_handleSwitchPayload. }
  split; [apply quiet_Rev0_handleBleDeviceMessage |].
  split; [unfold result, final; now rewrite Hrun1 |].
  unfold trace at 2 3 4. rewrite Hrun1. simpl snd.
  rewrite !publishes_log, Htr1, Htr0, !publishes_log.
  split; [| split].
  - destruct (String.eqb _ _); [| reflexivity].
    now rewrite Hsame, publishes_Rev0_Rev1.
  - intros Hne. apply String.eqb_neq in Hne. now rewrite Hne.
  - intros H400 Hsw. rewrite H400. simpl.
    rewrite Hsame, (publishes_Rev1_current _ _ _ Hsw).
    unfold trace at 2. rewrite trace_extractAndCache. simpl snd.
    rewrite publishes_log.
    unfold cached. now rewrite handleBleDeviceData_cache.
Qed.

Section EncoderRevisions.

Variable md5 : string -> string.

Lemma Rev1_switchDevice_cases (this : DeviceService) (id : string) (on : bool)
    (w : world) :
  run (Rev1.switchDevice md5 this id on) w =
  match OMap.get id (devices this) with
  | None =>
      (Throw (Error ("Device with id " ++ id ++ " not found")), w, [Log DEBUG])
  | Some device =>
      match type device, macAddress device with
      | DIMMING, _ =>
          (Throw (Error ("Device with id " ++ id ++ " is not a switch")), w,
           [Log DEBUG])
      | SWITCH, None => (Throw TypeError, w, [Log DEBUG])
      | SWITCH, Some mac =>
          (Ok tt, w,
           Log DEBUG :: Log DEBUG ::
           if mqttService (service w)
           then [MqttPublish (commandTopic md5 (gatewayId device))
                   (writeCommand (guid device) mac
                      ("02" ++ reversedMac mac ++ "8000"
                       ++ Js.toString_radix (index device) 16
                       ++ (if on then Js.toString_radix (index device) 16
                           else "0")
                       ++ "00"))]
           else [])
      end
  end.
Proof.
  unfold Rev1.switchDevice. run_M.
  destruct (OMap.get id (devices this)) as [device |]; [| reflexivity].
  destruct (type device); simpl; [| reflexivity].
  destruct (macAddress device) as [mac |]; [| reflexivity]. simpl.
  now destruct (mqttService (service w)).
Qed.

(** X19.  The switch encoder through its revisions.  The earlier
    encoder writes the channel index twice (or the index and a zero) as
    the data byte, the current one sets a select bit and a state bit.
    Both raise on the same calls, with the same errors; for a stored
    switch on the channels 1 to 4 they publish the same command exactly
    on the channels 1 and 2. *)
Theorem encoder_revisions (this : DeviceService) (id : string) (on : bool)
    (w : world) :
  (forall e,
     result (Rev1.switchDevice md5 this id on) w = Throw e
     <-> result (switchDevice md5 this id on) w = Throw e)
  /\ (forall device mac i,
        OMap.get id (devices this) = Some device ->
        type device = SWITCH ->
        macAddress device = Some mac ->
        mqttService (service w) = true ->
        index device = Int i ->
        1 <= i <= 4 ->
        (run (Rev1.switchDevice md5 this id on) w
         = run (switchDevice md5 this id on) w
         <-> i <= 2)).
Proof.
  split.
  - intros e. unfold result.
    rewrite Rev1_switchDevice_cases, switchDevice_cases.
    destruct (OMap.get id (devices this)) as [device |]; [| reflexivity].
    destruct (type device), (macAddress device); simpl; split;
      first [discriminate | trivial].
  - intros device mac i Hget Hty Hmac Hmq Hidx Hi.
    rewrite Rev1_switchDevice_cases, switchDevice_cases.
    rewrite Hget, Hty, Hmac, Hmq, Hidx.
    destruct (Z_cases_1_4 i Hi) as [-> | [-> | [-> | ->]]]; destruct on;
      (split;
       [ intros H; try lia; exfalso;
         unfold writeCommand in H; injection H as H;
         apply (app_inv_head_string (reversedMac mac)) in H;
         vm_compute in H; discriminate
       | intros Hle; try lia; repeat f_equal ]).
Qed.

End EncoderRevisions.

Lemma decoder_revisions_witness :
  Js.slice (frame_data "aa:bb:cc:dd:ee:ff0201064002") (-4) (-1) = "400"
  /\ publishes
       (trace (Rev1.extractAndCacheBleDeviceMessage "aa:bb:cc:dd:ee:ff0201064002")
          home)
     = publishes
         (trace (extractAndCacheBleDeviceMessage "aa:bb:cc:dd:ee:ff0201064002")
            home).
Proof.
  split; [reflexivity |].
  apply (proj2 (proj2 (proj2 (proj2
           (decoder_revisions "aa:bb:cc:dd:ee:ff0201064002" home)))));
    [reflexivity |].
  intros d Hin. vm_compute in Hin. destruct Hin as [<- | []]. reflexivity.
Defined.

Lemma encoder_revisions_witness :
  run (Rev1.switchDevice sample_digest registry "M1-1" true) home
  = run (switchDevice sample_digest registry "M1-1" true) home.
Proof.
  apply (proj2 (encoder_revisions sample_digest registry "M1-1" true home)
           kitchen "aa:bb:cc:dd:ee:ff" 1);
    [reflexivity | reflexivity | reflexivity | reflexivity | reflexivity
    | lia | lia].
Defined.

(** ** Start-up and the cloud envelope *)

(** The first piece of a split: the text before the first separator. *)
Lemma split_on_head (sep : ascii) (s : string) :
  exists first pieces rest,
    Js.split_on sep s = first :: pieces
    /\ s = first ++ rest
    /\ has_char sep first = false
    /\ (rest = "" \/ exists r, rest = String sep r).
Proof.
  induction s as [|c s (first & pieces & rest & Hsplit & Hs & Hfree & Hrest)].
  - exists "", [], "". repeat split. now left.
  - simpl. destruct (Ascii.eqb c sep) eqn:Hc.
    + apply Ascii.eqb_eq in Hc. subst c.
      exists "", (Js.split_on sep s), (String sep s).
      repeat split. right. now exists s.
    + rewrite Hsplit. exists (String c first), pieces, rest.
      split; [reflexivity | split; [| split]].
      * now rewrite app_cons, <- Hs.
      * simpl. now rewrite Hc, Hfree.
      * exact Hrest.
Qed.

Lemma has_char_app (sep : ascii) (a b : string) :
  has_char sep (a ++ b) = has_char sep a || has_char sep b.
Proof.
  induction a as [|c a IH]; [reflexivity |].
  rewrite app_cons. simpl. now rewrite IH, orb_assoc.
Qed.

(** X20.  The session cookie the start-up script keeps is always
    defined: it is the text of the [set-cookie] header before its first
    comma or semicolon, and the whole header when it has neither. *)
Theorem session_cookie_prefix (setCookie : string) :
  exists cookie rest,
    sessionCookie setCookie = Ok (Some cookie)
    /\ setCookie = cookie ++ rest
    /\ has_char "," cookie = false
    /\ has_char ";" cookie = false
    /\ (rest = "" \/ exists r, rest = String "," r \/ rest = String ";" r).
Proof.
  unfold sessionCookie.
  destruct (split_on_head "," setCookie)
    as (first & ps1 & rest1 & Hsplit1 & Hs1 & Hfree1 & Hrest1).
  destruct (split_on_head ";" first)
    as (cookie & ps2 & rest2 & Hsplit2 & Hs2 & Hfree2 & Hrest2).
  rewrite Hsplit1.
  change (Js.array_get (first :: ps1) (Int 0)) with (Some first).
  cbv iota beta. rewrite Hsplit2.
  exists cookie, (rest2 ++ rest1).
  split; [reflexivity | split; [| split; [| split]]].
  - now rewrite <- app_assoc_string, <- Hs2.
  - rewrite Hs2, has_char_app in Hfree1. now apply orb_false_elim in Hfree1.
  - exact Hfree2.
  - destruct Hrest2 as [-> | (r & ->)].
    + rewrite app_nil_l. destruct Hrest1 as [-> | (r & ->)]; [now left |].
      right. exists r. now left.
    + right. exists (r ++ rest1). right. now rewrite app_cons.
Qed.

Lemma pad_two_digits (n : Z) : 0 <= n <= 99 -> two_digits n (pad (Int n)) = true.
Proof.
  intros H.
  apply (Z_range_forallb (fun n => two_digits n (pad (Int n))) 0 100);
    [vm_compute; reflexivity | lia].
Qed.

Lemma year_four_digits (n : Z) :
  1000 <= n <= 9999 -> four_digits n (Js.toString (Int n)) = true.
Proof.
  intros H.
  apply (Z_range_forallb (fun n => four_digits n (Js.toString (Int n))) 1000
           (Z.to_nat 9000));
    [vm_compute; reflexivity | lia].
Qed.

Lemma two_digits_inv (n : Z) (s : string) :
  two_digits n s = true ->
  exists a b, s = String a (String b "")
              /\ Js.Number (String a (String b "")) = Int n.
Proof.
  destruct s as [|a [|b [|]]]; try discriminate. intros H.
  exists a, b. split; [reflexivity | now apply number_eqb_eq].
Qed.

Lemma four_digits_inv (n : Z) (s : string) :
  four_digits n s = true ->
  exists a b c d, s = String a (String b (String c (String d "")))
                  /\ Js.Number (String a (String b (String c (String d ""))))
                     = Int n.
Proof.
  destruct s as [|a [|b [|c [|d [|]]]]]; try discriminate. intros H.
  exists a, b, c, d. split; [reflexivity | now apply number_eqb_eq].
Qed.

(** X21.  The date stamped on a cloud command has the fixed layout
    [YYYY-MM-DD HH:MM:SS]: for a four-digit year and readings in the
    ranges of [Date], it has 19 characters, its separators stand at
    offsets 4, 7, 10, 13 and 16, and each field reads back as the
    reading it was made from, the month counted from 1. *)
Theorem publish_date_layout (fullYear month date hours minutes seconds : Z) :
  1000 <= fullYear <= 9999 ->
  0 <= month <= 11 ->
  1 <= date <= 31 ->
  0 <= hours <= 23 ->
  0 <= minutes <= 59 ->
  0 <= seconds <= 59 ->
  let stamp := publishDate fullYear month date hours minutes seconds in
  Js.len stamp = 19
  /\ Js.Number (Js.substring stamp 0 4) = Int fullYear
  /\ Js.Number (Js.substring stamp 5 7) = Int (month + 1)
  /\ Js.Number (Js.substring stamp 8 10) = Int date
  /\ Js.Number (Js.substring stamp 11 13) = Int hours
  /\ Js.Number (Js.substring stamp 14 16) = Int minutes
  /\ Js.Number (Js.substring stamp 17 19) = Int seconds
  /\ Js.substring stamp 4 5 = "-" /\ Js.substring stamp 7 8 = "-"
  /\ Js.substring stamp 10 11 = " "
  /\ Js.substring stamp 13 14 = ":" /\ Js.substring stamp 16 17 = ":".
Proof.
  intros Hy Hmo Hd Hh Hmi Hs. unfold publishDate.
  destruct (four_digits_inv _ _ (year_four_digits fullYear Hy))
    as (y1 & y2 & y3 & y4 & -> & Hyear).
  destruct (two_digits_inv _ _ (pad_two_digits (month + 1) ltac:(lia)))
    as (m1 & m2 & -> & Hmonth).
  destruct (two_digits_inv _ _ (pad_two_digits date ltac:(lia)))
    as (d1 & d2 & -> & Hdate).
  destruct (two_digits_inv _ _ (pad_two_digits hours ltac:(lia)))
    as (h1 & h2 & -> & Hhours).
  destruct (two_digits_inv _ _ (pad_two_digits minutes ltac:(lia)))
    as (i1 & i2 & -> & Hminutes).
  destruct (two_digits_inv _ _ (pad_two_digits seconds ltac:(lia)))
    as (s1 & s2 & -> & Hseconds).
  cbv zeta.
  repeat split; try reflexivity; assumption.
Qed.

Lemma publish_date_layout_witness :
  publishDate 2026 10 3 9 5 0 = "2026-11-03 09:05:00"
  /\ Js.len (publishDate 2026 10 3 9 5 0) = 19.
Proof.
  split; [vm_compute; reflexivity |].
  apply (publish_date_layout 2026 10 3 9 5 0); lia.
Defined.

(** ** The registry through its revisions *)

Lemma fold_left_ext_In {A B} (f g : A -> B -> A) (l : list B) (a : A) :
  (forall a b, In b l -> f a b = g a b) -> fold_left f l a = fold_left g l a.
Proof.
  revert a. induction l as [|b l IH]; intros a H; [reflexivity |].
  simpl. rewrite (H a b) by now left.
  apply IH. intros a' b' Hb. apply H. now right.
Qed.

(** X22.  The registry through its revisions.  On a snapshot whose MAC
    addresses are already in lower case, none of whose records is an
    internal relay and none of whose labels starts with [DIMMING], the
    device service before dimmers builds the registry the current one
    builds.  On the specification's snapshot, whose address is in upper
    case, the earlier one keeps the address as given and the current one
    stores it in lower case. *)
Theorem registry_revisions (data : AfterLoginResp) :
  (forall dd mac, In dd (device data) -> dd_mac_address dd = Some mac ->
                  Js.toLowerCase mac = mac) ->
  (forall sub, In sub (profile_subdevice data) -> internal_relay sub = false) ->
  (forall sub group, In sub (profile_subdevice data) ->
                     device_button_group sub = Some group ->
                     Js.startsWith group "DIMMING" = false) ->
  Rev1Service.fromAfterLoginResp data = fromAfterLoginResp data
  /\ option_map macAddress
       (getByName (Rev1Service.fromAfterLoginResp kitchen_snapshot) "M1-1")
     = Some (Some "AA:BB:CC:DD:EE:FF")
  /\ option_map macAddress
       (getByName (fromAfterLoginResp kitchen_snapshot) "M1-1")
     = Some (Some "aa:bb:cc:dd:ee:ff").
Proof.
  intros Hlow Hrel Hdim.
  split; [| split; vm_compute; reflexivity].
  unfold Rev1Service.fromAfterLoginResp, fromAfterLoginResp, buildDeviceInfo.
  f_equal.
  rewrite (fold_left_ext_In Rev1Service.addMacAddress addMacAddress).
  - apply fold_left_ext_In. intros devs sub Hsub.
    unfold Rev1Service.addSubdevice, addSubdevice.
    destruct (device_button_group sub) as [group |] eqn:Hg; [| reflexivity].
    destruct (negb (Js.truthy (Some group))); [reflexivity |]. simpl orb.
    destruct (Js.startsWith group "ONOFF GANG") eqn:Hsw; simpl negb; cbv iota.
    + unfold addSwitch. fold (internal_relay sub).
      now rewrite (Hrel sub Hsub).
    + now rewrite (Hdim sub group Hsub Hg).
  - intros m dd Hdd. unfold Rev1Service.addMacAddress, addMacAddress.
    destruct (_ || _); [reflexivity |].
    destruct (dd_name dd) as [n |]; [| reflexivity].
    destruct (dd_mac_address dd) as [mac |] eqn:Hmac; [| reflexivity].
    now rewrite (Hlow dd mac Hdd Hmac).
Qed.

Lemma registry_revisions_witness :
  devices (Rev1Service.fromAfterLoginResp lower_snapshot) = [("M1-1", kitchen)]
  /\ Rev1Service.fromAfterLoginResp lower_snapshot
     = fromAfterLoginResp lower_snapshot.
Proof.
  split; [vm_compute; reflexivity |].
  apply (registry_revisions lower_snapshot).
  - intros dd mac [<- | []] [= <-]. reflexivity.
  - intros sub [<- | []]. reflexivity.
  - intros sub group [<- | []] [= <-]. reflexivity.
Defined.
